(** * The drug database loader (backend/database/load_data.py)

    A shallow embedding of the reconciliation and load pipeline: the field
    normalizers, the NDC cross-reference builder, the four table loaders,
    the two aggregate passes, the deduplicator and [main].

    Conventions.
    - A Python [str] is a [string]; its characters are read as the code
      points U+0000..U+00FF (the two extracts that feed the join keys are
      decoded as latin1, one byte per character). The other three
      extracts are decoded as UTF-8; of their cells only the dates are
      parsed, and [Uni] gives [parse_date] on text of any code points.
    - A value read from a pandas row is a [cell]; an integer cell holds a
      64-bit integer.
    - A Python exception is the [Raises] branch of [outcome]; a function
      that contains no raising operation is a plain function.
    - SQL is embedded with its three-valued logic: a column value is an
      [option] ([None] is NULL) and a condition is an [option bool]. *)

From Stdlib Require Import ZArith Ascii String List Bool Lia DecimalString DecimalPos.
From stdpp Require Import gmap strings list fin_maps.

Local Open Scope string_scope.
Local Open Scope Z_scope.

(** ** Python exceptions *)

Inductive extract := ProductsCsv | ExclusivityCsv | PatentCsv | SalesCsv | NdcCsv.

Inductive exn :=
  | ValueError
  | SourceReadError (f : extract).

Inductive outcome (A : Type) :=
  | Returns (a : A)
  | Raises (e : exn).
Arguments Returns {A} a.
Arguments Raises {A} e.

(** [try: body  except: return handler] with a bare [except]. *)
Definition try_except {A} (body : outcome A) (handler : A) : outcome A :=
  match body with
  | Returns a => Returns a
  | Raises _ => Returns handler
  end.

Definition obind {A B} (o : outcome A) (k : A -> outcome B) : outcome B :=
  match o with
  | Returns a => k a
  | Raises e => Raises e
  end.

(** ** Python string primitives *)

Module Py.

(** [str.isspace] on one character, for the code points below 256. *)
Definition isspace (c : ascii) : bool :=
  let n := N_of_ascii c in
  (((9 <=? n) && (n <=? 13)) || ((28 <=? n) && (n <=? 32))
   || (n =? 133) || (n =? 160))%N.

Definition isdigit (c : ascii) : bool :=
  let n := N_of_ascii c in ((48 <=? n) && (n <=? 57))%N.

Definition digit_val (c : ascii) : Z := Z.of_N (N_of_ascii c) - 48.

Fixpoint lstrip (s : string) : string :=
  match s with
  | String c r => if isspace c then lstrip r else s
  | EmptyString => EmptyString
  end.

Fixpoint rstrip (s : string) : string :=
  match s with
  | String c r =>
      match rstrip r with
      | EmptyString => if isspace c then EmptyString else String c EmptyString
      | r' => String c r'
      end
  | EmptyString => EmptyString
  end.

(** [s.strip()] *)
Definition strip (s : string) : string := rstrip (lstrip s).

(** [s.replace(c, '')] for a one-character [c]. *)
Fixpoint remove_char (c : ascii) (s : string) : string :=
  match s with
  | String d r => if Ascii.eqb c d then remove_char c r else String d (remove_char c r)
  | EmptyString => EmptyString
  end.

Fixpoint zeros (n : nat) : string :=
  match n with
  | O => EmptyString
  | S k => String "0" (zeros k)
  end.

(** [s.zfill(width)]: nothing is cut; the zeros go after a leading sign. *)
Definition zfill (s : string) (width : nat) : string :=
  if (width <=? String.length s)%nat then s
  else
    let fill := zeros (width - String.length s) in
    match s with
    | String c r =>
        if Ascii.eqb c "+" || Ascii.eqb c "-" then String c (fill ++ r)
        else fill ++ s
    | EmptyString => fill
    end.

(** [str(n)] for an [int] of at most [max_str_digits] digits, as every
    integer cell of a data frame is (a 64-bit integer); CPython raises
    [ValueError] for an [int] with more digits. *)
Definition str_of_int (z : Z) : string :=
  NilZero.string_of_int (Z.to_int z).

(** [sys.int_info.default_max_str_digits]: [int] refuses a text with more
    digits than this, leading zeros counted. *)
Definition max_str_digits : Z := 4300.

(** The whitespace [int] allows around the number: the ASCII whitespace
    and, of the other code points below 256, U+0085 and U+00A0. The
    separators U+001C..U+001F, which [str.strip] removes, are refused. *)
Definition int_space (c : ascii) : bool :=
  let n := N_of_ascii c in
  (((9 <=? n) && (n <=? 13)) || (n =? 32) || (n =? 133) || (n =? 160))%N.

Fixpoint int_lstrip (s : string) : string :=
  match s with
  | String c r => if int_space c then int_lstrip r else s
  | EmptyString => EmptyString
  end.

Fixpoint int_rstrip (s : string) : string :=
  match s with
  | String c r =>
      match int_rstrip r with
      | EmptyString => if int_space c then EmptyString else String c EmptyString
      | r' => String c r'
      end
  | EmptyString => EmptyString
  end.

Fixpoint digit_count (s : string) : Z :=
  match s with
  | String c r => (if isdigit c then 1 else 0) + digit_count r
  | EmptyString => 0
  end.

(** Digits of an [int] literal: single underscores between digits only. *)
Fixpoint int_digits (acc : Z) (after_digit : bool) (s : string) : option Z :=
  match s with
  | String c r =>
      if isdigit c then int_digits (10 * acc + digit_val c) true r
      else if Ascii.eqb c "_" && after_digit then int_digits acc false r
      else None
  | EmptyString => if after_digit then Some acc else None
  end.

(** The number after the sign, within the limit on the digits. *)
Definition int_literal (s : string) : option Z :=
  if digit_count s <=? max_str_digits then int_digits 0 false s else None.

(** [int(s)] in base 10: surrounding whitespace and one sign are allowed. *)
Definition int (s : string) : outcome Z :=
  let body :=
    match int_rstrip (int_lstrip s) with
    | String c r =>
        if Ascii.eqb c "-" then option_map Z.opp (int_literal r)
        else if Ascii.eqb c "+" then int_literal r
        else int_literal (String c r)
    | EmptyString => None
    end in
  match body with
  | Some z => Returns z
  | None => Raises ValueError
  end.

End Py.

(** ** Calendar dates and [datetime.strptime(_, '%Y-%m-%d')] *)

Record date := { year : Z; month : Z; day : Z }.

Definition is_leap (y : Z) : bool :=
  (y mod 4 =? 0) && (negb (y mod 100 =? 0) || (y mod 400 =? 0)).

Definition days_in_month (y m : Z) : Z :=
  if m =? 2 then (if is_leap y then 29 else 28)
  else if (m =? 4) || (m =? 6) || (m =? 9) || (m =? 11) then 30
  else 31.

(** What [datetime.date(y, m, d)] accepts. *)
Definition valid_date (y m d : Z) : bool :=
  (1 <=? y) && (y <=? 9999) && (1 <=? m) && (m <=? 12)
  && (1 <=? d) && (d <=? days_in_month y m).

(** [%d] is the regular expression
    [3[0-1]|[1-2]\d|0[1-9]|[1-9]| [1-9]]; nothing may follow it. *)
Definition strptime_day (s : string) : option Z :=
  match s with
  | String a EmptyString =>
      if Py.isdigit a && negb (Ascii.eqb a "0") then Some (Py.digit_val a) else None
  | String a (String b EmptyString) =>
      if Py.isdigit b then
        if Ascii.eqb a "3" then
          (if Ascii.eqb b "0" || Ascii.eqb b "1" then Some (30 + Py.digit_val b) else None)
        else if Ascii.eqb a "1" || Ascii.eqb a "2" then
          Some (10 * Py.digit_val a + Py.digit_val b)
        else if Ascii.eqb a "0" || Ascii.eqb a " " then
          (if Ascii.eqb b "0" then None else Some (Py.digit_val b))
        else None
      else None
  | _ => None
  end.

(** [%m] is [1[0-2]|0[1-9]|[1-9]], followed by the literal [-]; the result
    is the month and the text after the [-]. *)
Definition strptime_month (s : string) : option (Z * string) :=
  match s with
  | String a (String b r) =>
      if Ascii.eqb b "-" then
        (if Py.isdigit a && negb (Ascii.eqb a "0") then Some (Py.digit_val a, r) else None)
      else
        match r with
        | String c r' =>
            if Ascii.eqb c "-" then
              if Ascii.eqb a "1" then
                (if Ascii.eqb b "0" || Ascii.eqb b "1" || Ascii.eqb b "2"
                 then Some (10 + Py.digit_val b, r') else None)
              else if Ascii.eqb a "0" then
                (if Py.isdigit b && negb (Ascii.eqb b "0")
                 then Some (Py.digit_val b, r') else None)
              else None
            else None
        | EmptyString => None
        end
  | _ => None
  end.

(** [%Y] is [\d\d\d\d], followed by the literal [-]. *)
Definition strptime_year (s : string) : option (Z * string) :=
  match s with
  | String a (String b (String c (String d (String e r)))) =>
      if Py.isdigit a && Py.isdigit b && Py.isdigit c && Py.isdigit d
         && Ascii.eqb e "-" then
        Some (1000 * Py.digit_val a + 100 * Py.digit_val b
              + 10 * Py.digit_val c + Py.digit_val d, r)
      else None
  | _ => None
  end.

(** [datetime.strptime(s, '%Y-%m-%d').date()] *)
Definition strptime_ymd (s : string) : outcome date :=
  match strptime_year s with
  | Some (y, r1) =>
      match strptime_month r1 with
      | Some (m, r2) =>
          match strptime_day r2 with
          | Some d =>
              if valid_date y m d then Returns {| year := y; month := m; day := d |}
              else Raises ValueError
          | None => Raises ValueError
          end
      | None => Raises ValueError
      end
  | None => Raises ValueError
  end.

(** ** Dates as text *)

Definition digit_char (n : Z) : ascii := ascii_of_N (Z.to_N (48 + n)).

Definition one_digit (n : Z) : string := String (digit_char n) "".

Definition two_digits (n : Z) : string :=
  String (digit_char (n / 10)) (String (digit_char (n mod 10)) "").

Definition four_digits (n : Z) : string :=
  String (digit_char (n / 1000)) (String (digit_char (n / 100 mod 10))
    (String (digit_char (n / 10 mod 10)) (String (digit_char (n mod 10)) ""))).

(** The ways [%m] reads a month and [%d] a day. *)
Definition month_texts (m : Z) : list string :=
  two_digits m :: (if m <? 10 then [one_digit m] else []).

Definition day_texts (d : Z) : list string :=
  two_digits d :: (if d <? 10 then [one_digit d; String " " (one_digit d)] else []).

(** The texts [strptime] reads as the date [d] under ['%Y-%m-%d']. *)
Definition date_texts (d : date) : list string :=
  mt ← month_texts (month d);
  dt ← day_texts (day d);
  [(four_digits (year d) ++ "-" ++ mt ++ "-" ++ dt)%string].

(** The one text of the form YYYY-MM-DD. *)
Definition iso_format (d : date) : string :=
  (four_digits (year d) ++ "-" ++ two_digits (month d) ++ "-" ++ two_digits (day d))%string.

(** ** Text beyond U+00FF

    The products, exclusivity and patent extracts are decoded as UTF-8, so
    a date cell can hold any code point. [Uni] is [parse_date] on such a
    text; on the code points below 256 it is the [parse_date] above. *)

Module Uni.

(** A Python [str] as its code points. *)
Abbreviation text := (list N).

(** The code points of a text of the characters below 256. *)
Definition of_string (s : string) : text := map N_of_ascii (list_ascii_of_string s).

(** [str.isspace] on one code point (Unicode 14.0, as in CPython 3.11):
    U+0009..U+000D, U+001C..U+0020, U+0085, U+00A0, U+1680,
    U+2000..U+200A, U+2028, U+2029, U+202F, U+205F and U+3000. *)
Definition isspace (n : N) : bool :=
  (((9 <=? n) && (n <=? 13)) || ((28 <=? n) && (n <=? 32))
   || (n =? 133) || (n =? 160) || (n =? 5760)
   || ((8192 <=? n) && (n <=? 8202)) || (n =? 8232) || (n =? 8233)
   || (n =? 8239) || (n =? 8287) || (n =? 12288))%N.

(** The decimal digits (category Nd) come in runs of ten, zero first;
    these are the zeros of the 66 runs of Unicode 14.0. *)
Definition digit_zeros : list N :=
  [48; 1632; 1776; 1984; 2406; 2534; 2662; 2790; 2918; 3046; 3174; 3302;
   3430; 3558; 3664; 3792; 3872; 4160; 4240; 6112; 6160; 6470; 6608; 6784;
   6800; 6992; 7088; 7232; 7248; 42528; 43216; 43264; 43472; 43504; 43600;
   44016; 65296; 66720; 68912; 69734; 69872; 69942; 70096; 70384; 70736;
   70864; 71248; 71360; 71472; 71904; 72016; 72784; 73040; 73120; 92768;
   92864; 93008; 120782; 120792; 120802; 120812; 120822; 123200; 123632;
   125264; 130032]%N.

(** The value of a decimal digit, which is what [\d] matches and what
    [int] reads. *)
Definition decimal (n : N) : option Z :=
  match List.find (fun z => (z <=? n) && (n <? z + 10))%N digit_zeros with
  | Some z => Some (Z.of_N (n - z))
  | None => None
  end.

(** The digits 1 to 9 of ASCII, which is what [[1-9]] matches. *)
Definition nonzero_ascii_digit (n : N) : option Z :=
  if ((49 <=? n) && (n <=? 57))%N then Some (Z.of_N n - 48) else None.

Fixpoint lstrip (s : text) : text :=
  match s with
  | c :: r => if isspace c then lstrip r else s
  | [] => []
  end.

Fixpoint rstrip (s : text) : text :=
  match s with
  | c :: r =>
      match rstrip r with
      | [] => if isspace c then [] else [c]
      | r' => c :: r'
      end
  | [] => []
  end.

(** [s.strip()] *)
Definition strip (s : text) : text := rstrip (lstrip s).

(** [%d]: of [3[0-1]|[1-2]\d|0[1-9]|[1-9]| [1-9]] only the [\d] goes
    beyond ASCII. *)
Definition strptime_day (s : text) : option Z :=
  match s with
  | [a] => nonzero_ascii_digit a
  | [a; b] =>
      if (a =? 51)%N then
        (if ((b =? 48) || (b =? 49))%N then Some (30 + (Z.of_N b - 48)) else None)
      else if ((a =? 49) || (a =? 50))%N then
        option_map (fun k => 10 * (Z.of_N a - 48) + k) (decimal b)
      else if ((a =? 48) || (a =? 32))%N then nonzero_ascii_digit b
      else None
  | _ => None
  end.

(** [%m] is [1[0-2]|0[1-9]|[1-9]], followed by the literal [-]. *)
Definition strptime_month (s : text) : option (Z * text) :=
  match s with
  | a :: b :: r =>
      if (b =? 45)%N then option_map (fun k => (k, r)) (nonzero_ascii_digit a)
      else
        match r with
        | c :: r' =>
            if (c =? 45)%N then
              if (a =? 49)%N then
                (if ((b =? 48) || (b =? 49) || (b =? 50))%N
                 then Some (10 + (Z.of_N b - 48), r') else None)
              else if (a =? 48)%N then
                option_map (fun k => (k, r')) (nonzero_ascii_digit b)
              else None
            else None
        | [] => None
        end
  | _ => None
  end.

(** [%Y] is [\d\d\d\d], followed by the literal [-]; [int] reads the four
    digits by their values. *)
Definition strptime_year (s : text) : option (Z * text) :=
  match s with
  | a :: b :: c :: d :: e :: r =>
      match decimal a, decimal b, decimal c, decimal d with
      | Some ka, Some kb, Some kc, Some kd =>
          if (e =? 45)%N then Some (1000 * ka + 100 * kb + 10 * kc + kd, r) else None
      | _, _, _, _ => None
      end
  | _ => None
  end.

(** [datetime.strptime(s, '%Y-%m-%d').date()] *)
Definition strptime_ymd (s : text) : outcome date :=
  match strptime_year s with
  | Some (y, r1) =>
      match strptime_month r1 with
      | Some (m, r2) =>
          match strptime_day r2 with
          | Some d =>
              if valid_date y m d then Returns {| year := y; month := m; day := d |}
              else Raises ValueError
          | None => Raises ValueError
          end
      | None => Raises ValueError
      end
  | None => Raises ValueError
  end.

(** [parse_date(s)] for a [str] [s], which [pd.isna] does not hold of. *)
Definition parse_date (s : text) : outcome (option date) :=
  match strip s with
  | [] => Returns None
  | t => try_except (obind (strptime_ymd t) (fun d => Returns (Some d))) None
  end.

End Uni.

(** ** Cells and rows of a pandas data frame *)

(** A scalar read from a data frame. The loader only ever asks three
    things of it: [is None], [pd.isna] and [str]. A finite float is given
    by the text [str] prints for it. An integer comes from a column of
    64-bit integers, so [str] prints it in at most 20 characters. *)
Inductive cell :=
  | CNone
  | CNaN
  | CStr (s : string)
  | CInt (z : Z)
  | CFloat (text : string).

Definition str (v : cell) : string :=
  match v with
  | CNone => "None"
  | CNaN => "nan"
  | CStr s => s
  | CInt z => Py.str_of_int z
  | CFloat t => t
  end.

Definition isna (v : cell) : bool :=
  match v with
  | CNone | CNaN => true
  | _ => false
  end.

(** One row of a data frame, by column name. *)
Abbreviation row := (gmap string cell).

(** [row.get(name, default)] *)
Definition row_get (r : row) (name : string) (dflt : cell) : cell :=
  default dflt (r !! name).

(** [s or None] *)
Definition or_none (s : string) : option string :=
  match s with
  | EmptyString => None
  | _ => Some s
  end.

(** [str(row.get(name, '')) or None] *)
Definition text_col (r : row) (name : string) : option string :=
  or_none (str (row_get r name (CStr ""))).

(** ** Field normalizers *)

Definition parse_date (date_str : cell) : outcome (option date) :=
  if isna date_str || String.eqb (Py.strip (str date_str)) "" then Returns None
  else
    try_except
      (obind (strptime_ymd (Py.strip (str date_str))) (fun d => Returns (Some d)))
      None.

Definition parse_int (value : cell) : outcome (option Z) :=
  if isna value || String.eqb (Py.strip (str value)) "" then Returns None
  else
    try_except
      (let cleaned := Py.strip (Py.remove_char "," (str value)) in
       match cleaned with
       | EmptyString => Returns None
       | _ => obind (Py.int cleaned) (fun n => Returns (Some n))
       end)
      None.

Definition normalize_code (code : cell) (length : nat) : option string :=
  let code_str := Py.strip (str code) in
  match code_str with
  | EmptyString => None
  | _ => Some (Py.zfill code_str length)
  end.

Definition zero_pad (code : cell) (length : nat) : option string :=
  match code with
  | CNone => None
  | _ =>
      let code_str := Py.strip (str code) in
      match code_str with
      | EmptyString => None
      | _ => Some (Py.zfill code_str length)
      end
  end.

Section Float.

(** [float(s)] and its result type are Python's; the loader only stores
    what [float] returns, so both are left open. *)
Context {float : Type} (py_float : string -> outcome float).

Definition parse_decimal (value : cell) : outcome (option float) :=
  if isna value || String.eqb (Py.strip (str value)) "" then Returns None
  else
    try_except
      (let cleaned :=
         Py.strip (Py.remove_char " " (Py.remove_char "," (Py.remove_char "$" (str value)))) in
       match cleaned with
       | EmptyString => Returns None
       | _ => obind (py_float cleaned) (fun x => Returns (Some x))
       end)
      None.

End Float.

Local Open Scope list_scope.

(** ** SQL values and conditions *)

Module Sql.

(** [a AND b] *)
Definition and3 (a b : option bool) : option bool :=
  match a, b with
  | Some false, _ => Some false
  | _, Some false => Some false
  | Some true, Some true => Some true
  | _, _ => None
  end.

(** [a OR b] *)
Definition or3 (a b : option bool) : option bool :=
  match a, b with
  | Some true, _ => Some true
  | _, Some true => Some true
  | Some false, Some false => Some false
  | _, _ => None
  end.

(** [x = y]: NULL as soon as one side is NULL. *)
Definition eq3 {A} `{EqDecision A} (x y : option A) : option bool :=
  match x, y with
  | Some a, Some b => Some (bool_decide (a = b))
  | _, _ => None
  end.

(** [x IS NULL] *)
Definition is_null {A} (x : option A) : option bool :=
  match x with
  | None => Some true
  | Some _ => Some false
  end.

(** [x IS NOT NULL] *)
Definition is_not_null {A} (x : option A) : option bool :=
  match x with
  | None => Some false
  | Some _ => Some true
  end.

(** [x > y] on the surrogate ids, which are never NULL. *)
Definition gt3 (x y : Z) : option bool := Some (y <? x).

(** A WHERE or ON clause keeps a row only when the condition is TRUE. *)
Definition holds (c : option bool) : bool :=
  match c with
  | Some true => true
  | _ => false
  end.

(** The pattern [(x = y OR (x IS NULL AND y IS NULL))] of the deduplicator. *)
Definition same_or_both_null {A} `{EqDecision A} (x y : option A) : option bool :=
  or3 (eq3 x y) (and3 (is_null x) (is_null y)).

End Sql.

Infix "&&&" := Sql.and3 (at level 40, left associativity).

(** ** Tables *)

(** Modelled from the spec: the table definitions (CREATE TABLE) are not
    part of the sources. Every table has a surrogate [id] column that the
    store assigns in insertion order; the business columns are those of
    the INSERT statements and of the deduplicator. Text is compared
    exactly. *)
Record table (R : Type) := { rows : list (Z * R); auto_increment : Z }.
Arguments rows {R} t.
Arguments auto_increment {R} t.

Definition insert_row {R} (t : table R) (r : R) : table R :=
  {| rows := rows t ++ [(auto_increment t, r)];
     auto_increment := auto_increment t + 1 |}.

Definition insert_rows {R} (t : table R) (batch : list R) : table R :=
  foldl insert_row t batch.

Definition with_rows {R} (t : table R) (l : list (Z * R)) : table R :=
  {| rows := l; auto_increment := auto_increment t |}.

#[global] Instance date_eq_dec : EqDecision date.
Proof. solve_decision. Defined.

Record ProductRow := {
  p_appl_no : option string;
  p_appl_type : option string;
  p_ingredient : option string;
  p_dosage : option string;
  p_form : option string;
  p_route : option string;
  p_trade_name : option string;
  p_applicant : option string;
  p_strength : option string;
  p_te_code : option string;
  p_approval_date : option date;
  p_rld : option string;
  p_rs : option string;
  p_type : option string;
  p_applicant_full_name : option string;
  p_number_of_approvals : option Z
}.

Record ExclusivityRow := {
  e_appl_no : option string;
  e_appl_type : option string;
  e_ingredient : option string;
  e_dosage : option string;
  e_form : option string;
  e_route : option string;
  e_trade_name : option string;
  e_strength : option string;
  e_exclusivity_code : option string;
  e_exclusivity_date : option date
}.

Record PatentRow := {
  pt_appl_no : option string;
  pt_appl_type : option string;
  pt_ingredient : option string;
  pt_dosage : option string;
  pt_form : option string;
  pt_route : option string;
  pt_trade_name : option string;
  pt_applicant : option string;
  pt_strength : option string;
  pt_patent_no : option string;
  pt_patent_expire_date_text : option string;
  pt_drug_substance_flag : option string;
  pt_drug_product_flag : option string;
  pt_patent_use_code : option string;
  pt_submission_date : option date
}.

#[global] Instance ProductRow_eq_dec : EqDecision ProductRow.
Proof. solve_decision. Defined.
#[global] Instance ExclusivityRow_eq_dec : EqDecision ExclusivityRow.
Proof. solve_decision. Defined.
#[global] Instance PatentRow_eq_dec : EqDecision PatentRow.
Proof. solve_decision. Defined.

Record SalesRow {float : Type} := {
  s_appl_no : option string;
  s_ingredient : option string;
  s_route : option string;
  s_route_extended : option string;
  s_dosage : option string;
  s_manufacturer : option string;
  s_strength : option string;
  s_pack_quantity : option Z;
  s_ndc_number : option string;
  s_labeler_code : option string;
  s_product_code : option string;
  s_sales : option float;
  s_packs : option Z;
  s_quantity : option Z;
  s_wac : option float;
  s_price : option float;
  s_number_of_sellers : option Z
}.
Arguments SalesRow float : clear implicits.

Record database {float : Type} := {
  products : table ProductRow;
  exclusivity : table ExclusivityRow;
  patent : table PatentRow;
  sales : table (SalesRow float)
}.
Arguments database float : clear implicits.

Inductive table_name := Products | Exclusivity | Patent | Sales.

(** The inserts, commits and rollbacks a connection was asked for, in
    order. *)
Inductive event :=
  | Executemany (t : table_name) (n : nat)
  | Commit
  | Rollback.

(** A connection: the durable state, the state the open transaction sees,
    and the statements issued so far. *)
Record connection {float : Type} := {
  committed : database float;
  working : database float;
  log : list event
}.
Arguments connection float : clear implicits.

(** A database with one table replaced. *)
Definition put_products {float} (t : table ProductRow) (w : database float)
    : database float :=
  {| products := t; exclusivity := exclusivity w; patent := patent w; sales := sales w |}.

Definition put_exclusivity {float} (t : table ExclusivityRow) (w : database float)
    : database float :=
  {| products := products w; exclusivity := t; patent := patent w; sales := sales w |}.

Definition put_patent {float} (t : table PatentRow) (w : database float)
    : database float :=
  {| products := products w; exclusivity := exclusivity w; patent := t; sales := sales w |}.

Definition put_sales {float} (t : table (SalesRow float)) (w : database float)
    : database float :=
  {| products := products w; exclusivity := exclusivity w; patent := patent w; sales := t |}.

(** ** The loader monad: a connection threaded through, exceptions on top *)

Definition M (float A : Type) : Type :=
  connection float -> outcome A * connection float.

#[global] Instance M_ret {float} : MRet (M float) :=
  fun A a c => (Returns a, c).

#[global] Instance M_bind {float} : MBind (M float) :=
  fun A B k m c =>
    match m c with
    | (Returns a, c') => k a c'
    | (Raises e, c') => (Raises e, c')
    end.

#[global] Instance outcome_ret : MRet outcome := fun A a => Returns a.
#[global] Instance outcome_bind : MBind outcome := fun A B k o => obind o k.

(** A computation that does not touch the connection. *)
Definition lift {float A} (o : outcome A) : M float A := fun c => (o, c).

(** The five extracts as the run finds them: [None] is a file that cannot
    be read (missing, unreadable, wrongly encoded). *)
Abbreviation files := (extract -> option (list row)).

(** [pd.read_csv(path, ...)] followed by [df.iterrows()] *)
Definition read_csv {float} (fs : files) (f : extract) : M float (list row) :=
  fun c =>
    match fs f with
    | Some df => (Returns df, c)
    | None => (Raises (SourceReadError f), c)
    end.

Definition on_working {float} (c : connection float) (w : database float)
    (e : event) : connection float :=
  {| committed := committed c; working := w; log := log c ++ [e] |}.

(** A statement that changes rows already there (UPDATE, DELETE). *)
Definition execute {float} (change : database float -> database float) : M float unit :=
  fun c =>
    (Returns tt,
     {| committed := committed c; working := change (working c); log := log c |}).

(** [cursor.executemany(insert_sql, batch)], one definition per INSERT. *)
Definition executemany_products {float} (batch : list ProductRow) : M float unit :=
  fun c =>
    (Returns tt,
     on_working c (put_products (insert_rows (products (working c)) batch) (working c))
       (Executemany Products (length batch))).

Definition executemany_exclusivity {float} (batch : list ExclusivityRow) : M float unit :=
  fun c =>
    (Returns tt,
     on_working c (put_exclusivity (insert_rows (exclusivity (working c)) batch) (working c))
       (Executemany Exclusivity (length batch))).

Definition executemany_patent {float} (batch : list PatentRow) : M float unit :=
  fun c =>
    (Returns tt,
     on_working c (put_patent (insert_rows (patent (working c)) batch) (working c))
       (Executemany Patent (length batch))).

Definition executemany_sales {float} (batch : list (SalesRow float)) : M float unit :=
  fun c =>
    (Returns tt,
     on_working c (put_sales (insert_rows (sales (working c)) batch) (working c))
       (Executemany Sales (length batch))).

(** [conn.commit()] *)
Definition commit {float} : M float unit :=
  fun c => (Returns tt,
            {| committed := working c; working := working c; log := log c ++ [Commit] |}).

(** [conn.rollback()] *)
Definition rollback {float} (c : connection float) : connection float :=
  {| committed := committed c; working := committed c; log := log c ++ [Rollback] |}.

(** [cursor.close(); conn.close()]: what was not committed is lost. *)
Definition close {float} (c : connection float) : connection float :=
  {| committed := committed c; working := committed c; log := log c |}.

(** [mysql.connector.connect(...)] on a store holding [db]. *)
Definition connect {float} (db : database float) : connection float :=
  {| committed := db; working := db; log := [] |}.

(** ** Table loaders *)

Definition batch_size : nat := 1000.

(** The row tuples. The INSERT of products names no [number_of_approvals]
    column, so the new row holds NULL there. *)
Definition products_tuple (r : row) : outcome ProductRow :=
  approval_date ← parse_date (row_get r "Approval_Date" CNone);
  mret {| p_appl_no := text_col r "Appl_No";
          p_appl_type := text_col r "Appl_Type";
          p_ingredient := text_col r "Ingredient";
          p_dosage := text_col r "Dosage";
          p_form := text_col r "Form";
          p_route := text_col r "Route";
          p_trade_name := text_col r "Trade_Name";
          p_applicant := text_col r "Applicant";
          p_strength := text_col r "Strength";
          p_te_code := text_col r "TE_Code";
          p_approval_date := approval_date;
          p_rld := text_col r "RLD";
          p_rs := text_col r "RS";
          p_type := text_col r "Type";
          p_applicant_full_name := text_col r "Applicant_Full_Name";
          p_number_of_approvals := None |}.

Definition exclusivity_tuple (r : row) : outcome ExclusivityRow :=
  exclusivity_date ← parse_date (row_get r "Exclusivity_Date" CNone);
  mret {| e_appl_no := text_col r "Appl_No";
          e_appl_type := text_col r "Appl_Type";
          e_ingredient := text_col r "Ingredient";
          e_dosage := text_col r "Dosage";
          e_form := text_col r "Form";
          e_route := text_col r "Route";
          e_trade_name := text_col r "Trade_Name";
          e_strength := text_col r "Strength";
          e_exclusivity_code := text_col r "Exclusivity_Code";
          e_exclusivity_date := exclusivity_date |}.

Definition patent_tuple (r : row) : outcome PatentRow :=
  submission_date ← parse_date (row_get r "Submission_Date" CNone);
  mret {| pt_appl_no := text_col r "Appl_No";
          pt_appl_type := text_col r "Appl_Type";
          pt_ingredient := text_col r "Ingredient";
          pt_dosage := text_col r "Dosage";
          pt_form := text_col r "Form";
          pt_route := text_col r "Route";
          pt_trade_name := text_col r "Trade_Name";
          pt_applicant := text_col r "Applicant";
          pt_strength := text_col r "Strength";
          pt_patent_no := text_col r "Patent_No";
          pt_patent_expire_date_text := text_col r "Patent_Expire_Date_Text";
          pt_drug_substance_flag := text_col r "Drug_Substance_Flag";
          pt_drug_product_flag := text_col r "Drug_Product_Flag";
          pt_patent_use_code := text_col r "Patent_Use_Code";
          pt_submission_date := submission_date |}.

(** Truth value of a Python string. *)
Definition truthy (s : string) : bool :=
  match s with
  | EmptyString => false
  | _ => true
  end.

(** Truth value of a string or [None]. *)
Definition truthy_opt (o : option string) : bool :=
  match o with
  | Some s => truthy s
  | None => false
  end.

(** [appl_no = None], then [ndc_lookup.get((labeler_code, product_code))]
    under [if labeler_code and product_code]. *)
Definition lookup_appl_no (ndc_lookup : gmap (string * string) string)
    (labeler_code product_code : option string) : option string :=
  match labeler_code, product_code with
  | Some l, Some p => if truthy l && truthy p then ndc_lookup !! (l, p) else None
  | _, _ => None
  end.

Section Sales.

Context {float : Type} (py_float : string -> outcome float).

(** The body of the loop of [load_sales] up to [batch.append]. *)
Definition sales_tuple (ndc_lookup : gmap (string * string) string) (r : row)
    : outcome (SalesRow float) :=
  let labeler_code := zero_pad (row_get r "Labeler Code" (CStr "")) 5 in
  let product_code := zero_pad (row_get r "Product Code" (CStr "")) 4 in
  let appl_no := lookup_appl_no ndc_lookup labeler_code product_code in
  pack_quantity ← parse_int (row_get r "Pack_Quantity" CNone);
  sales_amount ← parse_decimal py_float (row_get r "Sales" CNone);
  packs ← parse_int (row_get r "Packs" CNone);
  quantity ← parse_int (row_get r "Quantity" CNone);
  wac ← parse_decimal py_float (row_get r "WAC" CNone);
  price ← parse_decimal py_float (row_get r "Price" CNone);
  mret {| s_appl_no := appl_no;
          s_ingredient := text_col r "Ingredient";
          s_route := text_col r "Route";
          s_route_extended := text_col r "Route Ext";
          s_dosage := text_col r "Dosage";
          s_manufacturer := text_col r "Manufacturer";
          s_strength := text_col r "Strength";
          s_pack_quantity := pack_quantity;
          s_ndc_number := or_none (Py.strip (str (row_get r "NDC Number" (CStr ""))));
          s_labeler_code := labeler_code;
          s_product_code := product_code;
          s_sales := sales_amount;
          s_packs := packs;
          s_quantity := quantity;
          s_wac := wac;
          s_price := price;
          s_number_of_sellers := None |}.

End Sales.

(** The loop shared by [load_products], [load_patents] and [load_sales]:
    append the tuple, and flush once [len(batch) >= batch_size]. The result
    is the batch left over and the running [count]. *)
Fixpoint batched_loop {float R} (tuple : row -> outcome R)
    (executemany : list R -> M float unit)
    (df : list row) (batch : list R) (count : nat) : M float (list R * nat) :=
  match df with
  | [] => mret (batch, count)
  | r :: df' =>
      t ← lift (tuple r);
      let batch := batch ++ [t] in
      if (batch_size <=? length batch)%nat then
        executemany batch;; commit;;
        batched_loop tuple executemany df' [] (count + length batch)%nat
      else batched_loop tuple executemany df' batch count
  end.

(** The trailing [if batch:] flush; the result is the total printed. *)
Definition flush_rest {float R} (executemany : list R -> M float unit)
    (st : list R * nat) : M float nat :=
  match st.1 with
  | [] => mret st.2
  | _ => executemany st.1;; commit;; mret (st.2 + length st.1)%nat
  end.

Definition load_products {float} (fs : files) : M float nat :=
  df ← read_csv fs ProductsCsv;
  st ← batched_loop products_tuple executemany_products df [] 0%nat;
  flush_rest executemany_products st.

(** [load_exclusivity] has no [batch_size]: one [executemany] and one
    [commit] after the loop, whatever the batch holds. *)
Fixpoint exclusivity_loop {float} (df : list row) (batch : list ExclusivityRow)
    : M float (list ExclusivityRow) :=
  match df with
  | [] => mret batch
  | r :: df' =>
      t ← lift (exclusivity_tuple r);
      exclusivity_loop df' (batch ++ [t])
  end.

Definition load_exclusivity {float} (fs : files) : M float nat :=
  df ← read_csv fs ExclusivityCsv;
  batch ← exclusivity_loop df [];
  executemany_exclusivity batch;; commit;; mret (length batch).

Definition load_patents {float} (fs : files) : M float nat :=
  df ← read_csv fs PatentCsv;
  st ← batched_loop patent_tuple executemany_patent df [] 0%nat;
  flush_rest executemany_patent st.

Definition load_sales {float} (py_float : string -> outcome float) (fs : files)
    (ndc_lookup : gmap (string * string) string) : M float nat :=
  df ← read_csv fs SalesCsv;
  st ← batched_loop (sales_tuple py_float ndc_lookup) executemany_sales df [] 0%nat;
  flush_rest executemany_sales st.

(** ** Cross-reference builder *)

(** The body of the loop of [build_ndc_lookup]. *)
Definition ndc_step (lookup : gmap (string * string) string) (r : row)
    : gmap (string * string) string :=
  let labeler_code := zero_pad (row_get r "Labeler Code" (CStr "")) 5 in
  let product_code := zero_pad (row_get r "Product Code" (CStr "")) 4 in
  let appl_no := Py.strip (str (row_get r "Application Number" (CStr ""))) in
  match labeler_code, product_code with
  | Some l, Some p =>
      if truthy l && truthy p && truthy appl_no && negb (String.eqb appl_no "") then
        let key := (l, p) in
        match lookup !! key with
        | None => <[key := appl_no]> lookup
        | Some v => if negb (truthy v) then <[key := appl_no]> lookup else lookup
        end
      else lookup
  | _, _ => lookup
  end.

(** [lookup = {}] and the loop over the rows. *)
Definition ndc_lookup_of (df : list row) : gmap (string * string) string :=
  foldl ndc_step ∅ df.

Definition build_ndc_lookup {float} (fs : files)
    : M float (gmap (string * string) string) :=
  df ← read_csv fs NdcCsv;
  mret (ndc_lookup_of df).

(** ** Aggregate populator *)

Section Aggregate.

Context {R : Type} (ingredient dosage appl_no : R -> option string).
Context (set_count : R -> option Z -> R).

Definition group_key (x : Z * R) : option string * option string :=
  (ingredient x.2, dosage x.2).

(** [COUNT(DISTINCT appl_no)] over the rows of one group; NULLs are not
    counted. *)
Definition count_distinct_appl_no (src : list (Z * R))
    (g : option string * option string) : Z :=
  Z.of_nat (length (remove_dups
    (omap (fun x => appl_no x.2)
       (List.filter (fun x => bool_decide (group_key x = g)) src)))).

(** [SELECT ingredient, dosage, COUNT(DISTINCT appl_no) FROM src
     GROUP BY ingredient, dosage]; GROUP BY puts NULLs in one group. *)
Definition select_group_counts (src : list (Z * R))
    : list (option string * option string * Z) :=
  map (fun g => (g.1, g.2, count_distinct_appl_no src g))
      (remove_dups (map group_key src)).

(** [ON t.ingredient = s.ingredient AND t.dosage = s.dosage] *)
Definition join_on (x : Z * R) (s : option string * option string * Z) : option bool :=
  Sql.eq3 (ingredient x.2) s.1.1 &&& Sql.eq3 (dosage x.2) s.1.2.

(** [UPDATE t JOIN (...) s ON ... SET t.count = s.count]: a row that joins
    no group row is left as it is. *)
Definition update_join (s : list (option string * option string * Z))
    (t : list (Z * R)) : list (Z * R) :=
  map (fun x =>
         match List.find (fun g => Sql.holds (join_on x g)) s with
         | Some g => (x.1, set_count x.2 (Some g.2))
         | None => x
         end) t.

End Aggregate.

Definition set_number_of_approvals (r : ProductRow) (n : option Z) : ProductRow :=
  {| p_appl_no := p_appl_no r; p_appl_type := p_appl_type r;
     p_ingredient := p_ingredient r; p_dosage := p_dosage r; p_form := p_form r;
     p_route := p_route r; p_trade_name := p_trade_name r;
     p_applicant := p_applicant r; p_strength := p_strength r;
     p_te_code := p_te_code r; p_approval_date := p_approval_date r;
     p_rld := p_rld r; p_rs := p_rs r; p_type := p_type r;
     p_applicant_full_name := p_applicant_full_name r;
     p_number_of_approvals := n |}.

Definition set_number_of_sellers {float} (r : SalesRow float) (n : option Z)
    : SalesRow float :=
  {| s_appl_no := s_appl_no r; s_ingredient := s_ingredient r; s_route := s_route r;
     s_route_extended := s_route_extended r; s_dosage := s_dosage r;
     s_manufacturer := s_manufacturer r; s_strength := s_strength r;
     s_pack_quantity := s_pack_quantity r; s_ndc_number := s_ndc_number r;
     s_labeler_code := s_labeler_code r; s_product_code := s_product_code r;
     s_sales := s_sales r; s_packs := s_packs r; s_quantity := s_quantity r;
     s_wac := s_wac r; s_price := s_price r; s_number_of_sellers := n |}.

(** The UPDATE of [populate_number_of_product_approvals] on the rows of
    [products]. *)
Definition update_number_of_approvals (t : list (Z * ProductRow))
    : list (Z * ProductRow) :=
  update_join p_ingredient p_dosage set_number_of_approvals
    (select_group_counts p_ingredient p_dosage p_appl_no t) t.

(** The UPDATE of [populate_number_of_sellers]; its subquery has
    [WHERE ingredient IS NOT NULL AND dosage IS NOT NULL]. *)
Definition update_number_of_sellers {float} (t : list (Z * SalesRow float))
    : list (Z * SalesRow float) :=
  update_join s_ingredient s_dosage set_number_of_sellers
    (select_group_counts s_ingredient s_dosage s_appl_no
       (List.filter
          (fun x => Sql.holds (Sql.is_not_null (s_ingredient x.2)
                               &&& Sql.is_not_null (s_dosage x.2))) t))
    t.

Definition populate_number_of_product_approvals {float} : M float unit :=
  execute (fun w =>
    put_products
      (with_rows (products w) (update_number_of_approvals (rows (products w)))) w);;
  commit.

Definition populate_number_of_sellers {float} : M float unit :=
  execute (fun w : database float =>
    put_sales (with_rows (sales w) (update_number_of_sellers (rows (sales w)))) w);;
  commit.

(** ** Deduplicator *)

(** [DELETE t1 FROM t t1 INNER JOIN t t2 WHERE cond]: every row [t1] that
    is joined to some row [t2] of the table as it stands goes. *)
Definition delete_join {R} (cond : Z * R -> Z * R -> option bool)
    (t : list (Z * R)) : list (Z * R) :=
  List.filter (fun t1 => negb (existsb (fun t2 => Sql.holds (cond t1 t2)) t)) t.

Definition delete_products_where (p1 p2 : Z * ProductRow) : option bool :=
  Sql.gt3 p1.1 p2.1
  &&& Sql.eq3 (p_appl_no p1.2) (p_appl_no p2.2)
  &&& Sql.same_or_both_null (p_appl_type p1.2) (p_appl_type p2.2)
  &&& Sql.eq3 (p_ingredient p1.2) (p_ingredient p2.2)
  &&& Sql.same_or_both_null (p_dosage p1.2) (p_dosage p2.2)
  &&& Sql.same_or_both_null (p_form p1.2) (p_form p2.2)
  &&& Sql.same_or_both_null (p_route p1.2) (p_route p2.2)
  &&& Sql.same_or_both_null (p_trade_name p1.2) (p_trade_name p2.2)
  &&& Sql.same_or_both_null (p_applicant p1.2) (p_applicant p2.2)
  &&& Sql.same_or_both_null (p_strength p1.2) (p_strength p2.2)
  &&& Sql.same_or_both_null (p_te_code p1.2) (p_te_code p2.2)
  &&& Sql.same_or_both_null (p_approval_date p1.2) (p_approval_date p2.2)
  &&& Sql.same_or_both_null (p_rld p1.2) (p_rld p2.2)
  &&& Sql.same_or_both_null (p_rs p1.2) (p_rs p2.2)
  &&& Sql.same_or_both_null (p_type p1.2) (p_type p2.2)
  &&& Sql.same_or_both_null (p_applicant_full_name p1.2) (p_applicant_full_name p2.2)
  &&& Sql.same_or_both_null (p_number_of_approvals p1.2) (p_number_of_approvals p2.2).

Definition delete_exclusivity_where (e1 e2 : Z * ExclusivityRow) : option bool :=
  Sql.gt3 e1.1 e2.1
  &&& Sql.eq3 (e_appl_no e1.2) (e_appl_no e2.2)
  &&& Sql.same_or_both_null (e_appl_type e1.2) (e_appl_type e2.2)
  &&& Sql.eq3 (e_ingredient e1.2) (e_ingredient e2.2)
  &&& Sql.same_or_both_null (e_dosage e1.2) (e_dosage e2.2)
  &&& Sql.same_or_both_null (e_form e1.2) (e_form e2.2)
  &&& Sql.same_or_both_null (e_route e1.2) (e_route e2.2)
  &&& Sql.same_or_both_null (e_trade_name e1.2) (e_trade_name e2.2)
  &&& Sql.same_or_both_null (e_strength e1.2) (e_strength e2.2)
  &&& Sql.same_or_both_null (e_exclusivity_code e1.2) (e_exclusivity_code e2.2)
  &&& Sql.same_or_both_null (e_exclusivity_date e1.2) (e_exclusivity_date e2.2).

Definition delete_patent_where (pt1 pt2 : Z * PatentRow) : option bool :=
  Sql.gt3 pt1.1 pt2.1
  &&& Sql.eq3 (pt_appl_no pt1.2) (pt_appl_no pt2.2)
  &&& Sql.same_or_both_null (pt_appl_type pt1.2) (pt_appl_type pt2.2)
  &&& Sql.eq3 (pt_ingredient pt1.2) (pt_ingredient pt2.2)
  &&& Sql.same_or_both_null (pt_dosage pt1.2) (pt_dosage pt2.2)
  &&& Sql.same_or_both_null (pt_form pt1.2) (pt_form pt2.2)
  &&& Sql.same_or_both_null (pt_route pt1.2) (pt_route pt2.2)
  &&& Sql.same_or_both_null (pt_trade_name pt1.2) (pt_trade_name pt2.2)
  &&& Sql.same_or_both_null (pt_applicant pt1.2) (pt_applicant pt2.2)
  &&& Sql.same_or_both_null (pt_strength pt1.2) (pt_strength pt2.2)
  &&& Sql.same_or_both_null (pt_patent_no pt1.2) (pt_patent_no pt2.2)
  &&& Sql.same_or_both_null (pt_patent_expire_date_text pt1.2) (pt_patent_expire_date_text pt2.2)
  &&& Sql.same_or_both_null (pt_drug_substance_flag pt1.2) (pt_drug_substance_flag pt2.2)
  &&& Sql.same_or_both_null (pt_drug_product_flag pt1.2) (pt_drug_product_flag pt2.2)
  &&& Sql.same_or_both_null (pt_patent_use_code pt1.2) (pt_patent_use_code pt2.2)
  &&& Sql.same_or_both_null (pt_submission_date pt1.2) (pt_submission_date pt2.2).

Definition delete_products (t : list (Z * ProductRow)) := delete_join delete_products_where t.
Definition delete_exclusivity (t : list (Z * ExclusivityRow)) := delete_join delete_exclusivity_where t.
Definition delete_patent (t : list (Z * PatentRow)) := delete_join delete_patent_where t.

Definition remove_duplicates {float} : M float unit :=
  execute (fun w : database float =>
    put_products (with_rows (products w) (delete_products (rows (products w)))) w);;
  commit;;
  execute (fun w : database float =>
    put_exclusivity
      (with_rows (exclusivity w) (delete_exclusivity (rows (exclusivity w)))) w);;
  commit;;
  execute (fun w : database float =>
    put_patent (with_rows (patent w) (delete_patent (rows (patent w)))) w);;
  commit.

(** ** Pipeline orchestrator *)

(** The [try] block of [main]; the closing SELECT COUNT statements only
    print. *)
Definition main_try {float} (py_float : string -> outcome float) (fs : files)
    : M float unit :=
  ndc_lookup ← build_ndc_lookup fs;
  load_products fs;;
  load_exclusivity fs;;
  load_patents fs;;
  load_sales py_float fs ndc_lookup;;
  populate_number_of_product_approvals;;
  populate_number_of_sellers;;
  remove_duplicates.

(** [main]: on an exception roll back and raise again; close in any case. *)
Definition main {float} (py_float : string -> outcome float) (fs : files)
    (db : database float) : outcome unit * connection float :=
  match main_try py_float fs (connect db) with
  | (Returns _, c) => (Returns tt, close c)
  | (Raises e, c) => (Raises e, close (rollback c))
  end.

(** * server.py: the page arithmetic of [search_dataset] *)

(** Python's [a // b] on integers: the floor of the quotient, and
    [ZeroDivisionError] ([None] here) when [b] is zero. *)
Definition floor_div (a b : Z) : option Z :=
  if b =? 0 then None else Some (a / b).

(** [offset = (request.page - 1) * request.limit], the rows skipped
    before the page that is returned. *)
Definition offset (page limit : Z) : Z := (page - 1) * limit.

(** ["totalPages": (total + request.limit - 1) // request.limit], where
    [total] is the count of the rows that match. *)
Definition totalPages (total limit : Z) : option Z :=
  floor_div (total + limit - 1) limit.

(** * Vocabulary of the properties *)

(** A text split into its sign, if it starts with one, and the rest. *)
Definition sign_of (t : string) : string :=
  match t with
  | String c _ => if Ascii.eqb c "+" || Ascii.eqb c "-" then String c "" else ""
  | EmptyString => ""
  end.

Definition unsigned_of (t : string) : string :=
  match t with
  | String c r => if Ascii.eqb c "+" || Ascii.eqb c "-" then r else t
  | EmptyString => ""
  end.

(** Zeros in front of the whole trimmed text. *)
Definition left_padded (t : string) (width : nat) : string :=
  (Py.zeros (width - String.length t) ++ t)%string.

(** The number of digits [str] prints for an integer. *)
Definition decimal_digits (z : Z) : Z := Py.digit_count (Py.str_of_int z).

(** The texts, of any code points, that [strptime] reads as a date under
    ['%Y-%m-%d']: the year is four decimal digits of any script; the
    month is written in ASCII, with two digits or with one; so is the day
    (also as a space and a digit), except that the second digit of a day
    from 10 to 29 may be a decimal digit of any script. *)
Definition written_year (y : Z) (t : Uni.text) : Prop :=
  exists a b c e,
    t = [a; b; c; e]
    /\ Uni.decimal a = Some (y / 1000) /\ Uni.decimal b = Some (y / 100 mod 10)
    /\ Uni.decimal c = Some (y / 10 mod 10) /\ Uni.decimal e = Some (y mod 10).

Definition written_month (m : Z) (t : Uni.text) : Prop :=
  In t (map Uni.of_string (month_texts m)).

Definition written_day (d : Z) (t : Uni.text) : Prop :=
  In t (map Uni.of_string (day_texts d))
  \/ exists a b,
       t = [a; b] /\ (a = 49 \/ a = 50)%N /\ d / 10 = Z.of_N a - 48
       /\ Uni.decimal b = Some (d mod 10).

Definition written_date (d : date) (t : Uni.text) : Prop :=
  exists ty tm td,
    t = ty ++ 45%N :: tm ++ 45%N :: td
    /\ written_year (year d) ty /\ written_month (month d) tm
    /\ written_day (day d) td.

(** The three cells of a row of the identifier extract that the
    cross-reference builder reads. The application number is the trimmed
    text of its cell, whatever the cell holds: for the NaN of an empty
    field it is the text ["nan"]. *)
Definition labeler_cell (r : row) : cell := row_get r "Labeler Code" (CStr "").
Definition product_cell (r : row) : cell := row_get r "Product Code" (CStr "").
Definition application_number (r : row) : string :=
  Py.strip (str (row_get r "Application Number" (CStr ""))).



(** A text with no whitespace at either end. *)
Definition trimmed (s : string) : Prop :=
  forall a c b, s = (a ++ String c b)%string -> a = "" \/ b = "" -> Py.isspace c = false.

(** A code cell without a code: [None], or a text that is empty or all
    whitespace. *)
Definition blank_code (v : cell) : Prop := v = CNone \/ Py.strip (str v) = "".

(** The application numbers proposed for the key [(l, p)], in row order:
    those of the rows whose two codes normalize to [l] and [p] and whose
    application number, a text, is not empty. *)
Definition candidates (l p : string) (df : list row) : list string :=
  map application_number
    (List.filter
       (fun r => bool_decide (zero_pad (labeler_cell r) 5 = Some l
                              /\ zero_pad (product_cell r) 4 = Some p
                              /\ application_number r <> ""))
       df).

(** The sizes of the inserts a batched loader issues for [n] rows: full
    batches, then the remainder if there is one. *)
Definition batch_sizes (n : nat) : list nat :=
  repeat batch_size (n / batch_size)
  ++ (if (n mod batch_size =? 0)%nat then [] else [(n mod batch_size)%nat]).

(** One insert and one commit per batch. *)
Definition batch_events (t : table_name) (sizes : list nat) : list event :=
  flat_map (fun n => [Executemany t n; Commit]) sizes.

(** The loop of the batched loaders on tuples alone: the batches flushed
    inside the loop and the batch left when it ends. *)
Fixpoint split_batches {R} (batch tuples : list R) : list (list R) * list R :=
  match tuples with
  | [] => ([], batch)
  | t :: ts =>
      let batch := batch ++ [t] in
      if (batch_size <=? length batch)%nat then
        (batch :: (split_batches [] ts).1, (split_batches [] ts).2)
      else split_batches batch ts
  end.

(** All batches of a load, the trailing one included when it is not empty. *)
Definition all_batches {R} (tuples : list R) : list (list R) :=
  (split_batches [] tuples).1
  ++ match (split_batches [] tuples).2 with
     | [] => []
     | rest => [rest]
     end.

(** Every value of the mapping is a non-empty text. *)
Definition nonblank_values (lookup : gmap (string * string) string) : Prop :=
  forall k v, lookup !! k = Some v -> v <> "".

(** The connection after [executemany(batch); commit()] on the table
    that [get] reads and [put] writes. *)
Definition flushed {float R} (T : table_name) (get : database float -> table R)
    (put : table R -> database float -> database float)
    (c : connection float) (b : list R) : connection float :=
  let w := put (insert_rows (get (working c)) b) (working c) in
  {| committed := w; working := w; log := log c ++ [Executemany T (length b); Commit] |}.

(** [dedup] deletes exactly the rows that have an earlier (lower id) row
    with the same business columns, provided the columns satisfy [key]. *)
Definition deletes_later_copies {R} (key : R -> Prop)
    (dedup : list (Z * R) -> list (Z * R)) : Prop :=
  forall t id r,
    In (id, r) (dedup t) <->
    In (id, r) t /\ ~ (key r /\ exists id', In (id', r) t /\ id' < id).

(** Of the rows with the same business columns, the one with the lowest id
    survives, and when the columns satisfy [key] no other does. *)
Definition keeps_lowest {R} (key : R -> Prop)
    (dedup : list (Z * R) -> list (Z * R)) : Prop :=
  forall t id r,
    In (id, r) t ->
    exists id0,
      id0 <= id /\ In (id0, r) (dedup t)
      /\ (forall id', In (id', r) t -> id0 <= id')
      /\ (key r -> forall id', In (id', r) (dedup t) -> id' = id0).

(** The key columns of the three tables: the two compared with a plain
    [=], which a NULL never satisfies. *)
Definition products_key (r : ProductRow) : Prop :=
  p_appl_no r <> None /\ p_ingredient r <> None.
Definition exclusivity_key (r : ExclusivityRow) : Prop :=
  e_appl_no r <> None /\ e_ingredient r <> None.
Definition patent_key (r : PatentRow) : Prop :=
  pt_appl_no r <> None /\ pt_ingredient r <> None.

(** The number of distinct application numbers, NULL left out, among the
    products rows of [t] that have the ingredient and the dosage of [r]. *)
Definition approvals_in_group (t : list (Z * ProductRow)) (r : ProductRow) : Z :=
  Z.of_nat (size (list_to_set (C := gset string)
    (omap (fun x => p_appl_no x.2)
       (List.filter
          (fun x => bool_decide (p_ingredient x.2 = p_ingredient r
                                 /\ p_dosage x.2 = p_dosage r)) t)))).

(** ** Sample rows *)

(** A products row with nothing but NULLs, and one that is all there. *)
Definition null_product : ProductRow :=
  {| p_appl_no := None; p_appl_type := None; p_ingredient := None; p_dosage := None;
     p_form := None; p_route := None; p_trade_name := None; p_applicant := None;
     p_strength := None; p_te_code := None; p_approval_date := None; p_rld := None;
     p_rs := None; p_type := None; p_applicant_full_name := None;
     p_number_of_approvals := None |}.

Definition aspirin (appl_no : string) (dosage te_code : option string)
    (n : option Z) : ProductRow :=
  {| p_appl_no := Some appl_no; p_appl_type := Some "N"; p_ingredient := Some "ASPIRIN";
     p_dosage := dosage; p_form := Some "TABLET"; p_route := Some "ORAL";
     p_trade_name := Some "ASPIRIN"; p_applicant := Some "BAYER";
     p_strength := Some "81MG"; p_te_code := te_code;
     p_approval_date := Some {| year := 1999; month := 12; day := 31 |};
     p_rld := Some "No"; p_rs := Some "No"; p_type := Some "OTC";
     p_applicant_full_name := Some "BAYER HEALTHCARE LLC";
     p_number_of_approvals := n |}.

(** A run that ended in a rollback: [events] were issued before it, the
    rollback is the last statement, and nothing is left of the open
    transaction. *)
Definition rolled_back {float} (c : connection float) (events : list event) : Prop :=
  log c = events ++ [Rollback] /\ working c = committed c.

(** The number of rows of the four tables. *)
Definition row_counts {float} (db : database float) : nat * nat * nat * nat :=
  (length (rows (products db)), length (rows (exclusivity db)),
   length (rows (patent db)), length (rows (sales db))).

Definition empty_table {R} : table R := {| rows := []; auto_increment := 1 |}.

Definition empty_database {float} : database float :=
  {| products := empty_table; exclusivity := empty_table;
     patent := empty_table; sales := empty_table |}.

(** A run that finds every extract but the sales extract; the products
    extract holds one row. *)
Definition sales_extract_missing : files :=
  fun f =>
    match f with
    | SalesCsv => None
    | ProductsCsv =>
        Some [list_to_map [("Appl_No", CInt 21234); ("Ingredient", CStr "ASPIRIN");
                           ("Approval_Date", CStr "1999-12-31")]]
    | _ => Some []
    end.

(** ** Sample extracts

    The runs on sample data take [Py.int] for [float], which reads the
    whole numbers of the samples. *)

Definition ndc_row (labeler product appl : cell) : row :=
  list_to_map [("Labeler Code", labeler); ("Product Code", product);
               ("Application Number", appl)].

Definition sales_row (labeler product : cell) (ingredient : string) (amount : cell) : row :=
  list_to_map [("Labeler Code", labeler); ("Product Code", product);
               ("Ingredient", CStr ingredient); ("Dosage", CStr "TABLET");
               ("Sales", amount); ("Packs", CStr "1,200")].

Definition products_row (appl_no : Z) (ingredient dosage date_text : string) : row :=
  list_to_map [("Appl_No", CInt appl_no); ("Ingredient", CStr ingredient);
               ("Dosage", CStr dosage); ("Approval_Date", CStr date_text)].

(** Two candidates for the key (00123, 0045), a blank application number,
    a missing product code and a code longer than its width. *)
Definition sample_ndc : list row :=
  [ndc_row (CInt 123) (CInt 45) (CStr "NDA021234");
   ndc_row (CStr " 123") (CStr "45 ") (CStr "ANDA077777");
   ndc_row (CInt 123) (CInt 46) (CStr "   ");
   ndc_row (CInt 555) CNone (CStr "NDA000555");
   ndc_row (CStr "123456") (CInt 12) (CStr "NDA000333")].

(** Two rows for the key (00123, 0045): the Application Number field of
    the first one is empty, which pandas reads as NaN, and the second one
    has an application number, followed by a space. *)
Definition ndc_empty_application : list row :=
  [ndc_row (CInt 123) (CInt 45) CNaN;
   ndc_row (CInt 123) (CInt 45) (CStr "NDA021234 ")].

Definition ndc_empty_application_files : files :=
  fun f =>
    match f with
    | NdcCsv => Some ndc_empty_application
    | _ => Some []
    end.

(** A matched row, a row whose key is not in the mapping and a row without
    a labeler code. *)
Definition sample_sales : list row :=
  [sales_row (CInt 123) (CInt 45) "ASPIRIN" (CStr "$1,000");
   sales_row (CInt 999) (CInt 1) "IBUPROFEN" (CStr "250");
   sales_row (CStr "  ") (CInt 45) "ASPIRIN" (CStr "n/a")].

(** A duplicate pair and one more row of the same group. *)
Definition sample_products : list row :=
  [products_row 21234 "ASPIRIN" "TABLET;ORAL" "1999-12-31";
   products_row 21234 "ASPIRIN" "TABLET;ORAL" "1999-12-31";
   products_row 77777 "ASPIRIN" "TABLET;ORAL" "2004-2-9"].

Definition sample_files : files :=
  fun f =>
    match f with
    | NdcCsv => Some sample_ndc
    | ProductsCsv => Some sample_products
    | SalesCsv => Some sample_sales
    | ExclusivityCsv | PatentCsv => Some []
    end.

(** Extracts of 2500 rows each. *)
Definition files_2500 : files := fun _ => Some (repeat (∅ : row) 2500).

(** The text [parse_decimal] hands to [float], before the trimming: the
    value without dollar signs, commas and spaces. *)
Definition decimal_noise (s : string) : string :=
  Py.remove_char " " (Py.remove_char "," (Py.remove_char "$" s)).

(** The number of distinct application numbers, NULL left out, among the
    sales rows of [t] that have the ingredient and the dosage of [r]. *)
Definition sellers_in_group {float} (t : list (Z * SalesRow float))
    (r : SalesRow float) : Z :=
  Z.of_nat (size (list_to_set (C := gset string)
    (omap (fun x => s_appl_no x.2)
       (List.filter
          (fun x => bool_decide (s_ingredient x.2 = s_ingredient r
                                 /\ s_dosage x.2 = s_dosage r)) t)))).

(** * Properties *)

(** ** The primitives on sample inputs *)

Example strptime_iso : strptime_ymd "2021-02-28" = Returns {| year := 2021; month := 2; day := 28 |}.
Proof. reflexivity. Qed.
Example strptime_feb30 : strptime_ymd "2021-02-30" = Raises ValueError.
Proof. reflexivity. Qed.
Example strptime_slashes : strptime_ymd "02/28/2021" = Raises ValueError.
Proof. reflexivity. Qed.
Example zfill_123 : Py.zfill "123" 5 = "00123".
Proof. reflexivity. Qed.
Example zfill_sign : Py.zfill "-12" 5 = "-0012".
Proof. reflexivity. Qed.
Example str_of_int_ex : (Py.str_of_int 0, Py.str_of_int 1203, Py.str_of_int (-7)) = ("0", "1203", "-7").
Proof. reflexivity. Qed.
Example int_ex : (Py.int " 1_000 ", Py.int "-12", Py.int "12.0", Py.int "1__0", Py.int "")
  = (Returns 1000, Returns (-12), Raises ValueError, Raises ValueError, Raises ValueError).
Proof. reflexivity. Qed.
Example strip_ex : Py.strip "  a b   " = "a b".
Proof. reflexivity. Qed.

Example parse_date_ok : parse_date (CStr " 1999-12-31 ")
  = Returns (Some {| year := 1999; month := 12; day := 31 |}).
Proof. reflexivity. Qed.
Example parse_date_nan : parse_date CNaN = Returns None.
Proof. reflexivity. Qed.
Example parse_date_text : parse_date (CStr "Dec 31, 1999") = Returns None.
Proof. reflexivity. Qed.
Example parse_int_commas : parse_int (CStr "1,234,567") = Returns (Some 1234567).
Proof. reflexivity. Qed.
Example parse_int_float_cell : parse_int (CFloat "12.0") = Returns None.
Proof. reflexivity. Qed.
Example zero_pad_int : zero_pad (CInt 123) 5 = Some "00123".
Proof. reflexivity. Qed.
Example zero_pad_nan : zero_pad CNaN 5 = Some "00nan".
Proof. reflexivity. Qed.

(** ** Strings *)

Lemma length_zeros n : String.length (Py.zeros n) = n.
Proof. induction n; simpl; congruence. Qed.

Lemma string_app_cons c (a b : string) :
  (String c a ++ b)%string = String c (a ++ b)%string.
Proof. reflexivity. Qed.

Lemma string_app_nil (b : string) : ("" ++ b)%string = b.
Proof. reflexivity. Qed.

Lemma length_string_app (a b : string) :
  String.length (a ++ b)%string = (String.length a + String.length b)%nat.
Proof.
  induction a as [| c a IH]; [reflexivity |].
  rewrite string_app_cons. simpl. rewrite IH. reflexivity.
Qed.

Lemma string_app_empty (a : string) : (a ++ "")%string = a.
Proof.
  induction a as [| c a IH]; [reflexivity |].
  rewrite string_app_cons, IH. reflexivity.
Qed.

Lemma zfill_long s width :
  (width <= String.length s)%nat -> Py.zfill s width = s.
Proof.
  intros H. unfold Py.zfill.
  destruct (Nat.leb_spec width (String.length s)); [reflexivity | lia].
Qed.

Lemma length_zfill s width :
  String.length (Py.zfill s width) = Nat.max width (String.length s).
Proof.
  unfold Py.zfill.
  destruct (Nat.leb_spec width (String.length s)) as [Hle | Hlt]; [lia |].
  destruct s as [| c r]; simpl in *.
  - rewrite length_zeros. lia.
  - destruct (Ascii.eqb c "+" || Ascii.eqb c "-"); simpl;
      rewrite ?string_app_cons, length_string_app, length_zeros; simpl; lia.
Qed.

Lemma zfill_short s width :
  (String.length s < width)%nat ->
  Py.zfill s width
  = (sign_of s ++ Py.zeros (width - String.length s) ++ unsigned_of s)%string.
Proof.
  intros H. unfold Py.zfill, sign_of, unsigned_of.
  destruct (Nat.leb_spec width (String.length s)); [lia |].
  destruct s as [| c r]; simpl.
  - rewrite string_app_empty. reflexivity.
  - destruct (Ascii.eqb c "+" || Ascii.eqb c "-"); reflexivity.
Qed.

Lemma zero_pad_Some code width :
  code <> CNone -> Py.strip (str code) <> "" ->
  zero_pad code width = Some (Py.zfill (Py.strip (str code)) width).
Proof.
  intros Hn He. unfold zero_pad.
  destruct code; try congruence; cbv zeta.
  all: destruct (Py.strip _); congruence.
Qed.

Lemma zero_pad_inv code width z :
  zero_pad code width = Some z ->
  code <> CNone /\ Py.strip (str code) <> "" /\ z = Py.zfill (Py.strip (str code)) width.
Proof.
  unfold zero_pad. intros H.
  destruct code; try discriminate; cbv zeta in H;
    (split; [discriminate |]);
    destruct (Py.strip _) eqn:E; try discriminate;
    (split; [discriminate | congruence]).
Qed.

Lemma zero_pad_blank code width : Py.strip (str code) = "" -> zero_pad code width = None.
Proof.
  intros H. unfold zero_pad.
  destruct code; try reflexivity; cbv zeta; rewrite H; reflexivity.
Qed.

Lemma zfill_unsigned s width :
  sign_of s = "" -> Py.zfill s width = left_padded s width.
Proof.
  intros Hs. unfold left_padded.
  destruct (Nat.leb_spec width (String.length s)) as [Hle | Hlt].
  - rewrite zfill_long by assumption.
    replace (width - String.length s)%nat with 0%nat by lia. reflexivity.
  - rewrite zfill_short by assumption. rewrite Hs, string_app_nil.
    f_equal. unfold sign_of in Hs. unfold unsigned_of.
    destruct s as [| c r]; [reflexivity |].
    destruct (Ascii.eqb c "+" || Ascii.eqb c "-"); [discriminate | reflexivity].
Qed.

(** C10, as stated, fails on a signed code: [zero_pad("-1", 3)] is
    ["-01"], not ["0-1"]. *)
Lemma zero_pad_signed_not_left_padded :
  zero_pad (CStr "-1") 3 = Some "-01"
  /\ zero_pad (CStr "-1") 3 <> Some (left_padded (Py.strip "-1") 3).
Proof. split; [reflexivity | discriminate]. Qed.

(** C10 (amended). [zero_pad] never truncates: for an input that is not
    [None] and whose trimmed text [t] is not empty, the result has length
    [max width (len t)]; a [t] at least [width] long is returned unchanged;
    a shorter [t] gets [width - len t] zeros on its left, after the leading
    [+] or [-] if [t] starts with one. *)
Theorem zero_pad_never_truncates (code : cell) (width : nat) :
  code <> CNone ->
  Py.strip (str code) <> "" ->
  let t := Py.strip (str code) in
  exists z,
    zero_pad code width = Some z
    /\ String.length z = Nat.max width (String.length t)
    /\ ((width <= String.length t)%nat -> z = t)
    /\ ((String.length t < width)%nat ->
        z = (sign_of t ++ Py.zeros (width - String.length t) ++ unsigned_of t)%string)
    /\ (sign_of t = "" -> z = left_padded t width).
Proof.
  intros Hn He t. exists (Py.zfill t width).
  split; [apply zero_pad_Some; assumption |].
  split; [apply length_zfill |].
  split; [apply zfill_long |].
  split; [apply zfill_short |].
  apply zfill_unsigned.
Qed.

(** A seven-character code with width 5 comes back unchanged. *)
Lemma zero_pad_never_truncates_witness :
  exists z,
    zero_pad (CStr " 1234567 ") 5 = Some z
    /\ String.length z = Nat.max 5 (String.length (Py.strip (str (CStr " 1234567 "))))
    /\ ((5 <= String.length (Py.strip (str (CStr " 1234567 "))))%nat
        -> z = Py.strip (str (CStr " 1234567 ")))
    /\ ((String.length (Py.strip (str (CStr " 1234567 "))) < 5)%nat ->
        z = (sign_of (Py.strip (str (CStr " 1234567 ")))
             ++ Py.zeros (5 - String.length (Py.strip (str (CStr " 1234567 "))))
             ++ unsigned_of (Py.strip (str (CStr " 1234567 "))))%string)
    /\ (sign_of (Py.strip (str (CStr " 1234567 "))) = ""
        -> z = left_padded (Py.strip (str (CStr " 1234567 "))) 5).
Proof.
  apply (zero_pad_never_truncates (CStr " 1234567 ") 5); [discriminate | discriminate].
Defined.

(** ** [strptime] and the texts it reads *)

Lemma digit_cases a :
  Py.isdigit a = true ->
  (a = "0" \/ a = "1" \/ a = "2" \/ a = "3" \/ a = "4"
   \/ a = "5" \/ a = "6" \/ a = "7" \/ a = "8" \/ a = "9")%char.
Proof.
  destruct a as [[] [] [] [] [] [] [] []]; vm_compute; intros H;
    try discriminate H; tauto.
Qed.

Lemma digit_val_range a : Py.isdigit a = true -> 0 <= Py.digit_val a <= 9.
Proof.
  intros H. destruct (digit_cases a H) as [-> | [-> | [-> | [-> | [-> | [-> | [-> | [-> | [-> | ->]]]]]]]]];
    vm_compute; split; discriminate.
Qed.

Lemma digit_char_val a : Py.isdigit a = true -> digit_char (Py.digit_val a) = a.
Proof.
  intros H. destruct (digit_cases a H) as [-> | [-> | [-> | [-> | [-> | [-> | [-> | [-> | [-> | ->]]]]]]]]];
    reflexivity.
Qed.

(** Case analysis on an integer known to lie in a short range. *)
Lemma in_range lo len n :
  lo <= n < lo + Z.of_nat len ->
  In n (map (fun i => lo + Z.of_nat i) (seq 0 len)).
Proof.
  intros H. apply in_map_iff. exists (Z.to_nat (n - lo)).
  split; [lia | apply in_seq; lia].
Qed.

Ltac range_cases n lo len :=
  let H := fresh "Hrange" in
  assert (H : In n (map (fun i => lo + Z.of_nat i) (seq 0 len)))
    by (apply in_range; lia);
  cbn in H;
  repeat (destruct H as [H | H]; [subst n |]);
  try (exfalso; exact H).

Ltac digit_enum n := range_cases n 0 10%nat.

Lemma digit_char_props n :
  0 <= n <= 9 ->
  Py.isdigit (digit_char n) = true /\ Py.digit_val (digit_char n) = n
  /\ Ascii.eqb (digit_char n) "-" = false.
Proof. intros H. digit_enum n; repeat split; reflexivity. Qed.

Lemma strptime_year_text y r :
  0 <= y <= 9999 -> strptime_year (four_digits y ++ "-" ++ r)%string = Some (y, r).
Proof.
  intros H. unfold four_digits. rewrite !string_app_cons, string_app_nil.
  unfold strptime_year.
  assert (H1 : 0 <= y / 1000 <= 9) by (Z.div_mod_to_equations; lia).
  assert (H2 : 0 <= y / 100 mod 10 <= 9) by (Z.div_mod_to_equations; lia).
  assert (H3 : 0 <= y / 10 mod 10 <= 9) by (Z.div_mod_to_equations; lia).
  assert (H4 : 0 <= y mod 10 <= 9) by (Z.div_mod_to_equations; lia).
  destruct (digit_char_props _ H1) as (-> & -> & _).
  destruct (digit_char_props _ H2) as (-> & -> & _).
  destruct (digit_char_props _ H3) as (-> & -> & _).
  destruct (digit_char_props _ H4) as (-> & -> & _).
  cbn [andb]. rewrite Ascii.eqb_refl. do 2 f_equal.
  Z.div_mod_to_equations; lia.
Qed.

Lemma strptime_year_inv s y r :
  strptime_year s = Some (y, r) ->
  0 <= y <= 9999 /\ s = (four_digits y ++ "-" ++ r)%string.
Proof.
  unfold strptime_year.
  destruct s as [| a [| b [| c [| d [| e r']]]]]; try discriminate.
  destruct (Py.isdigit a) eqn:Ha; [| discriminate].
  destruct (Py.isdigit b) eqn:Hb; [| discriminate].
  destruct (Py.isdigit c) eqn:Hc; [| discriminate].
  destruct (Py.isdigit d) eqn:Hd; [| discriminate].
  destruct (Ascii.eqb_spec e "-") as [-> |]; [| discriminate].
  cbn [andb]. intros [= <- <-].
  pose proof (digit_val_range a Ha). pose proof (digit_val_range b Hb).
  pose proof (digit_val_range c Hc). pose proof (digit_val_range d Hd).
  split; [lia |].
  unfold four_digits. rewrite !string_app_cons, string_app_nil.
  set (y := 1000 * Py.digit_val a + 100 * Py.digit_val b + 10 * Py.digit_val c + Py.digit_val d).
  replace (y / 1000) with (Py.digit_val a) by (subst y; Z.div_mod_to_equations; lia).
  replace (y / 100 mod 10) with (Py.digit_val b) by (subst y; Z.div_mod_to_equations; lia).
  replace (y / 10 mod 10) with (Py.digit_val c) by (subst y; Z.div_mod_to_equations; lia).
  replace (y mod 10) with (Py.digit_val d) by (subst y; Z.div_mod_to_equations; lia).
  rewrite !digit_char_val by assumption. reflexivity.
Qed.

Ltac month_enum m := range_cases m 1 12%nat.

Lemma strptime_month_text m mt r :
  1 <= m <= 12 -> In mt (month_texts m) ->
  strptime_month (mt ++ "-" ++ r)%string = Some (m, r).
Proof.
  intros H Hin. month_enum m; cbn in Hin;
    repeat (destruct Hin as [<- | Hin]; [reflexivity |]); destruct Hin.
Qed.

Lemma strptime_month_inv s m r :
  strptime_month s = Some (m, r) ->
  1 <= m <= 12 /\ exists mt, In mt (month_texts m) /\ s = (mt ++ "-" ++ r)%string.
Proof.
  unfold strptime_month.
  destruct s as [| a [| b r0]]; try discriminate.
  destruct (Ascii.eqb_spec b "-") as [-> | Hb].
  - destruct (Py.isdigit a) eqn:Ha; [| discriminate].
    destruct (digit_cases a Ha) as [-> | [-> | [-> | [-> | [-> | [-> | [-> | [-> | [-> | ->]]]]]]]]];
      intros E; vm_compute in E; try discriminate E; injection E as <- <-;
      (split; [lia |]);
      eexists; (split; [right; left; reflexivity | reflexivity]).
  - destruct r0 as [| c r']; [discriminate |].
    destruct (Ascii.eqb_spec c "-") as [-> | Hc]; [| discriminate].
    destruct (Ascii.eqb_spec a "1") as [-> | Ha1].
    + destruct (Ascii.eqb_spec b "0") as [-> |]; [intros E; vm_compute in E; injection E as <- <-; split; [lia | eexists; split; [left; reflexivity | reflexivity]] |].
      destruct (Ascii.eqb_spec b "1") as [-> |]; [intros E; vm_compute in E; injection E as <- <-; split; [lia | eexists; split; [left; reflexivity | reflexivity]] |].
      destruct (Ascii.eqb_spec b "2") as [-> |]; [intros E; vm_compute in E; injection E as <- <-; split; [lia | eexists; split; [left; reflexivity | reflexivity]] |].
      discriminate.
    + destruct (Ascii.eqb_spec a "0") as [-> | Ha0]; [| discriminate].
      destruct (Py.isdigit b) eqn:Hd; [| discriminate].
      destruct (digit_cases b Hd) as [-> | [-> | [-> | [-> | [-> | [-> | [-> | [-> | [-> | ->]]]]]]]]];
        intros E; vm_compute in E; try discriminate E; injection E as <- <-;
        (split; [lia |]);
        eexists; (split; [left; reflexivity | reflexivity]).
Qed.

Ltac day_enum d := range_cases d 1 31%nat.

Lemma strptime_day_text d dt :
  1 <= d <= 31 -> In dt (day_texts d) -> strptime_day dt = Some d.
Proof.
  intros H Hin. day_enum d; cbn in Hin;
    repeat (destruct Hin as [<- | Hin]; [reflexivity |]); destruct Hin.
Qed.

Ltac day_found E :=
  vm_compute in E; try discriminate E; injection E as <-;
  (split; [lia |]);
  first [ left; reflexivity | right; left; reflexivity | right; right; left; reflexivity ].

Lemma strptime_day_inv s d :
  strptime_day s = Some d -> 1 <= d <= 31 /\ In s (day_texts d).
Proof.
  unfold strptime_day.
  destruct s as [| a [| b [| c r]]]; try discriminate.
  - destruct (Py.isdigit a) eqn:Ha; [| discriminate].
    destruct (digit_cases a Ha) as [-> | [-> | [-> | [-> | [-> | [-> | [-> | [-> | [-> | ->]]]]]]]]];
      intros E; day_found E.
  - destruct (Py.isdigit b) eqn:Hb; [| discriminate].
    destruct (Ascii.eqb_spec a "3") as [-> |];
      [| destruct (Ascii.eqb_spec a "1") as [-> |];
         [| destruct (Ascii.eqb_spec a "2") as [-> |];
            [| destruct (Ascii.eqb_spec a "0") as [-> |];
               [| destruct (Ascii.eqb_spec a " ") as [-> |]; [| discriminate]]]]];
      destruct (digit_cases b Hb) as [-> | [-> | [-> | [-> | [-> | [-> | [-> | [-> | [-> | ->]]]]]]]]];
      intros E; day_found E.
Qed.

Lemma valid_date_bounds y m d :
  valid_date y m d = true -> 1 <= y <= 9999 /\ 1 <= m <= 12 /\ 1 <= d <= 31.
Proof.
  unfold valid_date, days_in_month. intros H.
  repeat (apply andb_prop in H as [H ?]).
  destruct (m =? 2); [destruct (is_leap y) |];
    [| | destruct ((m =? 4) || (m =? 6) || (m =? 9) || (m =? 11))]; lia.
Qed.

Lemma in_date_texts s d :
  In s (date_texts d) <->
  exists mt dt, In mt (month_texts (month d)) /\ In dt (day_texts (day d))
                /\ s = (four_digits (year d) ++ "-" ++ mt ++ "-" ++ dt)%string.
Proof.
  unfold date_texts. rewrite <- list_elem_of_In, list_elem_of_bind. split.
  - intros (mt & Hs & Hmt). apply list_elem_of_bind in Hs as (dt & Hs & Hdt).
    apply list_elem_of_singleton in Hs. exists mt, dt.
    rewrite <- !list_elem_of_In. auto.
  - intros (mt & dt & Hmt & Hdt & ->). exists mt.
    rewrite list_elem_of_bind. rewrite <- !list_elem_of_In in *.
    split; [| assumption]. exists dt. split; [| assumption].
    apply list_elem_of_singleton. reflexivity.
Qed.

Lemma strptime_ymd_spec s d :
  strptime_ymd s = Returns d <->
  valid_date (year d) (month d) (day d) = true /\ In s (date_texts d).
Proof.
  rewrite in_date_texts. unfold strptime_ymd. split.
  - destruct (strptime_year s) as [[y r1] |] eqn:Ey; [| discriminate].
    destruct (strptime_month r1) as [[m r2] |] eqn:Em; [| discriminate].
    destruct (strptime_day r2) as [dd |] eqn:Ed; [| discriminate].
    destruct (valid_date y m dd) eqn:Ev; [| discriminate].
    intros [= <-]. cbn [year month day]. split; [assumption |].
    apply strptime_year_inv in Ey as (_ & ->).
    apply strptime_month_inv in Em as (_ & mt & Hmt & ->).
    apply strptime_day_inv in Ed as (_ & Hdt).
    exists mt, r2. auto.
  - intros (Hv & mt & dt & Hmt & Hdt & ->).
    destruct (valid_date_bounds _ _ _ Hv) as (Hy & Hm & Hd).
    rewrite strptime_year_text by lia.
    rewrite (strptime_month_text _ _ _ Hm Hmt).
    rewrite (strptime_day_text _ _ Hd Hdt), Hv.
    destruct d; reflexivity.
Qed.

Lemma isspace_digit_char n : 0 <= n <= 9 -> Py.isspace (digit_char n) = false.
Proof. intros H. digit_enum n; reflexivity. Qed.

Lemma strip_iso_format d :
  valid_date (year d) (month d) (day d) = true -> Py.strip (iso_format d) = iso_format d.
Proof.
  intros Hv. destruct (valid_date_bounds _ _ _ Hv) as (Hy & Hm & Hd).
  unfold iso_format, four_digits, two_digits.
  repeat (rewrite string_app_cons || rewrite string_app_nil).
  unfold Py.strip. cbn [Py.lstrip].
  rewrite isspace_digit_char by (Z.div_mod_to_equations; lia).
  cbn [Py.rstrip].
  rewrite (isspace_digit_char (day d mod 10)) by (Z.div_mod_to_equations; lia).
  reflexivity.
Qed.

(** ** Field normalizers *)

Lemma parse_date_total v : exists r, parse_date v = Returns r.
Proof.
  unfold parse_date. destruct (isna v || _); [eauto |].
  destruct (strptime_ymd _); simpl; eauto.
Qed.

Lemma parse_int_total v : exists r, parse_int v = Returns r.
Proof.
  unfold parse_int. destruct (isna v || _); [eauto |].
  cbv zeta. destruct (Py.strip (Py.remove_char _ _)); [simpl; eauto |].
  destruct (Py.int _); simpl; eauto.
Qed.

Lemma parse_decimal_total {float} (py_float : string -> outcome float) v :
  exists r, parse_decimal py_float v = Returns r.
Proof.
  unfold parse_decimal. destruct (isna v || _); [eauto |].
  cbv zeta. destruct (Py.strip (Py.remove_char _ _)); [simpl; eauto |].
  destruct (py_float _); simpl; eauto.
Qed.

Lemma parse_date_spec v d :
  parse_date v = Returns (Some d) <->
  isna v = false
  /\ valid_date (year d) (month d) (day d) = true
  /\ In (Py.strip (str v)) (date_texts d).
Proof.
  rewrite <- strptime_ymd_spec. unfold parse_date.
  destruct (isna v); simpl; [split; [discriminate | intros [? _]; discriminate] |].
  destruct (String.eqb_spec (Py.strip (str v)) "") as [-> | Hne].
  - split; [discriminate | intros [_ H]; discriminate H].
  - destruct (strptime_ymd _) as [d' | e]; simpl.
    + split; [intros [= <-]; auto | intros [_ [= <-]]; reflexivity].
    + split; [discriminate | intros [_ H]; discriminate H].
Qed.

(** ** Dates in text of any code points *)

Lemma uni_isspace_ascii a : Uni.isspace (N_of_ascii a) = Py.isspace a.
Proof. destruct a as [[] [] [] [] [] [] [] []]; vm_compute; reflexivity. Qed.

Lemma uni_decimal_ascii a :
  Uni.decimal (N_of_ascii a) = if Py.isdigit a then Some (Py.digit_val a) else None.
Proof. destruct a as [[] [] [] [] [] [] [] []]; vm_compute; reflexivity. Qed.

Lemma uni_nonzero_ascii a :
  Uni.nonzero_ascii_digit (N_of_ascii a)
  = if Py.isdigit a && negb (Ascii.eqb a "0") then Some (Py.digit_val a) else None.
Proof. destruct a as [[] [] [] [] [] [] [] []]; vm_compute; reflexivity. Qed.

Lemma uni_eqb_ascii a c : (N_of_ascii a =? N_of_ascii c)%N = Ascii.eqb a c.
Proof.
  destruct (Ascii.eqb_spec a c) as [-> | Hne]; [apply N.eqb_refl |].
  apply N.eqb_neq. intros E. apply Hne.
  rewrite <- (ascii_N_embedding a), <- (ascii_N_embedding c), E. reflexivity.
Qed.

Lemma uni_of_string_cons a s : Uni.of_string (String a s) = N_of_ascii a :: Uni.of_string s.
Proof. reflexivity. Qed.

Lemma uni_of_string_nil s : Uni.of_string s = [] -> s = "".
Proof. destruct s; [reflexivity | discriminate]. Qed.

Lemma uni_lstrip_ascii s : Uni.lstrip (Uni.of_string s) = Uni.of_string (Py.lstrip s).
Proof.
  induction s as [| a s IH]; [reflexivity |].
  rewrite uni_of_string_cons. cbn [Uni.lstrip Py.lstrip]. rewrite uni_isspace_ascii.
  destruct (Py.isspace a); [exact IH | reflexivity].
Qed.

Lemma uni_rstrip_ascii s : Uni.rstrip (Uni.of_string s) = Uni.of_string (Py.rstrip s).
Proof.
  induction s as [| a s IH]; [reflexivity |].
  rewrite uni_of_string_cons. cbn [Uni.rstrip Py.rstrip]. rewrite IH, uni_isspace_ascii.
  destruct (Py.rstrip s); [destruct (Py.isspace a) |]; reflexivity.
Qed.

Lemma uni_strip_ascii s : Uni.strip (Uni.of_string s) = Uni.of_string (Py.strip s).
Proof. unfold Uni.strip, Py.strip. rewrite uni_lstrip_ascii. apply uni_rstrip_ascii. Qed.

Ltac ascii_codes :=
  change 32%N with (N_of_ascii " ") in *; change 45%N with (N_of_ascii "-") in *;
  change 48%N with (N_of_ascii "0") in *; change 49%N with (N_of_ascii "1") in *;
  change 50%N with (N_of_ascii "2") in *; change 51%N with (N_of_ascii "3") in *;
  rewrite ?uni_eqb_ascii, ?uni_decimal_ascii, ?uni_nonzero_ascii.

Lemma uni_strptime_day_ascii s : Uni.strptime_day (Uni.of_string s) = strptime_day s.
Proof.
  destruct s as [| a [| b [| c r]]]; try reflexivity.
  - cbn [Uni.of_string list_ascii_of_string map Uni.strptime_day strptime_day].
    apply uni_nonzero_ascii.
  - cbn [Uni.of_string list_ascii_of_string map Uni.strptime_day strptime_day].
    ascii_codes.
    destruct (Ascii.eqb_spec a "3") as [-> |].
    + destruct (Ascii.eqb_spec b "0") as [-> |]; [reflexivity |].
      destruct (Ascii.eqb_spec b "1") as [-> |]; [reflexivity |].
      destruct (Py.isdigit b); reflexivity.
    + destruct (Ascii.eqb a "1" || Ascii.eqb a "2") eqn:E12.
      * destruct (Py.isdigit b) eqn:Hb; cbn [option_map]; [| reflexivity].
        apply orb_prop in E12 as [E | E]; apply Ascii.eqb_eq in E; subst a; reflexivity.
      * destruct (Ascii.eqb a "0" || Ascii.eqb a " ");
          [| destruct (Py.isdigit b); reflexivity].
        destruct (Py.isdigit b); cbn [andb]; [| reflexivity].
        destruct (Ascii.eqb b "0"); reflexivity.
Qed.

Lemma uni_strptime_month_ascii s :
  Uni.strptime_month (Uni.of_string s)
  = option_map (fun mr => (mr.1, Uni.of_string mr.2)) (strptime_month s).
Proof.
  destruct s as [| a [| b r]]; try reflexivity.
  cbn [Uni.of_string list_ascii_of_string map Uni.strptime_month strptime_month].
  fold (Uni.of_string r). ascii_codes.
  destruct (Ascii.eqb b "-").
  - destruct (Py.isdigit a && negb (Ascii.eqb a "0")); reflexivity.
  - destruct r as [| c r']; [reflexivity |].
    rewrite uni_of_string_cons. ascii_codes.
    destruct (Ascii.eqb c "-"); [| reflexivity].
    destruct (Ascii.eqb a "1").
    + destruct (Ascii.eqb b "0" || Ascii.eqb b "1" || Ascii.eqb b "2"); reflexivity.
    + destruct (Ascii.eqb a "0"); [| reflexivity].
      destruct (Py.isdigit b && negb (Ascii.eqb b "0")); reflexivity.
Qed.

Lemma uni_strptime_year_ascii s :
  Uni.strptime_year (Uni.of_string s)
  = option_map (fun yr => (yr.1, Uni.of_string yr.2)) (strptime_year s).
Proof.
  destruct s as [| a [| b [| c [| d [| e r]]]]]; try reflexivity;
    cbn [Uni.of_string list_ascii_of_string map Uni.strptime_year strptime_year].
  fold (Uni.of_string r). ascii_codes.
  destruct (Py.isdigit a); [| reflexivity].
  destruct (Py.isdigit b); [| reflexivity].
  destruct (Py.isdigit c); [| reflexivity].
  destruct (Py.isdigit d); [| reflexivity].
  cbn [andb]. destruct (Ascii.eqb e "-"); reflexivity.
Qed.

Lemma uni_strptime_ymd_ascii s : Uni.strptime_ymd (Uni.of_string s) = strptime_ymd s.
Proof.
  unfold Uni.strptime_ymd, strptime_ymd. rewrite uni_strptime_year_ascii.
  destruct (strptime_year s) as [[y r1] |]; [| reflexivity]. cbn [option_map fst snd].
  rewrite uni_strptime_month_ascii.
  destruct (strptime_month r1) as [[m r2] |]; [| reflexivity]. cbn [option_map fst snd].
  rewrite uni_strptime_day_ascii. reflexivity.
Qed.

(** On text of the code points below 256 [Uni.parse_date] is
    [parse_date]. *)
Lemma uni_parse_date_ascii s : Uni.parse_date (Uni.of_string s) = parse_date (CStr s).
Proof.
  unfold Uni.parse_date, parse_date. cbn [isna str orb]. rewrite uni_strip_ascii.
  destruct (Py.strip s) as [| a t]; [reflexivity |].
  rewrite uni_of_string_cons. cbv iota.
  rewrite <- uni_of_string_cons, uni_strptime_ymd_ascii. reflexivity.
Qed.

Lemma uni_decimal_range n k : Uni.decimal n = Some k -> 0 <= k <= 9.
Proof.
  unfold Uni.decimal.
  destruct (List.find _ Uni.digit_zeros) as [z |] eqn:E; [| discriminate].
  apply List.find_some in E as [_ E]. apply andb_prop in E as [E1 E2].
  apply N.leb_le in E1. apply N.ltb_lt in E2. intros [= <-]. lia.
Qed.

Lemma uni_nonzero_inv n k :
  Uni.nonzero_ascii_digit n = Some k -> 1 <= k <= 9 /\ n = Z.to_N (48 + k).
Proof.
  unfold Uni.nonzero_ascii_digit.
  destruct ((49 <=? n) && (n <=? 57))%N eqn:E; [| discriminate].
  apply andb_prop in E as [E1 E2]. apply N.leb_le in E1. apply N.leb_le in E2.
  intros [= <-]. lia.
Qed.

Lemma uni_year_inv s y r :
  Uni.strptime_year s = Some (y, r) ->
  0 <= y <= 9999 /\ exists ty, s = ty ++ 45%N :: r /\ written_year y ty.
Proof.
  unfold Uni.strptime_year.
  destruct s as [| a [| b [| c [| d [| e r']]]]]; try discriminate.
  destruct (Uni.decimal a) as [ka |] eqn:Ha; [| discriminate].
  destruct (Uni.decimal b) as [kb |] eqn:Hb; [| discriminate].
  destruct (Uni.decimal c) as [kc |] eqn:Hc; [| discriminate].
  destruct (Uni.decimal d) as [kd |] eqn:Hd; [| discriminate].
  destruct (N.eqb_spec e 45) as [-> |]; [| discriminate].
  intros [= <- <-].
  pose proof (uni_decimal_range _ _ Ha). pose proof (uni_decimal_range _ _ Hb).
  pose proof (uni_decimal_range _ _ Hc). pose proof (uni_decimal_range _ _ Hd).
  split; [lia |]. exists [a; b; c; d]. split; [reflexivity |].
  exists a, b, c, d. split; [reflexivity |].
  set (y := 1000 * ka + 100 * kb + 10 * kc + kd).
  replace (y / 1000) with ka by (subst y; Z.div_mod_to_equations; lia).
  replace (y / 100 mod 10) with kb by (subst y; Z.div_mod_to_equations; lia).
  replace (y / 10 mod 10) with kc by (subst y; Z.div_mod_to_equations; lia).
  replace (y mod 10) with kd by (subst y; Z.div_mod_to_equations; lia).
  auto.
Qed.

Lemma uni_year_run y ty r :
  written_year y ty -> Uni.strptime_year (ty ++ 45%N :: r) = Some (y, r).
Proof.
  intros (a & b & c & e & -> & Ha & Hb & Hc & He).
  cbn [app Uni.strptime_year]. rewrite Ha, Hb, Hc, He. cbn [N.eqb Pos.eqb].
  f_equal. f_equal. Z.div_mod_to_equations. lia.
Qed.

Lemma uni_month_inv s m r :
  Uni.strptime_month s = Some (m, r) ->
  1 <= m <= 12 /\ exists tm, s = tm ++ 45%N :: r /\ written_month m tm.
Proof.
  unfold Uni.strptime_month, written_month.
  destruct s as [| a [| b r0]]; try discriminate.
  destruct (N.eqb_spec b 45) as [-> | Hb].
  - destruct (Uni.nonzero_ascii_digit a) as [k |] eqn:Ha; [| discriminate].
    apply uni_nonzero_inv in Ha as [Hk ->]. intros [= <- <-]. split; [lia |].
    exists [Z.to_N (48 + k)]. split; [reflexivity |].
    range_cases k 1 9%nat; right; left; reflexivity.
  - destruct r0 as [| c r']; [discriminate |].
    destruct (N.eqb_spec c 45) as [-> |]; [| discriminate].
    destruct (N.eqb_spec a 49) as [-> | Ha1].
    + destruct (N.eqb_spec b 48) as [-> |];
        [intros [= <- <-]; split; [lia |]; exists [49; 48]%N; split; [| left]; reflexivity |].
      destruct (N.eqb_spec b 49) as [-> |];
        [intros [= <- <-]; split; [lia |]; exists [49; 49]%N; split; [| left]; reflexivity |].
      destruct (N.eqb_spec b 50) as [-> |];
        [intros [= <- <-]; split; [lia |]; exists [49; 50]%N; split; [| left]; reflexivity |].
      discriminate.
    + destruct (N.eqb_spec a 48) as [-> |]; [| discriminate].
      destruct (Uni.nonzero_ascii_digit b) as [k |] eqn:Hk; [| discriminate].
      apply uni_nonzero_inv in Hk as [Hk ->]. intros [= <- <-]. split; [lia |].
      exists [48%N; Z.to_N (48 + k)]. split; [reflexivity |].
      range_cases k 1 9%nat; left; reflexivity.
Qed.

Lemma uni_month_run m tm r :
  1 <= m <= 12 -> written_month m tm ->
  Uni.strptime_month (tm ++ 45%N :: r) = Some (m, r).
Proof.
  unfold written_month. intros H Hin. month_enum m; cbn in Hin;
    repeat (destruct Hin as [<- | Hin]; [reflexivity |]); destruct Hin.
Qed.

Lemma uni_day_inv s d : Uni.strptime_day s = Some d -> 1 <= d <= 31 /\ written_day d s.
Proof.
  unfold Uni.strptime_day, written_day.
  destruct s as [| a [| b [| c r]]]; try discriminate.
  - intros Ha. apply uni_nonzero_inv in Ha as [Hk ->]. split; [lia |]. left.
    range_cases d 1 9%nat; right; left; reflexivity.
  - destruct (N.eqb_spec a 51) as [-> |].
    + destruct (N.eqb_spec b 48) as [-> |];
        [intros [= <-]; split; [lia |]; left; left; reflexivity |].
      destruct (N.eqb_spec b 49) as [-> |];
        [intros [= <-]; split; [lia |]; left; left; reflexivity |].
      discriminate.
    + destruct ((a =? 49) || (a =? 50))%N eqn:E12.
      * destruct (Uni.decimal b) as [k |] eqn:Hb; [| discriminate].
        pose proof (uni_decimal_range _ _ Hb) as Hk. cbn [option_map]. intros [= <-].
        assert (Ha : (a = 49 \/ a = 50)%N).
        { apply orb_prop in E12 as [E | E]; apply N.eqb_eq in E; auto. }
        split; [destruct Ha as [-> | ->]; lia |].
        right. exists a, b. split; [reflexivity |]. split; [exact Ha |].
        split; [destruct Ha as [-> | ->]; Z.div_mod_to_equations; lia |].
        rewrite Hb. f_equal. destruct Ha as [-> | ->]; Z.div_mod_to_equations; lia.
      * destruct ((a =? 48) || (a =? 32))%N eqn:E0; [| discriminate].
        intros Hb. apply uni_nonzero_inv in Hb as [Hk ->]. split; [lia |]. left.
        apply orb_prop in E0 as [E | E]; apply N.eqb_eq in E; subst a;
          range_cases d 1 9%nat;
          first [ left; reflexivity | right; right; left; reflexivity ].
Qed.

Lemma uni_day_run d s : 1 <= d <= 31 -> written_day d s -> Uni.strptime_day s = Some d.
Proof.
  intros H [Hin | (a & b & -> & Ha & Hq & Hb)].
  - day_enum d; cbn in Hin;
      repeat (destruct Hin as [<- | Hin]; [reflexivity |]); destruct Hin.
  - unfold Uni.strptime_day.
    assert (E3 : (a =? 51)%N = false) by (destruct Ha as [-> | ->]; reflexivity).
    assert (E12 : ((a =? 49) || (a =? 50))%N = true) by (destruct Ha as [-> | ->]; reflexivity).
    rewrite E3, E12, Hb. cbn [option_map]. f_equal. Z.div_mod_to_equations. lia.
Qed.

Lemma written_date_nonempty d : ~ written_date d [].
Proof. intros (ty & tm & td & E & _). destruct ty; discriminate E. Qed.

(** [strptime] on text of any code points, by the texts it reads. *)
Lemma uni_strptime_ymd_spec s d :
  Uni.strptime_ymd s = Returns d <->
  valid_date (year d) (month d) (day d) = true /\ written_date d s.
Proof.
  unfold Uni.strptime_ymd. split.
  - destruct (Uni.strptime_year s) as [[y r1] |] eqn:Ey; [| discriminate].
    destruct (Uni.strptime_month r1) as [[m r2] |] eqn:Em; [| discriminate].
    destruct (Uni.strptime_day r2) as [dd |] eqn:Ed; [| discriminate].
    destruct (valid_date y m dd) eqn:Ev; [| discriminate].
    intros [= <-]. cbn [year month day]. split; [assumption |].
    apply uni_year_inv in Ey as (_ & ty & -> & Hy).
    apply uni_month_inv in Em as (_ & tm & -> & Hm).
    apply uni_day_inv in Ed as (_ & Hd).
    exists ty, tm, r2. auto.
  - intros (Hv & ty & tm & td & -> & Hy & Hm & Hd).
    destruct (valid_date_bounds _ _ _ Hv) as (By & Bm & Bd).
    rewrite (uni_year_run _ _ _ Hy), (uni_month_run _ _ _ Bm Hm), (uni_day_run _ _ Bd Hd), Hv.
    destruct d; reflexivity.
Qed.

Lemma uni_parse_date_total s : exists r, Uni.parse_date s = Returns r.
Proof.
  unfold Uni.parse_date. destruct (Uni.strip s); [eauto |].
  destruct (Uni.strptime_ymd _); simpl; eauto.
Qed.

Lemma uni_parse_date_spec s d :
  Uni.parse_date s = Returns (Some d) <->
  valid_date (year d) (month d) (day d) = true /\ written_date d (Uni.strip s).
Proof.
  rewrite <- uni_strptime_ymd_spec. unfold Uni.parse_date.
  destruct (Uni.strip s) as [| a t] eqn:E.
  - split; [discriminate |]. intros H. apply uni_strptime_ymd_spec in H as [_ H].
    destruct (written_date_nonempty d H).
  - destruct (Uni.strptime_ymd (a :: t)) as [d' | e]; simpl.
    + split; intros [= <-]; reflexivity.
    + split; discriminate.
Qed.

(** C6, as stated, fails for [parse_date]: a month and a day without the
    leading zero are read as well, so the text need not be YYYY-MM-DD. *)
Lemma parse_date_reads_short_month_and_day :
  parse_date (CStr "2020-1-5") = Returns (Some {| year := 2020; month := 1; day := 5 |})
  /\ "2020-1-5" <> iso_format {| year := 2020; month := 1; day := 5 |}.
Proof. split; [reflexivity | discriminate]. Qed.

(** C6 (amended). [parse_date], [parse_decimal] and [parse_int] never
    raise: on every cell they return a value, and that value is null for a
    missing cell ([None] or NaN), for blank text and whenever the
    underlying parse ([strptime], [int], [float]) fails. [zero_pad] is null
    for [None] and for an empty or all-whitespace text, and maps ["123"]
    with width 5 to ["00123"]. [parse_date] returns a date exactly when the
    trimmed text is a year of four digits, [-], a month and [-], a day that
    form a calendar date, where the month and the day are written with two
    digits or, below 10, with one digit (the day also as a space and one
    digit); YYYY-MM-DD is the two-digit case. In text beyond U+00FF the
    trimming removes every Unicode whitespace, the four digits of the year
    and the second digit of a day from 10 to 29 may be decimal digits of
    any script, and the rest is ASCII. *)
Theorem field_normalizers_total {float} (py_float : string -> outcome float)
    (v : cell) (width : nat) :
  (exists r, parse_date v = Returns r)
  /\ (exists r, parse_int v = Returns r)
  /\ (exists r, parse_decimal py_float v = Returns r)
  /\ (isna v = true \/ Py.strip (str v) = "" ->
      parse_date v = Returns None /\ parse_int v = Returns None
      /\ parse_decimal py_float v = Returns None)
  /\ (Py.strip (str v) = "" -> zero_pad v width = None)
  /\ zero_pad CNone width = None
  /\ (forall e, strptime_ymd (Py.strip (str v)) = Raises e -> parse_date v = Returns None)
  /\ (forall e, Py.int (Py.strip (Py.remove_char "," (str v))) = Raises e ->
      parse_int v = Returns None)
  /\ (forall e,
        py_float (Py.strip (Py.remove_char " " (Py.remove_char ","
                    (Py.remove_char "$" (str v))))) = Raises e ->
        parse_decimal py_float v = Returns None)
  /\ (forall d, parse_date v = Returns (Some d) <->
        isna v = false /\ valid_date (year d) (month d) (day d) = true
        /\ In (Py.strip (str v)) (date_texts d))
  /\ (forall d, valid_date (year d) (month d) (day d) = true ->
        parse_date (CStr (iso_format d)) = Returns (Some d))
  /\ zero_pad (CStr "123") 5 = Some "00123"
  /\ (forall s, parse_date (CStr s) = Uni.parse_date (Uni.of_string s))
  /\ (forall u, exists r, Uni.parse_date u = Returns r)
  /\ (forall u d, Uni.parse_date u = Returns (Some d) <->
        valid_date (year d) (month d) (day d) = true
        /\ written_date d (Uni.strip u)).
Proof.
  split; [apply parse_date_total |].
  split; [apply parse_int_total |].
  split; [apply parse_decimal_total |].
  split.
  { intros H. unfold parse_date, parse_int, parse_decimal.
    assert (isna v || String.eqb (Py.strip (str v)) "" = true) as ->; [| auto].
    destruct H as [-> | ->]; [reflexivity | apply orb_true_r]. }
  split.
  { apply zero_pad_blank. }
  split; [reflexivity |].
  split.
  { intros e H. unfold parse_date. destruct (isna v || _); [reflexivity |].
    rewrite H. reflexivity. }
  split.
  { intros e H. unfold parse_int. destruct (isna v || _); [reflexivity |].
    cbv zeta. destruct (Py.strip (Py.remove_char _ _)); [reflexivity |].
    rewrite H. reflexivity. }
  split.
  { intros e H. unfold parse_decimal. destruct (isna v || _); [reflexivity |].
    cbv zeta. destruct (Py.strip (Py.remove_char _ _)); [reflexivity |].
    rewrite H. reflexivity. }
  split; [apply parse_date_spec |].
  split.
  { intros d Hv. apply parse_date_spec. split; [reflexivity |]. split; [assumption |].
    cbn [str]. rewrite strip_iso_format by assumption.
    apply in_date_texts. exists (two_digits (month d)), (two_digits (day d)).
    split; [left; reflexivity |]. split; [left; reflexivity | reflexivity]. }
  split; [reflexivity |].
  split; [intros s; symmetry; apply uni_parse_date_ascii |].
  split; [apply uni_parse_date_total | apply uni_parse_date_spec].
Qed.

(** A date with a full-width year and a Bengali last digit, between an
    ideographic space and an em space. *)
Example uni_parse_date_ex :
  Uni.parse_date [12288; 65298; 65296; 65298; 65297; 45; 49; 45; 50; 2537; 8195]%N
  = Returns (Some {| year := 2021; month := 1; day := 23 |}).
Proof. vm_compute. reflexivity. Qed.

(** ** Cross-reference builder *)

Lemma truthy_true s : truthy s = true <-> s <> "".
Proof. destruct s; simpl; split; congruence. Qed.

Lemma zero_pad_truthy code width z : zero_pad code width = Some z -> truthy z = true.
Proof.
  intros H. apply zero_pad_inv in H as (_ & Ht & ->). apply truthy_true.
  intros E. apply (f_equal String.length) in E. rewrite length_zfill in E.
  destruct (Py.strip (str code)); [congruence | simpl in E; lia].
Qed.

Lemma zero_pad_length code width z :
  zero_pad code width = Some z -> (width <= String.length z)%nat.
Proof.
  intros H. apply zero_pad_inv in H as (_ & _ & ->). rewrite length_zfill. lia.
Qed.

(** One turn of the loop, by cases on the row. *)
Lemma ndc_step_valid lookup r l p :
  zero_pad (labeler_cell r) 5 = Some l ->
  zero_pad (product_cell r) 4 = Some p ->
  application_number r <> "" ->
  ndc_step lookup r
  = match lookup !! (l, p) with
    | None => <[(l, p) := application_number r]> lookup
    | Some v => if negb (truthy v) then <[(l, p) := application_number r]> lookup else lookup
    end.
Proof.
  intros Hl Hp Ha. unfold ndc_step.
  fold (labeler_cell r) (product_cell r) (application_number r).
  rewrite Hl, Hp. cbv zeta.
  rewrite (zero_pad_truthy _ _ _ Hl), (zero_pad_truthy _ _ _ Hp).
  apply truthy_true in Ha as Ht. rewrite Ht.
  destruct (String.eqb_spec (application_number r) ""); [contradiction | reflexivity].
Qed.

Lemma ndc_step_skip lookup r :
  zero_pad (labeler_cell r) 5 = None \/ zero_pad (product_cell r) 4 = None
  \/ application_number r = "" ->
  ndc_step lookup r = lookup.
Proof.
  intros H. unfold ndc_step.
  fold (labeler_cell r) (product_cell r) (application_number r).
  destruct (zero_pad (labeler_cell r) 5) as [l |]; [| reflexivity].
  destruct (zero_pad (product_cell r) 4) as [p |]; [| reflexivity].
  destruct H as [H | [H | H]]; try discriminate.
  cbv zeta. rewrite H. rewrite andb_false_r. reflexivity.
Qed.

Lemma ndc_fold_lookup df : forall lookup l p,
  nonblank_values lookup ->
  foldl ndc_step lookup df !! (l, p)
  = match lookup !! (l, p) with
    | Some v => Some v
    | None => head (candidates l p df)
    end.
Proof.
  induction df as [| r df IH]; intros lookup l p Hnb.
  - simpl. destruct (lookup !! (l, p)); reflexivity.
  - cbn [foldl]. unfold candidates. cbn [List.filter].
    destruct (zero_pad (labeler_cell r) 5) as [l' |] eqn:Hl;
      [destruct (zero_pad (product_cell r) 4) as [p' |] eqn:Hp;
       [destruct (decide (application_number r = "")) as [Ha | Ha] |] |].
    + rewrite ndc_step_skip by auto. rewrite IH by assumption.
      rewrite bool_decide_eq_false_2 by (intros (_ & _ & ?); contradiction).
      reflexivity.
    + rewrite (ndc_step_valid lookup r l' p') by assumption.
      destruct (lookup !! (l', p')) as [v |] eqn:Hv.
      * apply Hnb in Hv as Hne. apply truthy_true in Hne. rewrite Hne. cbn [negb].
        rewrite IH by assumption.
        destruct (decide ((l', p') = (l, p))) as [[= -> ->] | Hk].
        -- rewrite Hv. reflexivity.
        -- rewrite bool_decide_eq_false_2 by (intros ([= ->] & [= ->] & _); congruence).
           reflexivity.
      * rewrite IH.
        2:{ intros k v Hkv. destruct (decide ((l', p') = k)) as [<- | Hk].
            - rewrite lookup_insert_eq in Hkv. congruence.
            - rewrite lookup_insert_ne in Hkv by assumption. eauto. }
        destruct (decide ((l', p') = (l, p))) as [[= -> ->] | Hk].
        -- rewrite lookup_insert_eq, Hv.
           rewrite bool_decide_eq_true_2 by auto. reflexivity.
        -- rewrite lookup_insert_ne by assumption.
           rewrite bool_decide_eq_false_2 by (intros ([= ->] & [= ->] & _); congruence).
           reflexivity.
    + rewrite ndc_step_skip by auto. rewrite IH by assumption.
      rewrite bool_decide_eq_false_2 by (intros (_ & ? & _); congruence).
      reflexivity.
    + rewrite ndc_step_skip by auto. rewrite IH by assumption.
      rewrite bool_decide_eq_false_2 by (intros (? & _); congruence).
      reflexivity.
Qed.

Lemma ndc_lookup_of_spec df l p :
  ndc_lookup_of df !! (l, p) = head (candidates l p df).
Proof.
  unfold ndc_lookup_of. rewrite ndc_fold_lookup.
  - rewrite lookup_empty. reflexivity.
  - intros k v H. rewrite lookup_empty in H. discriminate.
Qed.

Lemma candidates_app l p df1 df2 :
  candidates l p (df1 ++ df2) = candidates l p df1 ++ candidates l p df2.
Proof. unfold candidates. rewrite List.filter_app, map_app. reflexivity. Qed.

Lemma candidates_cons_valid l p r df :
  zero_pad (labeler_cell r) 5 = Some l ->
  zero_pad (product_cell r) 4 = Some p ->
  application_number r <> "" ->
  candidates l p (r :: df) = application_number r :: candidates l p df.
Proof.
  intros Hl Hp Ha. unfold candidates. cbn [List.filter].
  rewrite bool_decide_eq_true_2 by auto. reflexivity.
Qed.

Lemma candidates_cons_skip l p r df :
  zero_pad (labeler_cell r) 5 = None \/ zero_pad (product_cell r) 4 = None
  \/ application_number r = "" ->
  candidates l p (r :: df) = candidates l p df.
Proof.
  intros H. unfold candidates. cbn [List.filter].
  rewrite bool_decide_eq_false_2; [reflexivity |].
  intros (Hl & Hp & Ha). destruct H as [H | [H | H]]; congruence.
Qed.

(** C5 (code bug). An empty Application Number field is not skipped.
    pandas reads it as NaN, [str] turns that into the text ["nan"], which
    is not empty, so the row proposes ["nan"] for its key: on the extract
    [ndc_empty_application] the key (00123, 0045) is mapped to ["nan"] and
    the application number of the second row is discarded, where the
    second row alone gives NDA021234. In general a row with such a field
    that is the first to propose a value for its key decides it. *)
Theorem empty_application_number_is_kept :
  build_ndc_lookup (float := Z) ndc_empty_application_files (connect empty_database)
  = (Returns (ndc_lookup_of ndc_empty_application), connect empty_database)
  /\ map_to_list (ndc_lookup_of ndc_empty_application) = [(("00123", "0045"), "nan")]
  /\ ndc_lookup_of (tail ndc_empty_application) !! ("00123", "0045") = Some "NDA021234"
  /\ (forall df1 r df2 l p,
        zero_pad (labeler_cell r) 5 = Some l ->
        zero_pad (product_cell r) 4 = Some p ->
        row_get r "Application Number" (CStr "") = CNaN ->
        candidates l p df1 = [] ->
        ndc_lookup_of (df1 ++ r :: df2) !! (l, p) = Some "nan").
Proof.
  split; [reflexivity |]. split; [vm_compute; reflexivity |]. split; [reflexivity |].
  intros df1 r df2 l p Hl Hp Hnan Hnone.
  assert (Ha : application_number r = "nan").
  { unfold application_number. rewrite Hnan. reflexivity. }
  rewrite ndc_lookup_of_spec, candidates_app, Hnone.
  rewrite candidates_cons_valid by (rewrite ?Ha; first [assumption | discriminate]).
  rewrite Ha. reflexivity.
Qed.

(** X17. With a readable identifier extract [build_ndc_lookup] returns a
    mapping that holds, for every key [(l, p)], the first of the
    application numbers proposed for it in row order (those of the rows
    whose labeler and product codes normalize to [l] and [p] and whose
    application number is not the empty text) and nothing for a key no row
    proposes. So the first row for a key decides its value, a later row
    never changes the value of a key that has one, and a row one of whose
    codes normalizes to null or whose application number is the empty text
    leaves no trace. The application number is the trimmed text of its
    cell: ["nan"] for the NaN of an empty field. *)
Theorem build_ndc_lookup_first_wins {float} (fs : files) (df : list row)
    (c : connection float) :
  fs NdcCsv = Some df ->
  build_ndc_lookup fs c = (Returns (ndc_lookup_of df), c)
  /\ (forall l p, ndc_lookup_of df !! (l, p) = head (candidates l p df))
  /\ (forall df1 r df2 l p,
        df = df1 ++ r :: df2 ->
        zero_pad (labeler_cell r) 5 = Some l ->
        zero_pad (product_cell r) 4 = Some p ->
        application_number r <> "" ->
        candidates l p df1 = [] ->
        ndc_lookup_of df !! (l, p) = Some (application_number r))
  /\ (forall l p a later,
        ndc_lookup_of df !! (l, p) = Some a ->
        ndc_lookup_of (df ++ later) !! (l, p) = Some a)
  /\ (forall df1 r df2,
        df = df1 ++ r :: df2 ->
        zero_pad (labeler_cell r) 5 = None \/ zero_pad (product_cell r) 4 = None
        \/ application_number r = "" ->
        ndc_lookup_of df = ndc_lookup_of (df1 ++ df2))
  /\ (forall r,
        row_get r "Application Number" (CStr "") = CNaN -> application_number r = "nan").
Proof.
  intros Hfs. split.
  { unfold build_ndc_lookup, read_csv, mbind, M_bind, mret, M_ret. rewrite Hfs. reflexivity. }
  split; [apply ndc_lookup_of_spec |]. split; [| split; [| split]].
  - intros df1 r df2 l p -> Hl Hp Ha Hnone.
    rewrite ndc_lookup_of_spec, candidates_app, Hnone.
    rewrite candidates_cons_valid by assumption. reflexivity.
  - intros l p a later H. rewrite ndc_lookup_of_spec in *.
    rewrite candidates_app. destruct (candidates l p df); [discriminate | exact H].
  - intros df1 r df2 -> Hskip. apply map_eq. intros [l p].
    rewrite !ndc_lookup_of_spec, !candidates_app.
    rewrite candidates_cons_skip by assumption. reflexivity.
  - intros r Hr. unfold application_number. rewrite Hr. reflexivity.
Qed.

(** ** Batching, on tuples *)

Lemma split_batches_concat {R} (tuples : list R) : forall batch,
  concat (split_batches batch tuples).1 ++ (split_batches batch tuples).2
  = batch ++ tuples.
Proof.
  induction tuples as [| t ts IH]; intros batch; cbn [split_batches].
  - cbn. rewrite app_nil_r. reflexivity.
  - cbv zeta. destruct (batch_size <=? length (batch ++ [t]))%nat.
    + cbn [fst snd concat]. rewrite <- !app_assoc. rewrite IH. reflexivity.
    + rewrite IH, <- app_assoc. reflexivity.
Qed.

Lemma split_batches_sizes {R} (tuples : list R) : forall batch,
  (length batch < batch_size)%nat ->
  Forall (fun b => length b = batch_size) (split_batches batch tuples).1
  /\ (length (split_batches batch tuples).2 < batch_size)%nat.
Proof.
  induction tuples as [| t ts IH]; intros batch Hlt; cbn [split_batches].
  - split; [constructor | exact Hlt].
  - cbv zeta. destruct (Nat.leb_spec batch_size (length (batch ++ [t]))) as [Hle | Hgt].
    + cbn [fst snd]. rewrite length_app in Hle. cbn in Hle.
      destruct (IH [] ltac:(unfold batch_size; cbn; lia)) as [IH1 IH2].
      split; [| exact IH2]. constructor; [| exact IH1].
      rewrite length_app. cbn. lia.
    + apply IH. exact Hgt.
Qed.

Lemma length_concat_uniform {R} (bs : list (list R)) k :
  Forall (fun b => length b = k) bs ->
  length (concat bs) = (length bs * k)%nat /\ map length bs = repeat k (length bs).
Proof.
  induction 1 as [| b bs Hb _ [IH1 IH2]]; [split; reflexivity |].
  cbn. rewrite length_app, IH1, IH2, Hb. split; [lia | reflexivity].
Qed.

Lemma all_batches_concat {R} (tuples : list R) : concat (all_batches tuples) = tuples.
Proof.
  unfold all_batches. rewrite concat_app.
  pose proof (split_batches_concat tuples []) as H. cbn [app] in H.
  destruct (split_batches [] tuples).2; cbn; rewrite ?app_nil_r in *; exact H.
Qed.

Lemma all_batches_lengths {R} (tuples : list R) :
  map length (all_batches tuples) = batch_sizes (length tuples).
Proof.
  unfold all_batches, batch_sizes.
  pose proof (split_batches_concat tuples []) as Hc. cbn [app] in Hc.
  destruct (split_batches_sizes tuples [] ltac:(unfold batch_size; cbn; lia)) as [Hf Hr].
  destruct (length_concat_uniform _ _ Hf) as [Hlen Hmap].
  apply (f_equal length) in Hc. rewrite length_app, Hlen in Hc.
  set (k := length (split_batches [] tuples).1) in *.
  set (rest := (split_batches [] tuples).2) in *.
  assert (Hq : (length tuples / batch_size = k)%nat).
  { symmetry. apply (Nat.div_unique _ _ _ (length rest)); lia. }
  assert (Hm : (length tuples mod batch_size = length rest)%nat).
  { symmetry. apply (Nat.mod_unique _ _ k); lia. }
  rewrite map_app, Hmap, Hq, Hm. f_equal.
  destruct rest; reflexivity.
Qed.

Lemma batch_sizes_positive n : Forall (fun k => (0 < k <= batch_size)%nat) (batch_sizes n).
Proof.
  unfold batch_sizes. apply Forall_app. split.
  - apply Forall_forall. intros k Hk. apply list_elem_of_In, repeat_spec in Hk. subst.
    unfold batch_size. lia.
  - destruct (Nat.eqb_spec (n mod batch_size) 0); constructor; [| constructor].
    pose proof (Nat.mod_upper_bound n batch_size ltac:(discriminate)). lia.
Qed.

Lemma batch_sizes_sum n : list_sum (batch_sizes n) = n.
Proof.
  unfold batch_sizes. rewrite list_sum_app.
  assert (H : forall k m, list_sum (repeat m k) = (k * m)%nat).
  { induction k; intros; cbn; [reflexivity | rewrite IHk; lia]. }
  rewrite H. pose proof (Nat.div_mod_eq n batch_size).
  destruct (Nat.eqb_spec (n mod batch_size) 0); cbn [list_sum fold_right]; lia.
Qed.

Lemma batch_sizes_2500 : batch_sizes 2500 = [1000; 1000; 500]%nat.
Proof. reflexivity. Qed.

(** ** Batching, on the connection *)

Lemma M_bind_returns {float A B} (m : M float A) (k : A -> M float B) c a c' :
  m c = (Returns a, c') -> (m ≫= k) c = k a c'.
Proof. intros H. unfold mbind, M_bind. rewrite H. reflexivity. Qed.

Lemma M_bind_raises {float A B} (m : M float A) (k : A -> M float B) c e c' :
  m c = (Raises e, c') -> (m ≫= k) c = (Raises e, c').
Proof. intros H. unfold mbind, M_bind. rewrite H. reflexivity. Qed.

Lemma insert_rows_app {R} (t : table R) (a b : list R) :
  insert_rows (insert_rows t a) b = insert_rows t (a ++ b).
Proof. unfold insert_rows. rewrite foldl_app. reflexivity. Qed.

Lemma insert_rows_values {R} (b : list R) : forall t : table R,
  map snd (rows (insert_rows t b)) = map snd (rows t) ++ b.
Proof.
  induction b as [| r b IH]; intros t; cbn.
  - rewrite app_nil_r. reflexivity.
  - fold (insert_rows (insert_row t r) b). rewrite IH. cbn.
    rewrite map_app, <- app_assoc. reflexivity.
Qed.

Section Batching.

Context {float R : Type}.
Context (tuple : row -> outcome R) (executemany : list R -> M float unit).
Context (T : table_name).
Context (get : database float -> table R).
Context (put : table R -> database float -> database float).

Hypothesis get_put : forall t w, get (put t w) = t.
Hypothesis put_put : forall t t' w, put t (put t' w) = put t w.
Hypothesis put_get : forall w, put (get w) w = w.
Hypothesis executemany_spec : forall b c,
  executemany b c
  = (Returns tt,
     on_working c (put (insert_rows (get (working c)) b) (working c))
       (Executemany T (length b))).
Hypothesis tuple_total : forall r, exists t, tuple r = Returns t.

Local Abbreviation flush_batch := (flushed T get put).

Lemma executemany_commit {B} b (k : M float B) c :
  (executemany b;; commit;; k) c = k (flush_batch c b).
Proof.
  erewrite M_bind_returns by apply executemany_spec.
  erewrite M_bind_returns by reflexivity.
  unfold flushed, on_working. cbn. rewrite <- app_assoc. reflexivity.
Qed.

Lemma tuples_exist df : exists tuples, Forall2 (fun r t => tuple r = Returns t) df tuples.
Proof.
  induction df as [| r df [ts IH]]; [exists []; constructor |].
  destruct (tuple_total r) as [t Ht]. exists (t :: ts). constructor; assumption.
Qed.

Lemma batched_loop_run df : forall tuples batch count c,
  Forall2 (fun r t => tuple r = Returns t) df tuples ->
  batched_loop tuple executemany df batch count c
  = (Returns ((split_batches batch tuples).2,
              (count + length (concat (split_batches batch tuples).1))%nat),
     foldl flush_batch c (split_batches batch tuples).1).
Proof.
  induction df as [| r df IH]; intros tuples batch count c H; inversion H; subst.
  - cbn. rewrite Nat.add_0_r. reflexivity.
  - cbn [batched_loop split_batches].
    erewrite M_bind_returns by (unfold lift; rewrite H2; reflexivity).
    cbv zeta. destruct (batch_size <=? length (batch ++ [y]))%nat.
    + rewrite executemany_commit.
      rewrite (IH _ _ _ _ H4). cbn [fst snd foldl concat].
      rewrite (length_app (batch ++ [y])), Nat.add_assoc. reflexivity.
    + apply IH. assumption.
Qed.

Lemma flush_rest_run rest count c :
  flush_rest executemany (rest, count) c
  = (Returns (count + length rest)%nat,
     foldl flush_batch c match rest with [] => [] | _ => [rest] end).
Proof.
  unfold flush_rest. cbn [fst snd]. destruct rest as [| t rest].
  - cbn. rewrite Nat.add_0_r. reflexivity.
  - rewrite executemany_commit. reflexivity.
Qed.

(** A batched load, once the extract is read. *)
Lemma batched_load_run df tuples c :
  Forall2 (fun r t => tuple r = Returns t) df tuples ->
  (st ← batched_loop tuple executemany df [] 0%nat; flush_rest executemany st) c
  = (Returns (length df), foldl flush_batch c (all_batches tuples)).
Proof.
  intros H. erewrite M_bind_returns by (apply batched_loop_run; eassumption).
  rewrite flush_rest_run. unfold all_batches. rewrite foldl_app.
  f_equal; [f_equal | destruct (split_batches [] tuples).2; reflexivity].
  cbn [Nat.add]. rewrite <- length_app, split_batches_concat. cbn [app].
  symmetry. eapply Forall2_length; eassumption.
Qed.

Lemma flushed_log bs : forall c,
  log (foldl flush_batch c bs) = log c ++ batch_events T (map length bs).
Proof.
  induction bs as [| b bs IH]; intros c; cbn.
  - rewrite app_nil_r. reflexivity.
  - rewrite IH. cbn. rewrite <- app_assoc. reflexivity.
Qed.

Lemma flushed_working bs : forall c,
  working (foldl flush_batch c bs)
  = put (insert_rows (get (working c)) (concat bs)) (working c).
Proof.
  induction bs as [| b bs IH]; intros c; cbn [foldl concat].
  - cbn. rewrite put_get. reflexivity.
  - rewrite IH. cbn [flushed working].
    rewrite get_put, put_put, insert_rows_app. reflexivity.
Qed.

Lemma flushed_committed bs : forall c,
  committed c = working c ->
  committed (foldl flush_batch c bs) = working (foldl flush_batch c bs).
Proof.
  induction bs as [| b bs IH]; intros c H; cbn [foldl]; [exact H |].
  apply IH. reflexivity.
Qed.

Lemma flushed_committed_nonempty bs : forall c,
  bs <> [] -> committed (foldl flush_batch c bs) = working (foldl flush_batch c bs).
Proof.
  destruct bs as [| b bs]; intros c H; [contradiction |].
  cbn [foldl]. apply flushed_committed. reflexivity.
Qed.

End Batching.

(** ** The four loaders *)

Lemma products_tuple_total r : exists t, products_tuple r = Returns t.
Proof.
  unfold products_tuple. destruct (parse_date_total (row_get r "Approval_Date" CNone)) as [d ->].
  eexists. reflexivity.
Qed.

Lemma exclusivity_tuple_total r : exists t, exclusivity_tuple r = Returns t.
Proof.
  unfold exclusivity_tuple.
  destruct (parse_date_total (row_get r "Exclusivity_Date" CNone)) as [d ->].
  eexists. reflexivity.
Qed.

Lemma patent_tuple_total r : exists t, patent_tuple r = Returns t.
Proof.
  unfold patent_tuple.
  destruct (parse_date_total (row_get r "Submission_Date" CNone)) as [d ->].
  eexists. reflexivity.
Qed.

Lemma sales_tuple_returns {float} (py_float : string -> outcome float) ndc_lookup r :
  exists t,
    sales_tuple py_float ndc_lookup r = Returns t
    /\ s_appl_no t
       = lookup_appl_no ndc_lookup (zero_pad (labeler_cell r) 5) (zero_pad (product_cell r) 4)
    /\ s_labeler_code t = zero_pad (labeler_cell r) 5
    /\ s_product_code t = zero_pad (product_cell r) 4.
Proof.
  unfold sales_tuple.
  destruct (parse_int_total (row_get r "Pack_Quantity" CNone)) as [x1 ->].
  destruct (parse_decimal_total py_float (row_get r "Sales" CNone)) as [x2 ->].
  destruct (parse_int_total (row_get r "Packs" CNone)) as [x3 ->].
  destruct (parse_int_total (row_get r "Quantity" CNone)) as [x4 ->].
  destruct (parse_decimal_total py_float (row_get r "WAC" CNone)) as [x5 ->].
  destruct (parse_decimal_total py_float (row_get r "Price" CNone)) as [x6 ->].
  eexists. split; [reflexivity |]. repeat split.
Qed.

Lemma sales_tuple_total {float} (py_float : string -> outcome float) ndc_lookup r :
  exists t, sales_tuple py_float ndc_lookup r = Returns t.
Proof. destruct (sales_tuple_returns py_float ndc_lookup r) as (t & H & _). eauto. Qed.

Lemma read_csv_bind {float B} (fs : files) f df (k : list row -> M float B) c :
  fs f = Some df -> (read_csv fs f ≫= k) c = k df c.
Proof. intros H. unfold mbind, M_bind, read_csv. rewrite H. reflexivity. Qed.

Lemma read_csv_fails {float B} (fs : files) f (k : list row -> M float B) c :
  fs f = None -> (read_csv fs f ≫= k) c = (Raises (SourceReadError f), c).
Proof. intros H. unfold mbind, M_bind, read_csv. rewrite H. reflexivity. Qed.

Lemma load_products_run {float} (fs : files) df (c : connection float) :
  fs ProductsCsv = Some df ->
  exists tuples,
    Forall2 (fun r t => products_tuple r = Returns t) df tuples
    /\ load_products fs c
       = (Returns (length df),
          foldl (flushed Products products put_products) c (all_batches tuples)).
Proof.
  intros H. destruct (tuples_exist products_tuple products_tuple_total df) as [ts Hts].
  exists ts. split; [assumption |].
  unfold load_products. rewrite (read_csv_bind _ _ _ _ _ H).
  apply (batched_load_run _ _ Products products put_products); auto.
Qed.

Lemma load_patents_run {float} (fs : files) df (c : connection float) :
  fs PatentCsv = Some df ->
  exists tuples,
    Forall2 (fun r t => patent_tuple r = Returns t) df tuples
    /\ load_patents fs c
       = (Returns (length df),
          foldl (flushed Patent patent put_patent) c (all_batches tuples)).
Proof.
  intros H. destruct (tuples_exist patent_tuple patent_tuple_total df) as [ts Hts].
  exists ts. split; [assumption |].
  unfold load_patents. rewrite (read_csv_bind _ _ _ _ _ H).
  apply (batched_load_run _ _ Patent patent put_patent); auto.
Qed.

Lemma load_sales_run {float} (py_float : string -> outcome float) (fs : files)
    ndc_lookup df (c : connection float) :
  fs SalesCsv = Some df ->
  exists tuples,
    Forall2 (fun r t => sales_tuple py_float ndc_lookup r = Returns t) df tuples
    /\ load_sales py_float fs ndc_lookup c
       = (Returns (length df),
          foldl (flushed Sales sales put_sales) c (all_batches tuples)).
Proof.
  intros H.
  destruct (tuples_exist (sales_tuple py_float ndc_lookup)
              (sales_tuple_total py_float ndc_lookup) df) as [ts Hts].
  exists ts. split; [assumption |].
  unfold load_sales. rewrite (read_csv_bind _ _ _ _ _ H).
  apply (batched_load_run _ _ Sales sales put_sales); auto.
Qed.

Lemma exclusivity_loop_run {float} df : forall batch (c : connection float),
  exists tuples,
    Forall2 (fun r t => exclusivity_tuple r = Returns t) df tuples
    /\ exclusivity_loop df batch c = (Returns (batch ++ tuples), c).
Proof.
  induction df as [| r df IH]; intros batch c.
  - exists []. split; [constructor |]. cbn. rewrite app_nil_r. reflexivity.
  - destruct (exclusivity_tuple_total r) as [t Ht].
    destruct (IH (batch ++ [t]) c) as (ts & Hts & Hrun).
    exists (t :: ts). split; [constructor; assumption |].
    cbn [exclusivity_loop].
    erewrite M_bind_returns by (unfold lift; rewrite Ht; reflexivity).
    rewrite Hrun, <- app_assoc. reflexivity.
Qed.

Lemma load_exclusivity_run {float} (fs : files) df (c : connection float) :
  fs ExclusivityCsv = Some df ->
  exists tuples,
    Forall2 (fun r t => exclusivity_tuple r = Returns t) df tuples
    /\ load_exclusivity fs c
       = (Returns (length df), flushed Exclusivity exclusivity put_exclusivity c tuples).
Proof.
  intros H. destruct (exclusivity_loop_run df [] c) as (ts & Hts & Hrun).
  exists ts. split; [assumption |].
  unfold load_exclusivity. rewrite (read_csv_bind _ _ _ _ _ H).
  erewrite M_bind_returns by exact Hrun. cbn [app].
  rewrite (executemany_commit executemany_exclusivity Exclusivity exclusivity put_exclusivity)
    by reflexivity.
  unfold mret, M_ret. rewrite (Forall2_length _ _ _ Hts). reflexivity.
Qed.

(** What a run of flushes does to the row count of its table. *)
Lemma flushed_row_count {float R} T (get : database float -> table R) put bs c :
  (forall t w, get (put t w) = t) ->
  (forall t t' w, put t (put t' w) = put t w) ->
  (forall w, put (get w) w = w) ->
  length (rows (get (working (foldl (flushed T get put) c bs))))
  = (length (rows (get (working c))) + length (concat bs))%nat.
Proof.
  intros H1 H2 H3. rewrite flushed_working by assumption. rewrite H1.
  rewrite <- (length_map snd), insert_rows_values, length_app, length_map. reflexivity.
Qed.

Lemma put_products_laws {float} :
  (forall t (w : database float), products (put_products t w) = t)
  /\ (forall t t' (w : database float), put_products t (put_products t' w) = put_products t w)
  /\ (forall w : database float, put_products (products w) w = w).
Proof. repeat split; intros; try destruct w; reflexivity. Qed.

Lemma put_exclusivity_laws {float} :
  (forall t (w : database float), exclusivity (put_exclusivity t w) = t)
  /\ (forall t t' (w : database float),
        put_exclusivity t (put_exclusivity t' w) = put_exclusivity t w)
  /\ (forall w : database float, put_exclusivity (exclusivity w) w = w).
Proof. repeat split; intros; try destruct w; reflexivity. Qed.

Lemma put_patent_laws {float} :
  (forall t (w : database float), patent (put_patent t w) = t)
  /\ (forall t t' (w : database float), put_patent t (put_patent t' w) = put_patent t w)
  /\ (forall w : database float, put_patent (patent w) w = w).
Proof. repeat split; intros; try destruct w; reflexivity. Qed.

Lemma put_sales_laws {float} :
  (forall t (w : database float), sales (put_sales t w) = t)
  /\ (forall t t' (w : database float), put_sales t (put_sales t' w) = put_sales t w)
  /\ (forall w : database float, put_sales (sales w) w = w).
Proof. repeat split; intros; try destruct w; reflexivity. Qed.

(** The log and the row count after a batched load. *)
Lemma batched_result {float R} T (get : database float -> table R) put
    (c : connection float) (tuples : list R) n :
  (forall t w, get (put t w) = t) ->
  (forall t t' w, put t (put t' w) = put t w) ->
  (forall w, put (get w) w = w) ->
  length tuples = n ->
  let c' := foldl (flushed T get put) c (all_batches tuples) in
  log c' = log c ++ batch_events T (batch_sizes n)
  /\ length (rows (get (working c'))) = (length (rows (get (working c))) + n)%nat.
Proof.
  intros H1 H2 H3 <- c'. subst c'. split.
  - rewrite flushed_log, all_batches_lengths. reflexivity.
  - rewrite flushed_row_count by assumption. rewrite all_batches_concat. reflexivity.
Qed.

(** C3 (amended). [load_products], [load_patents] and [load_sales] commit
    in batches: for [n] source rows they issue [n / 1000] inserts of 1000
    rows and then, if [n mod 1000] is not 0, one insert of [n mod 1000]
    rows, each insert followed by its commit; no insert is empty. For 2500
    rows these are three batches of 1000, 1000 and 500. [load_exclusivity]
    does not batch: it issues one insert holding all [n] rows and one
    commit after the loop, whatever [n] is. Every loader returns [n] and
    adds [n] rows to its table. *)
Theorem loaders_batching {float} (py_float : string -> outcome float) (fs : files)
    (ndc_lookup : gmap (string * string) string) (c : connection float)
    (dp de dpt ds : list row) :
  fs ProductsCsv = Some dp ->
  fs ExclusivityCsv = Some de ->
  fs PatentCsv = Some dpt ->
  fs SalesCsv = Some ds ->
  (exists c',
      load_products fs c = (Returns (length dp), c')
      /\ log c' = log c ++ batch_events Products (batch_sizes (length dp))
      /\ length (rows (products (working c')))
         = (length (rows (products (working c))) + length dp)%nat)
  /\ (exists c',
      load_patents fs c = (Returns (length dpt), c')
      /\ log c' = log c ++ batch_events Patent (batch_sizes (length dpt))
      /\ length (rows (patent (working c')))
         = (length (rows (patent (working c))) + length dpt)%nat)
  /\ (exists c',
      load_sales py_float fs ndc_lookup c = (Returns (length ds), c')
      /\ log c' = log c ++ batch_events Sales (batch_sizes (length ds))
      /\ length (rows (sales (working c')))
         = (length (rows (sales (working c))) + length ds)%nat)
  /\ (exists c',
      load_exclusivity fs c = (Returns (length de), c')
      /\ log c' = log c ++ [Executemany Exclusivity (length de); Commit]
      /\ length (rows (exclusivity (working c')))
         = (length (rows (exclusivity (working c))) + length de)%nat)
  /\ (forall n, Forall (fun k => (0 < k <= batch_size)%nat) (batch_sizes n)
                /\ list_sum (batch_sizes n) = n)
  /\ batch_sizes 2500 = [1000; 1000; 500]%nat.
Proof.
  intros Hp He Hpt Hs.
  destruct (@put_products_laws float) as (P1 & P2 & P3).
  destruct (@put_patent_laws float) as (T1 & T2 & T3).
  destruct (@put_sales_laws float) as (S1 & S2 & S3).
  destruct (@put_exclusivity_laws float) as (E1 & E2 & E3).
  split; [| split; [| split; [| split; [| split]]]].
  - destruct (load_products_run fs dp c Hp) as (ts & Hts & Hrun).
    eexists. split; [exact Hrun |].
    apply batched_result; auto. symmetry. eapply Forall2_length; eassumption.
  - destruct (load_patents_run fs dpt c Hpt) as (ts & Hts & Hrun).
    eexists. split; [exact Hrun |].
    apply batched_result; auto. symmetry. eapply Forall2_length; eassumption.
  - destruct (load_sales_run py_float fs ndc_lookup ds c Hs) as (ts & Hts & Hrun).
    eexists. split; [exact Hrun |].
    apply batched_result; auto. symmetry. eapply Forall2_length; eassumption.
  - destruct (load_exclusivity_run fs de c He) as (ts & Hts & Hrun).
    eexists. split; [exact Hrun |]. cbn [flushed log working].
    rewrite E1. rewrite (Forall2_length _ _ _ Hts). split; [reflexivity |].
    rewrite <- (length_map snd), insert_rows_values, length_app, length_map.
    reflexivity.
  - intros n. split; [apply batch_sizes_positive | apply batch_sizes_sum].
  - reflexivity.
Qed.

Lemma lookup_appl_no_Some ndc_lookup lc pc a :
  lookup_appl_no ndc_lookup lc pc = Some a ->
  exists l p, lc = Some l /\ pc = Some p /\ ndc_lookup !! (l, p) = Some a.
Proof.
  unfold lookup_appl_no. destruct lc as [l |], pc as [p |]; try discriminate.
  destruct (truthy l && truthy p); [| discriminate]. eauto.
Qed.

Lemma lookup_appl_no_None ndc_lookup lc pc :
  lc = None \/ pc = None
  \/ (exists l p, lc = Some l /\ pc = Some p /\ ndc_lookup !! (l, p) = None) ->
  lookup_appl_no ndc_lookup lc pc = None.
Proof.
  unfold lookup_appl_no.
  intros [-> | [-> | (l & p & -> & -> & H)]]; [reflexivity | destruct lc; reflexivity |].
  rewrite H. destruct (truthy l && truthy p); reflexivity.
Qed.



(** C9, as stated, fails: a code longer than the width is used as a join
    key as it is. The labeler code ["123456"] is a key of the mapping and
    matches a sales row, with 6 characters and not 5. *)
Lemma join_key_longer_than_width :
  let ndc := [list_to_map [("Labeler Code", CStr "123456"); ("Product Code", CInt 12);
                           ("Application Number", CStr "NDA000333")]] in
  let sale : row := list_to_map [("Labeler Code", CInt 123456); ("Product Code", CStr "12")] in
  ndc_lookup_of ndc !! ("123456", "0012") = Some "NDA000333"
  /\ zero_pad (labeler_cell sale) 5 = Some "123456"
  /\ String.length "123456" <> 5%nat
  /\ lookup_appl_no (ndc_lookup_of ndc) (zero_pad (labeler_cell sale) 5)
       (zero_pad (product_cell sale) 4) = Some "NDA000333".
Proof. repeat split; try reflexivity. discriminate. Qed.

(** C9 (amended). Every code used as a join key, in the cross-reference
    mapping and in the lookup of a sales row, is the trimmed, non-empty text
    of its cell passed through [zfill]: zero-padded up to the width (5 for
    the labeler code, 4 for the product code) and left as it is when
    longer, so a key has at least 5 and 4 characters, not exactly as many,
    and its characters need not be digits. A code shorter than its width
    is in no key. A code cell that is [None] or whose text is empty or all
    whitespace gives no key: no entry of the mapping comes from such a
    row, and a sales row with such a labeler or product code matches
    nothing. *)
Theorem join_keys_zero_padded {float} (py_float : string -> outcome float)
    (df : list row) (ndc_lookup : gmap (string * string) string) (r : row)
    (t : SalesRow float) :
  (forall l p a,
      ndc_lookup_of df !! (l, p) = Some a ->
      (5 <= String.length l)%nat /\ (4 <= String.length p)%nat
      /\ exists r', In r' df
           /\ ~ blank_code (labeler_cell r') /\ ~ blank_code (product_cell r')
           /\ l = Py.zfill (Py.strip (str (labeler_cell r'))) 5
           /\ p = Py.zfill (Py.strip (str (product_cell r'))) 4)
  /\ (sales_tuple py_float ndc_lookup r = Returns t ->
      forall a, s_appl_no t = Some a ->
      exists l p,
        ndc_lookup !! (l, p) = Some a
        /\ (5 <= String.length l)%nat /\ (4 <= String.length p)%nat
        /\ ~ blank_code (labeler_cell r) /\ ~ blank_code (product_cell r)
        /\ l = Py.zfill (Py.strip (str (labeler_cell r))) 5
        /\ p = Py.zfill (Py.strip (str (product_cell r))) 4)
  /\ (sales_tuple py_float ndc_lookup r = Returns t ->
      blank_code (labeler_cell r) \/ blank_code (product_cell r) ->
      s_appl_no t = None).
Proof.
  assert (Hinv : forall code width z,
             zero_pad code width = Some z ->
             ~ blank_code code /\ z = Py.zfill (Py.strip (str code)) width).
  { intros code width z H. apply zero_pad_inv in H as (Hn & Hs & Hz).
    split; [intros [? | ?]; contradiction | exact Hz]. }
  assert (Hblank : forall code width, blank_code code -> zero_pad code width = None).
  { intros code width [-> | H]; [reflexivity | apply zero_pad_blank, H]. }
  split; [| split].
  - intros l p a H. rewrite ndc_lookup_of_spec in H.
    assert (Hin : In a (candidates l p df)).
    { destruct (candidates l p df); [discriminate | injection H as ->; left; reflexivity]. }
    unfold candidates in Hin. apply in_map_iff in Hin as (r' & _ & Hr').
    apply filter_In in Hr' as (Hr' & Hb). apply bool_decide_eq_true in Hb as (Hl & Hp & _).
    split; [exact (zero_pad_length _ _ _ Hl) |].
    split; [exact (zero_pad_length _ _ _ Hp) |].
    apply Hinv in Hl as (? & ?). apply Hinv in Hp as (? & ?).
    exists r'. auto.
  - intros Ht a Ha.
    destruct (sales_tuple_returns py_float ndc_lookup r) as (t' & Ht' & Happl & _).
    rewrite Ht in Ht'. injection Ht' as <-. rewrite Happl in Ha.
    apply lookup_appl_no_Some in Ha as (l & p & Hl & Hp & Hk).
    exists l, p. split; [exact Hk |].
    split; [exact (zero_pad_length _ _ _ Hl) |].
    split; [exact (zero_pad_length _ _ _ Hp) |].
    apply Hinv in Hl as (? & ?). apply Hinv in Hp as (? & ?).
    auto.
  - intros Ht H.
    destruct (sales_tuple_returns py_float ndc_lookup r) as (t' & Ht' & Happl & _).
    rewrite Ht in Ht'. injection Ht' as <-. rewrite Happl.
    apply lookup_appl_no_None.
    destruct H as [H | H]; [left | right; left]; apply Hblank; exact H.
Qed.

(** ** SQL conditions *)

Lemma holds_and3 a b : Sql.holds (a &&& b) = Sql.holds a && Sql.holds b.
Proof. destruct a as [[] |], b as [[] |]; reflexivity. Qed.

Lemma holds_gt3 x y : Sql.holds (Sql.gt3 x y) = true <-> y < x.
Proof. unfold Sql.gt3, Sql.holds. destruct (Z.ltb_spec y x); split; (lia || congruence). Qed.

Lemma holds_eq3 {A} `{EqDecision A} (x y : option A) :
  Sql.holds (Sql.eq3 x y) = true <-> x = y /\ x <> None.
Proof.
  destruct x as [a |], y as [b |]; cbn; try (split; [discriminate | intros [? ?]; congruence]).
  destruct (decide (a = b)) as [-> | Hne].
  - rewrite bool_decide_eq_true_2 by reflexivity. split; [split; congruence | reflexivity].
  - rewrite bool_decide_eq_false_2 by assumption.
    split; [discriminate | intros [? _]; congruence].
Qed.

Lemma holds_same_or_both_null {A} `{EqDecision A} (x y : option A) :
  Sql.holds (Sql.same_or_both_null x y) = true <-> x = y.
Proof.
  unfold Sql.same_or_both_null.
  destruct x as [a |], y as [b |]; cbn; try (split; [discriminate | congruence]);
    [| split; reflexivity].
  destruct (decide (a = b)) as [-> | Hne].
  - rewrite bool_decide_eq_true_2 by reflexivity. split; reflexivity.
  - rewrite bool_decide_eq_false_2 by assumption. cbn.
    split; [discriminate | congruence].
Qed.

(** A one-sided NULL makes the pattern NULL, not TRUE. *)
Lemma same_or_both_null_one_sided {A} `{EqDecision A} (a : A) :
  Sql.same_or_both_null (Some a) None = None
  /\ Sql.same_or_both_null None (Some a) = None.
Proof. split; reflexivity. Qed.

Ltac sql_hyps :=
  repeat match goal with
         | H : _ && _ = true |- _ => apply andb_prop in H as [? ?]
         | H : Sql.holds (Sql.gt3 _ _) = true |- _ => apply holds_gt3 in H
         | H : (if ?a <? ?b then true else false) = true |- _ =>
             destruct (Z.ltb_spec a b); [clear H | discriminate H]
         | H : Sql.holds (Sql.eq3 _ _) = true |- _ => apply holds_eq3 in H as [? ?]
         | H : Sql.holds (Sql.same_or_both_null _ _) = true |- _ =>
             apply holds_same_or_both_null in H
         end.

Ltac sql_goal :=
  repeat match goal with
         | |- _ && _ = true => apply andb_true_intro; split
         | |- Sql.holds (Sql.gt3 _ _) = true => apply holds_gt3; assumption
         | |- (if ?a <? ?b then true else false) = true =>
             destruct (Z.ltb_spec a b); [reflexivity | lia]
         | |- Sql.holds (Sql.eq3 _ _) = true => apply holds_eq3; split; [reflexivity | assumption]
         | |- Sql.holds (Sql.same_or_both_null _ _) = true =>
             apply holds_same_or_both_null; reflexivity
         end.

Lemma delete_products_where_spec p1 p2 :
  Sql.holds (delete_products_where p1 p2) = true <->
  p2.1 < p1.1 /\ p1.2 = p2.2
  /\ (p_appl_no p1.2 <> None /\ p_ingredient p1.2 <> None).
Proof.
  unfold delete_products_where. rewrite !holds_and3.
  destruct p1 as [i1 []], p2 as [i2 []]; simpl.
  split.
  - intros H. sql_hyps. subst. auto.
  - intros (Hlt & [= -> -> -> -> -> -> -> -> -> -> -> -> -> -> -> ->] & Ha & Hi). sql_goal.
Qed.

Lemma delete_exclusivity_where_spec e1 e2 :
  Sql.holds (delete_exclusivity_where e1 e2) = true <->
  e2.1 < e1.1 /\ e1.2 = e2.2
  /\ (e_appl_no e1.2 <> None /\ e_ingredient e1.2 <> None).
Proof.
  unfold delete_exclusivity_where. rewrite !holds_and3.
  destruct e1 as [i1 []], e2 as [i2 []]; simpl.
  split.
  - intros H. sql_hyps. subst. auto.
  - intros (Hlt & [= -> -> -> -> -> -> -> -> -> ->] & Ha & Hi). sql_goal.
Qed.

Lemma delete_patent_where_spec pt1 pt2 :
  Sql.holds (delete_patent_where pt1 pt2) = true <->
  pt2.1 < pt1.1 /\ pt1.2 = pt2.2
  /\ (pt_appl_no pt1.2 <> None /\ pt_ingredient pt1.2 <> None).
Proof.
  unfold delete_patent_where. rewrite !holds_and3.
  destruct pt1 as [i1 []], pt2 as [i2 []]; simpl.
  split.
  - intros H. sql_hyps. subst. auto.
  - intros (Hlt & [= -> -> -> -> -> -> -> -> -> -> -> -> -> -> ->] & Ha & Hi). sql_goal.
Qed.

(** ** Deduplicator *)

Section Dedup.

Context {R : Type} `{EqDecision R}.
Context (cond : Z * R -> Z * R -> option bool) (key : R -> Prop).

Hypothesis cond_spec : forall p1 p2,
  Sql.holds (cond p1 p2) = true <-> p2.1 < p1.1 /\ p1.2 = p2.2 /\ key p1.2.

Lemma in_row_dec (r : R) (t : list (Z * R)) :
  (exists id, In (id, r) t) \/ (forall id, ~ In (id, r) t).
Proof.
  induction t as [| [i x] t [[j Hj] | Hnone]].
  - right. intros id [].
  - left. exists j. right. exact Hj.
  - destruct (decide (x = r)) as [-> | Hne].
    + left. exists i. left. reflexivity.
    + right. intros id [[= _ ?] | H]; [contradiction | exact (Hnone _ H)].
Qed.

Lemma lowest_id (r : R) (t : list (Z * R)) : forall id,
  In (id, r) t ->
  exists id0, In (id0, r) t /\ forall id', In (id', r) t -> id0 <= id'.
Proof.
  induction t as [| [i x] t IH]; intros id Hin; [destruct Hin |].
  destruct (in_row_dec r t) as [[j Hj] | Hnone].
  - destruct (IH j Hj) as (m & Hm & Hmin).
    destruct (decide (x = r)) as [-> | Hne].
    + destruct (Z.le_gt_cases i m).
      * exists i. split; [left; reflexivity |].
        intros id' [[= <-] | H']; [lia | specialize (Hmin _ H'); lia].
      * exists m. split; [right; assumption |].
        intros id' [[= <-] | H']; [lia | auto].
    + exists m. split; [right; assumption |].
      intros id' [[= _ ?] | H']; [contradiction | auto].
  - destruct Hin as [[= -> ->] | Hin]; [| exfalso; exact (Hnone _ Hin)].
    exists id. split; [left; reflexivity |].
    intros id' [[= <-] | H']; [lia | exfalso; exact (Hnone _ H')].
Qed.

Lemma delete_join_spec : deletes_later_copies key (delete_join cond).
Proof.
  intros t id r. unfold delete_join. rewrite filter_In, negb_true_iff.
  split; intros [Hin Hno]; (split; [exact Hin |]).
  - intros (Hk & id' & Hin' & Hlt).
    assert (existsb (fun t2 => Sql.holds (cond (id, r) t2)) t = true) as E; [| congruence].
    apply existsb_exists. exists (id', r). split; [exact Hin' |].
    apply cond_spec. cbn. auto.
  - destruct (existsb _ t) eqn:E; [| reflexivity]. exfalso. apply Hno.
    apply existsb_exists in E as ([id' r'] & Hin' & Hc).
    apply cond_spec in Hc as (Hlt & Heq & Hk). cbn in *. subst r'. eauto.
Qed.

Lemma delete_join_keeps_lowest : keeps_lowest key (delete_join cond).
Proof.
  intros t id r Hin. destruct (lowest_id r t id Hin) as (m & Hm & Hmin).
  exists m. split; [auto |]. split; [| split; [exact Hmin |]].
  - apply delete_join_spec. split; [exact Hm |].
    intros (_ & id' & Hin' & Hlt). specialize (Hmin _ Hin'). lia.
  - intros Hk id' Hd. apply delete_join_spec in Hd as [Hin' Hno].
    specialize (Hmin _ Hin') as Hle.
    destruct (Z.eq_dec id' m) as [| Hne]; [assumption |].
    exfalso. apply Hno. split; [exact Hk |]. exists m. split; [exact Hm | lia].
Qed.

(** Two rows that differ are never joined, so a table of just the two
    keeps both. *)
Lemma delete_join_pair id1 id2 r1 r2 :
  r1 <> r2 -> delete_join cond [(id1, r1); (id2, r2)] = [(id1, r1); (id2, r2)].
Proof.
  intros Hne.
  assert (Hself : forall id r, Sql.holds (cond (id, r) (id, r)) = false).
  { intros id r. apply not_true_is_false. intros E.
    apply cond_spec in E as (Hlt & _). cbn in Hlt. lia. }
  assert (H12 : Sql.holds (cond (id1, r1) (id2, r2)) = false).
  { apply not_true_is_false. intros E.
    apply cond_spec in E as (_ & Heq & _). cbn in Heq. contradiction. }
  assert (H21 : Sql.holds (cond (id2, r2) (id1, r1)) = false).
  { apply not_true_is_false. intros E.
    apply cond_spec in E as (_ & Heq & _). cbn in Heq. congruence. }
  unfold delete_join. cbn [List.filter existsb]. rewrite !Hself, H12, H21. reflexivity.
Qed.

End Dedup.

(** C1, as stated, fails: two rows equal in every column, NULL in
    [appl_no] (or in [ingredient]), are null-safe equal, and the later one
    is not deleted. *)
Lemma null_appl_no_copy_survives :
  delete_products [(1, null_product); (2, null_product)]
  = [(1, null_product); (2, null_product)]
  /\ ~ deletes_later_copies (fun _ => True) delete_products.
Proof.
  split; [reflexivity |].
  intros H. specialize (H [(1, null_product); (2, null_product)] 2 null_product).
  destruct (proj1 H) as [_ Hno]; [right; left; reflexivity |].
  apply Hno. split; [exact I |]. exists 1. split; [left; reflexivity | lia].
Qed.

(** C1 (amended). In each of products, exclusivity and patent the
    deduplicator deletes exactly the rows for which an earlier-inserted
    (lower id) row exists that is equal to it in every business column —
    NULL counting as equal to NULL, the derived count column of products
    included — and whose [appl_no] and [ingredient] are not NULL: these two
    columns are compared with a plain [=], so a row in which one of them is
    NULL is never deleted. Of the rows equal in every column the one with
    the lowest id survives, and it is the only survivor when [appl_no] and
    [ingredient] are not NULL. *)
Theorem remove_duplicates_deletes_later_copies :
  (deletes_later_copies products_key delete_products
   /\ keeps_lowest products_key delete_products)
  /\ (deletes_later_copies exclusivity_key delete_exclusivity
      /\ keeps_lowest exclusivity_key delete_exclusivity)
  /\ (deletes_later_copies patent_key delete_patent
      /\ keeps_lowest patent_key delete_patent).
Proof.
  split; [| split]; split.
  - exact (delete_join_spec _ _ delete_products_where_spec).
  - exact (delete_join_keeps_lowest _ _ delete_products_where_spec).
  - exact (delete_join_spec _ _ delete_exclusivity_where_spec).
  - exact (delete_join_keeps_lowest _ _ delete_exclusivity_where_spec).
  - exact (delete_join_spec _ _ delete_patent_where_spec).
  - exact (delete_join_keeps_lowest _ _ delete_patent_where_spec).
Qed.

(** C2, as stated, fails: two products rows that differ only in [te_code],
    NULL in one and populated in the other, are both kept. *)
Lemma null_against_value_both_survive :
  delete_products [(1, aspirin "N000001" (Some "81MG") (Some "AB") (Some 3));
                   (2, aspirin "N000001" (Some "81MG") None (Some 3))]
  = [(1, aspirin "N000001" (Some "81MG") (Some "AB") (Some 3));
     (2, aspirin "N000001" (Some "81MG") None (Some 3))].
Proof. reflexivity. Qed.

(** C2 (amended). If a column is NULL in one row and populated in the
    other, the deduplicator does not treat the two rows as duplicates,
    whatever the other columns hold: a table of just these two rows keeps
    both, in either order of insertion. Only rows that agree in every
    column, NULL against NULL included, are collapsed. *)
Theorem null_against_value_not_duplicates :
  (forall (A : Type) (col : ProductRow -> option A) id1 id2 r1 r2,
      col r1 = None -> col r2 <> None ->
      delete_products [(id1, r1); (id2, r2)] = [(id1, r1); (id2, r2)]
      /\ delete_products [(id1, r2); (id2, r1)] = [(id1, r2); (id2, r1)])
  /\ (forall (A : Type) (col : ExclusivityRow -> option A) id1 id2 r1 r2,
      col r1 = None -> col r2 <> None ->
      delete_exclusivity [(id1, r1); (id2, r2)] = [(id1, r1); (id2, r2)]
      /\ delete_exclusivity [(id1, r2); (id2, r1)] = [(id1, r2); (id2, r1)])
  /\ (forall (A : Type) (col : PatentRow -> option A) id1 id2 r1 r2,
      col r1 = None -> col r2 <> None ->
      delete_patent [(id1, r1); (id2, r2)] = [(id1, r1); (id2, r2)]
      /\ delete_patent [(id1, r2); (id2, r1)] = [(id1, r2); (id2, r1)])
  /\ (forall id1 id2 r,
      id1 < id2 -> products_key r ->
      delete_products [(id1, r); (id2, r)] = [(id1, r)]).
Proof.
  split; [| split; [| split]].
  - intros A col id1 id2 r1 r2 H1 H2.
    split; apply (delete_join_pair _ products_key delete_products_where_spec); congruence.
  - intros A col id1 id2 r1 r2 H1 H2.
    split; apply (delete_join_pair _ exclusivity_key delete_exclusivity_where_spec); congruence.
  - intros A col id1 id2 r1 r2 H1 H2.
    split; apply (delete_join_pair _ patent_key delete_patent_where_spec); congruence.
  - intros id1 id2 r Hlt Hk.
    assert (H11 : Sql.holds (delete_products_where (id1, r) (id1, r)) = false).
    { apply not_true_is_false. intros E.
      apply delete_products_where_spec in E as (? & _). cbn in *. lia. }
    assert (H12 : Sql.holds (delete_products_where (id1, r) (id2, r)) = false).
    { apply not_true_is_false. intros E.
      apply delete_products_where_spec in E as (? & _). cbn in *. lia. }
    assert (H21 : Sql.holds (delete_products_where (id2, r) (id1, r)) = true).
    { apply delete_products_where_spec. cbn. auto. }
    unfold delete_products, delete_join. cbn [List.filter existsb].
    rewrite H11, H12, H21. reflexivity.
Qed.

(** ** Aggregate populator *)

Lemma size_list_to_set_remove_dups (l : list string) :
  size (list_to_set (C := gset string) l) = length (remove_dups l).
Proof.
  rewrite <- (size_list_to_set (C := gset string) (remove_dups l))
    by apply NoDup_remove_dups.
  f_equal. apply set_eq. intros x.
  rewrite !elem_of_list_to_set, elem_of_remove_dups. reflexivity.
Qed.

Section AggregateFacts.

Context {R : Type} (ingredient dosage appl_no : R -> option string).
Context (set_count : R -> option Z -> R).

Local Abbreviation key := (group_key ingredient dosage).

Lemma join_on_holds x (g : option string * option string * Z) :
  Sql.holds (join_on ingredient dosage x g) = true <->
  key x = g.1 /\ ingredient x.2 <> None /\ dosage x.2 <> None.
Proof.
  unfold join_on, group_key. rewrite holds_and3, andb_true_iff, !holds_eq3.
  destruct g as [[gi gd] n]. cbn. split.
  - intros [[-> ?] [-> ?]]. auto.
  - intros ([= -> ->] & ? & ?). auto.
Qed.

Lemma find_group x (count : option string * option string -> Z) keys :
  In (key x) keys -> ingredient x.2 <> None -> dosage x.2 <> None ->
  List.find (fun g => Sql.holds (join_on ingredient dosage x g))
    (map (fun k => (k.1, k.2, count k)) keys)
  = Some ((key x).1, (key x).2, count (key x)).
Proof.
  intros Hin Hi Hd. induction keys as [| k keys IH]; [destruct Hin |].
  cbn [map List.find].
  destruct (Sql.holds (join_on ingredient dosage x (k.1, k.2, count k))) eqn:E.
  - apply join_on_holds in E as (Hk & _). cbn in Hk.
    destruct k as [ki kd]. cbn in Hk. rewrite Hk. reflexivity.
  - destruct Hin as [Hk | Hin]; [| exact (IH Hin)].
    exfalso. apply not_true_iff_false in E. apply E, join_on_holds.
    cbn [fst]. rewrite <- Hk. destruct k; auto.
Qed.

Lemma find_no_group x (s : list (option string * option string * Z)) :
  ingredient x.2 = None \/ dosage x.2 = None ->
  List.find (fun g => Sql.holds (join_on ingredient dosage x g)) s = None.
Proof.
  intros H. induction s as [| g s IH]; [reflexivity |]. cbn [List.find].
  destruct (Sql.holds (join_on ingredient dosage x g)) eqn:E; [| exact IH].
  apply join_on_holds in E as (_ & ? & ?). destruct H; contradiction.
Qed.

End AggregateFacts.

Lemma count_distinct_is_approvals_in_group t x :
  count_distinct_appl_no p_ingredient p_dosage p_appl_no t
    (group_key p_ingredient p_dosage x)
  = approvals_in_group t x.2.
Proof.
  unfold count_distinct_appl_no, approvals_in_group.
  rewrite size_list_to_set_remove_dups. do 4 f_equal.
  apply List.filter_ext. intros y. unfold group_key.
  apply bool_decide_ext. split; [intros [= -> ->]; auto | intros [-> ->]; reflexivity].
Qed.

(** C7, as stated, fails for a row whose ingredient or dosage is NULL: it
    joins no group and keeps the count it had, here NULL, although two
    application numbers share its (ingredient, dosage). *)
Lemma null_dosage_gets_no_count :
  let t := [(1, aspirin "N000001" None None None); (2, aspirin "N000002" None None None)] in
  update_number_of_approvals t = t
  /\ approvals_in_group t (aspirin "N000001" None None None) = 2.
Proof. split; reflexivity. Qed.

(** C7 (amended). The approval-count pass sets the derived count of every
    products row whose ingredient and dosage are both not NULL to the
    number of distinct application numbers (NULL not counted) among the
    products rows with the same ingredient and dosage; a row whose
    ingredient or dosage is NULL is left as it was. Three rows sharing
    ["ASPIRIN"] and ["81MG"] with distinct application numbers all receive
    3, and a fourth row with another dosage receives the count of its own
    group, 1. *)
Theorem approval_counts_per_group (t : list (Z * ProductRow)) :
  update_number_of_approvals t
  = map (fun x =>
           match p_ingredient x.2, p_dosage x.2 with
           | Some _, Some _ =>
               (x.1, set_number_of_approvals x.2 (Some (approvals_in_group t x.2)))
           | _, _ => x
           end) t
  /\ update_number_of_approvals
       [(1, aspirin "N000001" (Some "81MG") None None);
        (2, aspirin "N000002" (Some "81MG") None None);
        (3, aspirin "N000003" (Some "81MG") None None);
        (4, aspirin "N000004" (Some "325MG") None None)]
     = [(1, aspirin "N000001" (Some "81MG") None (Some 3));
        (2, aspirin "N000002" (Some "81MG") None (Some 3));
        (3, aspirin "N000003" (Some "81MG") None (Some 3));
        (4, aspirin "N000004" (Some "325MG") None (Some 1))].
Proof.
  split; [| reflexivity].
  unfold update_number_of_approvals, update_join, select_group_counts.
  apply map_ext_in. intros x Hx.
  destruct (p_ingredient x.2) as [i |] eqn:Hi; [destruct (p_dosage x.2) as [d |] eqn:Hd |].
  - rewrite (find_group p_ingredient p_dosage x
               (count_distinct_appl_no p_ingredient p_dosage p_appl_no t)).
    + cbn [snd]. rewrite count_distinct_is_approvals_in_group. reflexivity.
    + apply list_elem_of_In, elem_of_remove_dups, list_elem_of_In, in_map. exact Hx.
    + congruence.
    + congruence.
  - rewrite find_no_group by auto. reflexivity.
  - rewrite find_no_group by auto. reflexivity.
Qed.

(** ** Pipeline orchestrator *)

Lemma build_ndc_lookup_run {float} (fs : files) df (c : connection float) :
  fs NdcCsv = Some df -> build_ndc_lookup fs c = (Returns (ndc_lookup_of df), c).
Proof. intros H. unfold build_ndc_lookup. rewrite (read_csv_bind _ _ _ _ _ H). reflexivity. Qed.

(** A loader whose extract cannot be read raises before it touches the
    connection. *)
Lemma load_products_fails {float} (fs : files) (c : connection float) :
  fs ProductsCsv = None -> load_products fs c = (Raises (SourceReadError ProductsCsv), c).
Proof. intros H. unfold load_products. apply read_csv_fails, H. Qed.

Lemma load_exclusivity_fails {float} (fs : files) (c : connection float) :
  fs ExclusivityCsv = None ->
  load_exclusivity fs c = (Raises (SourceReadError ExclusivityCsv), c).
Proof. intros H. unfold load_exclusivity. apply read_csv_fails, H. Qed.

Lemma load_patents_fails {float} (fs : files) (c : connection float) :
  fs PatentCsv = None -> load_patents fs c = (Raises (SourceReadError PatentCsv), c).
Proof. intros H. unfold load_patents. apply read_csv_fails, H. Qed.

Lemma load_sales_fails {float} (py_float : string -> outcome float) (fs : files)
    ndc_lookup (c : connection float) :
  fs SalesCsv = None ->
  load_sales py_float fs ndc_lookup c = (Raises (SourceReadError SalesCsv), c).
Proof. intros H. unfold load_sales. apply read_csv_fails, H. Qed.

(** What a loader leaves behind when it returns, in row counts. *)
Lemma load_products_counts {float} (fs : files) df (c : connection float) :
  fs ProductsCsv = Some df -> committed c = working c ->
  exists c',
    load_products fs c = (Returns (length df), c')
    /\ committed c' = working c'
    /\ row_counts (committed c')
       = (let '(p, e, pt, s) := row_counts (committed c) in ((p + length df)%nat, e, pt, s)).
Proof.
  intros H Hc. destruct (load_products_run fs df c H) as (ts & Hts & Hrun).
  destruct (@put_products_laws float) as (P1 & P2 & P3).
  eexists. split; [exact Hrun |].
  split; [apply flushed_committed; assumption |].
  rewrite (flushed_committed Products products put_products) by assumption.
  rewrite flushed_working by assumption. unfold row_counts.
  cbn [put_products put_patent products exclusivity patent sales].
  rewrite <- (length_map snd (rows (insert_rows _ _))).
  rewrite insert_rows_values, length_app, length_map.
  rewrite all_batches_concat, (Forall2_length _ _ _ Hts), Hc. reflexivity.
Qed.

Lemma load_exclusivity_counts {float} (fs : files) df (c : connection float) :
  fs ExclusivityCsv = Some df ->
  exists c',
    load_exclusivity fs c = (Returns (length df), c')
    /\ committed c' = working c'
    /\ row_counts (committed c')
       = (let '(p, e, pt, s) := row_counts (working c) in (p, (e + length df)%nat, pt, s)).
Proof.
  intros H. destruct (load_exclusivity_run fs df c H) as (ts & Hts & Hrun).
  eexists. split; [exact Hrun |]. split; [reflexivity |].
  unfold row_counts.
  cbn [flushed committed put_exclusivity products exclusivity patent sales].
  rewrite <- (length_map snd (rows (insert_rows _ _))).
  rewrite insert_rows_values, length_app, length_map.
  rewrite (Forall2_length _ _ _ Hts). reflexivity.
Qed.

Lemma load_patents_counts {float} (fs : files) df (c : connection float) :
  fs PatentCsv = Some df -> committed c = working c ->
  exists c',
    load_patents fs c = (Returns (length df), c')
    /\ committed c' = working c'
    /\ row_counts (committed c')
       = (let '(p, e, pt, s) := row_counts (committed c) in (p, e, (pt + length df)%nat, s)).
Proof.
  intros H Hc. destruct (load_patents_run fs df c H) as (ts & Hts & Hrun).
  destruct (@put_patent_laws float) as (P1 & P2 & P3).
  eexists. split; [exact Hrun |].
  split; [apply flushed_committed; assumption |].
  rewrite (flushed_committed Patent patent put_patent) by assumption.
  rewrite flushed_working by assumption. unfold row_counts.
  cbn [put_products put_patent products exclusivity patent sales].
  rewrite <- (length_map snd (rows (insert_rows _ _))).
  rewrite insert_rows_values, length_app, length_map.
  rewrite all_batches_concat, (Forall2_length _ _ _ Hts), Hc. reflexivity.
Qed.

Lemma main_raises {float} (py_float : string -> outcome float) (fs : files)
    (db : database float) e c :
  main_try py_float fs (connect db) = (Raises e, c) ->
  committed c = working c ->
  main py_float fs db = (Raises e, close (rollback c))
  /\ committed (main py_float fs db).2 = committed c
  /\ working (main py_float fs db).2 = committed c.
Proof. intros H Hc. unfold main. rewrite H. repeat split. Qed.

Lemma load_sales_counts {float} (py_float : string -> outcome float) (fs : files)
    ndc_lookup df (c : connection float) :
  fs SalesCsv = Some df -> committed c = working c ->
  exists c',
    load_sales py_float fs ndc_lookup c = (Returns (length df), c')
    /\ committed c' = working c'.
Proof.
  intros H Hc. destruct (load_sales_run py_float fs ndc_lookup df c H) as (ts & Hts & Hrun).
  eexists. split; [exact Hrun |]. apply flushed_committed; assumption.
Qed.

(** With the five extracts readable the run goes through all its stages
    and returns. *)
Lemma main_returns {float} (py_float : string -> outcome float) (fs : files)
    (db : database float) ndc dp de dpt ds :
  fs NdcCsv = Some ndc -> fs ProductsCsv = Some dp -> fs ExclusivityCsv = Some de ->
  fs PatentCsv = Some dpt -> fs SalesCsv = Some ds ->
  (main py_float fs db).1 = Returns tt
  /\ committed (main py_float fs db).2 = working (main py_float fs db).2.
Proof.
  intros Hn Hp He Hpt Hs.
  destruct (load_products_counts fs dp (connect db) Hp eq_refl) as (c1 & R1 & C1 & _).
  destruct (load_exclusivity_counts fs de c1 He) as (c2 & R2 & C2 & _).
  destruct (load_patents_counts fs dpt c2 Hpt C2) as (c3 & R3 & C3 & _).
  destruct (load_sales_counts py_float fs (ndc_lookup_of ndc) ds c3 Hs C3) as (c4 & R4 & C4).
  unfold main, main_try.
  erewrite M_bind_returns by (apply build_ndc_lookup_run; eassumption).
  erewrite M_bind_returns by exact R1.
  erewrite M_bind_returns by exact R2.
  erewrite M_bind_returns by exact R3.
  erewrite M_bind_returns by exact R4.
  split; reflexivity.
Qed.

(** C4, as stated, fails: the sales extract is read last, so when it cannot
    be read the products rows loaded before stay committed. *)
Lemma unreadable_sales_leaves_products_loaded :
  (main Py.int sales_extract_missing empty_database).1 = Raises (SourceReadError SalesCsv)
  /\ row_counts (committed (main Py.int sales_extract_missing empty_database).2)
     = (1, 0, 0, 0)%nat
  /\ row_counts (@empty_database Z) = (0, 0, 0, 0)%nat.
Proof. repeat split. Qed.

(** The statements a loader issues when it returns. *)
Lemma load_products_log {float} (fs : files) df (c c' : connection float) :
  fs ProductsCsv = Some df ->
  load_products fs c = (Returns (length df), c') ->
  log c' = log c ++ batch_events Products (batch_sizes (length df)).
Proof.
  intros H Hrun. destruct (load_products_run fs df c H) as (ts & Hts & Hrun').
  rewrite Hrun' in Hrun. injection Hrun as <-.
  destruct (@put_products_laws float) as (P1 & P2 & P3).
  apply (batched_result Products products put_products c ts (length df) P1 P2 P3).
  symmetry. exact (Forall2_length _ _ _ Hts).
Qed.

Lemma load_patents_log {float} (fs : files) df (c c' : connection float) :
  fs PatentCsv = Some df ->
  load_patents fs c = (Returns (length df), c') ->
  log c' = log c ++ batch_events Patent (batch_sizes (length df)).
Proof.
  intros H Hrun. destruct (load_patents_run fs df c H) as (ts & Hts & Hrun').
  rewrite Hrun' in Hrun. injection Hrun as <-.
  destruct (@put_patent_laws float) as (P1 & P2 & P3).
  apply (batched_result Patent patent put_patent c ts (length df) P1 P2 P3).
  symmetry. exact (Forall2_length _ _ _ Hts).
Qed.

Lemma load_exclusivity_log {float} (fs : files) df (c c' : connection float) :
  fs ExclusivityCsv = Some df ->
  load_exclusivity fs c = (Returns (length df), c') ->
  log c' = log c ++ [Executemany Exclusivity (length df); Commit].
Proof.
  intros H Hrun. destruct (load_exclusivity_run fs df c H) as (ts & Hts & Hrun').
  rewrite Hrun' in Hrun. injection Hrun as <-.
  cbn [flushed log]. rewrite (Forall2_length _ _ _ Hts). reflexivity.
Qed.

(** What [main] leaves when its [try] block raises. *)
Lemma main_rolls_back {float} (py_float : string -> outcome float) (fs : files)
    (db : database float) e c :
  main_try py_float fs (connect db) = (Raises e, c) ->
  (main py_float fs db).1 = Raises e
  /\ committed (main py_float fs db).2 = committed c
  /\ rolled_back (main py_float fs db).2 (log c).
Proof. intros H. unfold main. rewrite H. repeat split. Qed.

(** C4 (amended). A source-read failure is fatal: [main] raises the read
    error of the first extract that cannot be read, in the order
    identifiers, products, exclusivity, patents, sales, and rolls back:
    the rollback is the last statement of the run, after the inserts and
    commits of the stages that came before. Each extract is read only
    when its stage starts, so what earlier stages committed stays: no row
    is committed to any table only when the identifier extract or the
    products extract is the unreadable one; when it is the exclusivity,
    the patent or the sales extract, the rows of the tables loaded before
    it (products; products and exclusivity; products, exclusivity and
    patents) are committed. *)
Theorem source_read_failure_aborts {float} (py_float : string -> outcome float)
    (fs : files) (db : database float) :
  let result := main py_float fs db in
  let '(p, e, pt, s) := row_counts db in
  (fs NdcCsv = None ->
   result.1 = Raises (SourceReadError NdcCsv) /\ committed result.2 = db
   /\ rolled_back result.2 [])
  /\ (forall ndc,
        fs NdcCsv = Some ndc -> fs ProductsCsv = None ->
        result.1 = Raises (SourceReadError ProductsCsv) /\ committed result.2 = db
        /\ rolled_back result.2 [])
  /\ (forall ndc dp,
        fs NdcCsv = Some ndc -> fs ProductsCsv = Some dp -> fs ExclusivityCsv = None ->
        result.1 = Raises (SourceReadError ExclusivityCsv)
        /\ row_counts (committed result.2) = ((p + length dp)%nat, e, pt, s)
        /\ rolled_back result.2 (batch_events Products (batch_sizes (length dp))))
  /\ (forall ndc dp de,
        fs NdcCsv = Some ndc -> fs ProductsCsv = Some dp ->
        fs ExclusivityCsv = Some de -> fs PatentCsv = None ->
        result.1 = Raises (SourceReadError PatentCsv)
        /\ row_counts (committed result.2)
           = ((p + length dp)%nat, (e + length de)%nat, pt, s)
        /\ rolled_back result.2
             (batch_events Products (batch_sizes (length dp))
              ++ [Executemany Exclusivity (length de); Commit]))
  /\ (forall ndc dp de dpt,
        fs NdcCsv = Some ndc -> fs ProductsCsv = Some dp ->
        fs ExclusivityCsv = Some de -> fs PatentCsv = Some dpt -> fs SalesCsv = None ->
        result.1 = Raises (SourceReadError SalesCsv)
        /\ row_counts (committed result.2)
           = ((p + length dp)%nat, (e + length de)%nat, (pt + length dpt)%nat, s)
        /\ rolled_back result.2
             (batch_events Products (batch_sizes (length dp))
              ++ [Executemany Exclusivity (length de); Commit]
              ++ batch_events Patent (batch_sizes (length dpt)))).
Proof.
  intros result. destruct (row_counts db) as [[[p e] pt] s] eqn:Hdb.
  subst result. split; [| split; [| split; [| split]]].
  - intros Hn.
    assert (Htry : main_try py_float fs (connect db)
                   = (Raises (SourceReadError NdcCsv), connect db)).
    { unfold main_try. apply M_bind_raises. unfold build_ndc_lookup.
      apply read_csv_fails, Hn. }
    destruct (main_rolls_back py_float fs db _ _ Htry) as (Hm & Hcom & Hrb).
    split; [exact Hm |]. split; [exact Hcom | exact Hrb].
  - intros ndc Hn Hp.
    assert (Htry : main_try py_float fs (connect db)
                   = (Raises (SourceReadError ProductsCsv), connect db)).
    { unfold main_try.
      erewrite M_bind_returns by (apply build_ndc_lookup_run; eassumption).
      apply M_bind_raises, load_products_fails, Hp. }
    destruct (main_rolls_back py_float fs db _ _ Htry) as (Hm & Hcom & Hrb).
    split; [exact Hm |]. split; [exact Hcom | exact Hrb].
  - intros ndc dp Hn Hp He.
    destruct (load_products_counts fs dp (connect db) Hp eq_refl) as (c1 & R1 & C1 & N1).
    pose proof (load_products_log fs dp _ _ Hp R1) as L1.
    assert (Htry : main_try py_float fs (connect db)
                   = (Raises (SourceReadError ExclusivityCsv), c1)).
    { unfold main_try.
      erewrite M_bind_returns by (apply build_ndc_lookup_run; eassumption).
      erewrite M_bind_returns by exact R1.
      apply M_bind_raises, load_exclusivity_fails, He. }
    destruct (main_rolls_back py_float fs db _ _ Htry) as (Hm & Hcom & Hrb).
    split; [exact Hm |]. split.
    + rewrite Hcom, N1. cbn [connect committed]. rewrite Hdb. reflexivity.
    + rewrite L1 in Hrb. exact Hrb.
  - intros ndc dp de Hn Hp He Hpt.
    destruct (load_products_counts fs dp (connect db) Hp eq_refl) as (c1 & R1 & C1 & N1).
    destruct (load_exclusivity_counts fs de c1 He) as (c2 & R2 & C2 & N2).
    pose proof (load_products_log fs dp _ _ Hp R1) as L1.
    pose proof (load_exclusivity_log fs de _ _ He R2) as L2.
    assert (Htry : main_try py_float fs (connect db)
                   = (Raises (SourceReadError PatentCsv), c2)).
    { unfold main_try.
      erewrite M_bind_returns by (apply build_ndc_lookup_run; eassumption).
      erewrite M_bind_returns by exact R1.
      erewrite M_bind_returns by exact R2.
      apply M_bind_raises, load_patents_fails, Hpt. }
    destruct (main_rolls_back py_float fs db _ _ Htry) as (Hm & Hcom & Hrb).
    split; [exact Hm |]. split.
    + rewrite Hcom, N2, <- C1, N1. cbn [connect committed]. rewrite Hdb. reflexivity.
    + rewrite L2, L1 in Hrb. exact Hrb.
  - intros ndc dp de dpt Hn Hp He Hpt Hs.
    destruct (load_products_counts fs dp (connect db) Hp eq_refl) as (c1 & R1 & C1 & N1).
    destruct (load_exclusivity_counts fs de c1 He) as (c2 & R2 & C2 & N2).
    destruct (load_patents_counts fs dpt c2 Hpt C2) as (c3 & R3 & C3 & N3).
    pose proof (load_products_log fs dp _ _ Hp R1) as L1.
    pose proof (load_exclusivity_log fs de _ _ He R2) as L2.
    pose proof (load_patents_log fs dpt _ _ Hpt R3) as L3.
    assert (Htry : main_try py_float fs (connect db)
                   = (Raises (SourceReadError SalesCsv), c3)).
    { unfold main_try.
      erewrite M_bind_returns by (apply build_ndc_lookup_run; eassumption).
      erewrite M_bind_returns by exact R1.
      erewrite M_bind_returns by exact R2.
      erewrite M_bind_returns by exact R3.
      apply M_bind_raises, load_sales_fails, Hs. }
    destruct (main_rolls_back py_float fs db _ _ Htry) as (Hm & Hcom & Hrb).
    split; [exact Hm |]. split.
    + rewrite Hcom, N3, N2, <- C1, N1. cbn [connect committed]. rewrite Hdb. reflexivity.
    + rewrite L3, L2, L1, <- !app_assoc in Hrb. exact Hrb.
Qed.

(** ** The pipeline on the sample extracts *)

(** The whole run: the duplicate products row is gone, the other two carry
    the count of their group, and the three sales rows are there. *)
Example pipeline_on_samples :
  let result := main Py.int sample_files empty_database in
  result.1 = Returns tt
  /\ log result.2
     = [Executemany Products 3; Commit; Executemany Exclusivity 0; Commit;
        Executemany Sales 3; Commit; Commit; Commit; Commit; Commit; Commit]
  /\ map (fun x => (x.1, p_appl_no x.2, p_approval_date x.2, p_number_of_approvals x.2))
       (rows (products (committed result.2)))
     = [(1, Some "21234", Some {| year := 1999; month := 12; day := 31 |}, Some 2);
        (3, Some "77777", Some {| year := 2004; month := 2; day := 9 |}, Some 2)]
  /\ map (fun x => (s_appl_no x.2, s_labeler_code x.2, s_product_code x.2, s_sales x.2))
       (rows (sales (committed result.2)))
     = [(Some "NDA021234", Some "00123", Some "0045", Some 1000);
        (None, Some "00999", Some "0001", Some 250);
        (None, None, Some "0045", None)].
Proof. vm_compute. repeat split. Qed.

(** C3, as stated, fails for [load_exclusivity]: 2500 rows go into one
    insert of 2500 rows, and an empty extract still gets its insert and
    its commit. *)
Lemma load_exclusivity_single_batch :
  log (load_exclusivity (float := Z) files_2500 (connect empty_database)).2
  = [Executemany Exclusivity 2500; Commit]
  /\ log (load_exclusivity (float := Z) sample_files (connect empty_database)).2
     = [Executemany Exclusivity 0; Commit]
  /\ batch_events Exclusivity [1000; 1000; 500]%nat
     <> [Executemany Exclusivity 2500; Commit].
Proof. split; [vm_compute; reflexivity |]. split; [reflexivity | discriminate]. Qed.

(** 2500 products rows: three batches of 1000, 1000 and 500. *)
Lemma loaders_batching_witness :
  exists c',
    load_products (float := Z) files_2500 (connect empty_database) = (Returns 2500%nat, c')
    /\ log c'
       = [Executemany Products 1000; Commit; Executemany Products 1000; Commit;
          Executemany Products 500; Commit]
    /\ length (rows (products (working c'))) = 2500%nat.
Proof.
  destruct (loaders_batching Py.int files_2500 ∅ (connect empty_database)
              (repeat ∅ 2500) (repeat ∅ 2500) (repeat ∅ 2500) (repeat ∅ 2500)
              eq_refl eq_refl eq_refl eq_refl) as (H & _).
  exact H.
Defined.

(** Of the two candidates for (00123, 0045) the first one is kept. *)
Lemma build_ndc_lookup_first_wins_witness :
  build_ndc_lookup (float := Z) sample_files (connect empty_database)
  = (Returns (ndc_lookup_of sample_ndc), connect empty_database)
  /\ ndc_lookup_of sample_ndc !! ("00123", "0045") = Some "NDA021234".
Proof.
  destruct (build_ndc_lookup_first_wins (float := Z) sample_files sample_ndc
              (connect empty_database) eq_refl) as (H1 & H2 & _).
  split; [exact H1 | exact (H2 "00123" "0045")].
Defined.


(** [te_code] NULL against ["AB"]: both rows stay. *)
Lemma null_against_value_not_duplicates_witness :
  delete_products [(1, aspirin "N000001" (Some "81MG") None (Some 3));
                   (2, aspirin "N000001" (Some "81MG") (Some "AB") (Some 3))]
  = [(1, aspirin "N000001" (Some "81MG") None (Some 3));
     (2, aspirin "N000001" (Some "81MG") (Some "AB") (Some 3))].
Proof.
  apply (proj1 null_against_value_not_duplicates string p_te_code 1 2
           (aspirin "N000001" (Some "81MG") None (Some 3))
           (aspirin "N000001" (Some "81MG") (Some "AB") (Some 3))
           eq_refl ltac:(discriminate)).
Defined.

(** The sales extract is missing: the products row loaded before stays,
    and the run ends with the rollback. *)
Lemma source_read_failure_aborts_witness :
  (main Py.int sales_extract_missing empty_database).1 = Raises (SourceReadError SalesCsv)
  /\ row_counts (committed (main Py.int sales_extract_missing empty_database).2)
     = (1, 0, 0, 0)%nat
  /\ log (main Py.int sales_extract_missing empty_database).2
     = [Executemany Products 1; Commit; Executemany Exclusivity 0; Commit; Rollback].
Proof.
  pose proof (source_read_failure_aborts Py.int sales_extract_missing empty_database) as H.
  cbv zeta in H. change (row_counts (@empty_database Z)) with (0, 0, 0, 0)%nat in H.
  cbv beta iota in H.
  destruct H as (_ & _ & _ & _ & H).
  destruct (H [] _ [] [] eq_refl eq_refl eq_refl eq_refl eq_refl) as (H1 & H2 & H3 & _).
  split; [exact H1 |]. split; [exact H2 | exact H3].
Defined.

(** An all-whitespace cell is null for the three parsers. *)
Lemma field_normalizers_total_witness :
  parse_date (CStr "   ") = Returns None
  /\ parse_int (CStr "   ") = Returns None
  /\ parse_decimal Py.int (CStr "   ") = Returns None.
Proof.
  destruct (field_normalizers_total Py.int (CStr "   ") 5) as (_ & _ & _ & H & _).
  apply H. right. reflexivity.
Defined.

(** The key (00123, 0045) of the sample mapping comes from a padded row. *)
Lemma join_keys_zero_padded_witness :
  (5 <= String.length "00123")%nat /\ (4 <= String.length "0045")%nat
  /\ exists r', In r' sample_ndc
       /\ ~ blank_code (labeler_cell r') /\ ~ blank_code (product_cell r')
       /\ "00123" = Py.zfill (Py.strip (str (labeler_cell r'))) 5
       /\ "0045" = Py.zfill (Py.strip (str (product_cell r'))) 4.
Proof.
  destruct (join_keys_zero_padded Py.int sample_ndc ∅ ∅
              {| s_appl_no := None; s_ingredient := None; s_route := None;
                 s_route_extended := None; s_dosage := None; s_manufacturer := None;
                 s_strength := None; s_pack_quantity := None; s_ndc_number := None;
                 s_labeler_code := None; s_product_code := None; s_sales := None;
                 s_packs := None; s_quantity := None; s_wac := None; s_price := None;
                 s_number_of_sellers := None |}) as (H & _).
  exact (H "00123" "0045" "NDA021234" eq_refl).
Defined.

(** * Further properties of the loader *)

(** ** Trimming *)

Lemma rstrip_idem s : Py.rstrip (Py.rstrip s) = Py.rstrip s.
Proof.
  induction s as [| c r IH]; [reflexivity |]. cbn [Py.rstrip].
  destruct (Py.rstrip r) as [| d r'] eqn:E.
  - destruct (Py.isspace c) eqn:Hc; [reflexivity |]. cbn [Py.rstrip]. rewrite Hc. reflexivity.
  - change (Py.rstrip (String c (String d r'))) with
      (match Py.rstrip (String d r') with
       | EmptyString => if Py.isspace c then EmptyString else String c EmptyString
       | r0 => String c r0
       end).
    rewrite IH. reflexivity.
Qed.

Lemma lstrip_head s :
  Py.lstrip s = "" \/ exists c r, Py.lstrip s = String c r /\ Py.isspace c = false.
Proof.
  induction s as [| c r IH]; [left; reflexivity |]. cbn [Py.lstrip].
  destruct (Py.isspace c) eqn:Hc; [exact IH | right; eauto].
Qed.

Lemma rstrip_keeps_head c r :
  Py.isspace c = false -> exists r', Py.rstrip (String c r) = String c r'.
Proof.
  intros Hc. cbn [Py.rstrip]. destruct (Py.rstrip r); [rewrite Hc |]; eauto.
Qed.

Lemma lstrip_nonspace c r : Py.isspace c = false -> Py.lstrip (String c r) = String c r.
Proof. intros Hc. cbn [Py.lstrip]. rewrite Hc. reflexivity. Qed.

(** A trimmed text is a fixed point of both halves of [strip]. *)
Lemma strip_fixed s :
  Py.lstrip (Py.strip s) = Py.strip s /\ Py.rstrip (Py.strip s) = Py.strip s.
Proof.
  unfold Py.strip. split; [| apply rstrip_idem].
  destruct (lstrip_head s) as [-> | (c & r & -> & Hc)]; [reflexivity |].
  destruct (rstrip_keeps_head c r Hc) as [r' ->]. apply lstrip_nonspace, Hc.
Qed.

Lemma strip_idem s : Py.strip (Py.strip s) = Py.strip s.
Proof.
  destruct (strip_fixed s) as [H1 H2]. unfold Py.strip at 1. rewrite H1. exact H2.
Qed.

Lemma strip_of_fixed s : Py.lstrip s = s -> Py.rstrip s = s -> Py.strip s = s.
Proof. intros H1 H2. unfold Py.strip. rewrite H1. exact H2. Qed.

Lemma strip_empty_lstrip s : Py.strip s = "" -> Py.lstrip s = "".
Proof.
  unfold Py.strip. destruct (lstrip_head s) as [-> | (c & r & -> & Hc)]; [reflexivity |].
  destruct (rstrip_keeps_head c r Hc) as [r' ->]. discriminate.
Qed.

Lemma rstrip_app (a b : string) :
  Py.rstrip b = b -> b <> "" -> Py.rstrip (a ++ b)%string = (a ++ b)%string.
Proof.
  intros Hb Hne. induction a as [| c a IH]; [exact Hb |].
  rewrite string_app_cons. cbn [Py.rstrip]. rewrite IH.
  destruct (a ++ b)%string eqn:E; [| reflexivity].
  destruct a; [rewrite string_app_nil in E; contradiction | discriminate E].
Qed.

Lemma rstrip_tail c r :
  Py.rstrip (String c r) = String c r -> r <> "" -> Py.rstrip r = r.
Proof.
  cbn [Py.rstrip]. intros H Hne. destruct (Py.rstrip r) as [| d r'] eqn:E.
  - destruct (Py.isspace c); [discriminate |]. injection H as <-. contradiction.
  - injection H as <-. reflexivity.
Qed.

Lemma rstrip_cons c r :
  Py.rstrip r = r -> r <> "" -> Py.rstrip (String c r) = String c r.
Proof. intros H Hne. cbn [Py.rstrip]. rewrite H. destruct r; [contradiction | reflexivity]. Qed.

Lemma rstrip_zeros n : Py.rstrip (Py.zeros n) = Py.zeros n.
Proof.
  induction n as [| n IH]; [reflexivity |]. cbn [Py.zeros Py.rstrip]. rewrite IH.
  destruct (Py.zeros n); reflexivity.
Qed.

Lemma zeros_nonempty n : (0 < n)%nat -> Py.zeros n <> "".
Proof. destruct n; [lia | discriminate]. Qed.

(** Padding a trimmed, non-empty text leaves it trimmed. *)
Lemma strip_zfill t width :
  Py.lstrip t = t -> Py.rstrip t = t -> t <> "" ->
  Py.strip (Py.zfill t width) = Py.zfill t width.
Proof.
  intros Hl Hr Hne.
  destruct (Nat.leb_spec width (String.length t)) as [Hle | Hlt].
  { rewrite zfill_long by assumption. apply strip_of_fixed; assumption. }
  rewrite zfill_short by assumption. unfold sign_of, unsigned_of.
  destruct t as [| c r]; [contradiction |].
  set (n := (width - String.length (String c r))%nat).
  assert (Hn : (0 < n)%nat) by (subst n; lia).
  destruct (Ascii.eqb c "+" || Ascii.eqb c "-") eqn:Hs.
  - rewrite string_app_cons, string_app_nil.
    assert (Hc : Py.isspace c = false).
    { apply orb_prop in Hs as [H | H]; apply Ascii.eqb_eq in H; subst c; reflexivity. }
    apply strip_of_fixed; [apply lstrip_nonspace, Hc |].
    apply rstrip_cons.
    + destruct r as [| d r'].
      * rewrite string_app_empty. apply rstrip_zeros.
      * apply rstrip_app; [| discriminate]. apply (rstrip_tail c); [exact Hr | discriminate].
    + destruct n; [lia | discriminate].
  - rewrite string_app_nil.
    destruct n as [| n']; [lia |]. cbn [Py.zeros]. rewrite string_app_cons.
    apply strip_of_fixed; [apply lstrip_nonspace; reflexivity |].
    apply rstrip_cons; [| destruct (Py.zeros n'); discriminate].
    apply rstrip_app; [exact Hr | discriminate].
Qed.

(** ** Normalized codes *)

Lemma zeros_app a b : (Py.zeros a ++ Py.zeros b)%string = Py.zeros (a + b).
Proof.
  induction a as [| a IH]; [reflexivity |]. cbn [Py.zeros Nat.add].
  rewrite string_app_cons, IH. reflexivity.
Qed.

Lemma string_app_assoc (a b c : string) :
  ((a ++ b) ++ c)%string = (a ++ (b ++ c))%string.
Proof.
  induction a as [| x a IH]; [reflexivity |].
  rewrite !string_app_cons, IH. reflexivity.
Qed.

(** Padding to a width and then to a larger one is padding to the larger
    one. *)
Lemma zfill_zfill s k width :
  (k <= width)%nat -> Py.zfill (Py.zfill s k) width = Py.zfill s width.
Proof.
  intros Hk. destruct (Nat.leb_spec k (String.length s)) as [Hle | Hlt].
  { rewrite (zfill_long s k) by assumption. reflexivity. }
  destruct (Nat.leb_spec width k) as [Hwk | Hwk].
  { assert (width = k) as -> by lia. apply zfill_long. rewrite length_zfill. lia. }
  pose proof (length_zfill s k) as Hlen.
  unfold Py.zfill in *.
  destruct (Nat.leb_spec k (String.length s)); [lia |].
  destruct (Nat.leb_spec width (String.length s)); [lia |].
  destruct s as [| c r].
  - cbn [String.length] in *. rewrite Nat.sub_0_r in *.
    destruct (Nat.leb_spec width (String.length (Py.zeros k))); [lia |].
    rewrite Hlen. destruct k as [| k']; [reflexivity |].
    cbn [Py.zeros]. change (Ascii.eqb "0" "+" || Ascii.eqb "0" "-") with false. cbv iota.
    change (String "0" (Py.zeros k')) with (Py.zeros (S k')).
    rewrite zeros_app. f_equal. lia.
  - destruct (Ascii.eqb c "+" || Ascii.eqb c "-") eqn:Hs.
    + destruct (Nat.leb_spec width (String.length (String c (Py.zeros (k - String.length (String c r)) ++ r)))); [lia |].
      rewrite Hs, Hlen. rewrite <- string_app_assoc, zeros_app. do 3 f_equal. lia.
    + destruct (Nat.leb_spec width (String.length (Py.zeros (k - String.length (String c r)) ++ String c r))); [lia |].
      rewrite Hlen.
      destruct (k - String.length (String c r))%nat as [| n] eqn:En; [lia |].
      cbn [Py.zeros]. rewrite string_app_cons.
      change (Ascii.eqb "0" "+" || Ascii.eqb "0" "-") with false. cbv iota.
      change (String "0" (Py.zeros n ++ String c r)) with (Py.zeros (S n) ++ String c r)%string.
      rewrite <- string_app_assoc, zeros_app. do 2 f_equal. lia.
Qed.

(** X1. Normalizing in two steps is normalizing once: a code that
    [zero_pad] returned for a width [k], normalized again for a width
    [width >= k], is the original input normalized for [width]. With
    [width = k] the code comes back unchanged. *)
Theorem zero_pad_twice (code : cell) (k width : nat) (z : string) :
  zero_pad code k = Some z ->
  (k <= width)%nat ->
  zero_pad (CStr z) width = zero_pad code width
  /\ zero_pad (CStr z) k = Some z.
Proof.
  intros H Hk. apply zero_pad_inv in H as (Hc & Hne & ->).
  destruct (strip_fixed (str code)) as [Hl Hr].
  set (t := Py.strip (str code)) in *.
  assert (Hz : Py.strip (Py.zfill t k) = Py.zfill t k) by (apply strip_zfill; assumption).
  assert (Hnz : Py.zfill t k <> "").
  { intros E. apply (f_equal String.length) in E. rewrite length_zfill in E.
    destruct t; [contradiction | simpl in E; lia]. }
  split.
  - rewrite (zero_pad_Some code) by assumption. fold t.
    rewrite zero_pad_Some; cbn [str]; rewrite ?Hz;
      [f_equal; apply zfill_zfill; assumption | discriminate | assumption].
  - rewrite zero_pad_Some; cbn [str]; rewrite ?Hz;
      [f_equal; apply zfill_zfill; lia | discriminate | assumption].
Qed.

Lemma zero_pad_twice_witness :
  zero_pad (CStr "0045") 5 = zero_pad (CInt 45) 5
  /\ zero_pad (CStr "0045") 4 = Some "0045".
Proof. apply (zero_pad_twice (CInt 45) 4 5 "0045"); [reflexivity | lia]. Defined.

(** X2. [normalize_code] and [zero_pad] differ on [None] only: there
    [zero_pad] gives null and [normalize_code] pads the text ["None"]. *)
Theorem normalize_code_vs_zero_pad (code : cell) (width : nat) :
  (code <> CNone -> normalize_code code width = zero_pad code width)
  /\ zero_pad CNone width = None
  /\ normalize_code CNone width = Some (Py.zfill "None" width).
Proof.
  split; [| split; reflexivity].
  intros H. destruct code; [contradiction | reflexivity ..].
Qed.

(** ** Characters taken out before parsing *)

Lemma length_remove_char c s :
  (String.length (Py.remove_char c s) <= String.length s)%nat.
Proof.
  induction s as [| d r IH]; [reflexivity |]. cbn [Py.remove_char].
  destruct (Ascii.eqb c d); simpl; lia.
Qed.

Lemma remove_char_idem c s : Py.remove_char c (Py.remove_char c s) = Py.remove_char c s.
Proof.
  induction s as [| d r IH]; [reflexivity |]. cbn [Py.remove_char].
  destruct (Ascii.eqb c d) eqn:E; [exact IH |].
  cbn [Py.remove_char]. rewrite E, IH. reflexivity.
Qed.

Lemma remove_char_comm c d s :
  Py.remove_char c (Py.remove_char d s) = Py.remove_char d (Py.remove_char c s).
Proof.
  induction s as [| e r IH]; [reflexivity |]. cbn [Py.remove_char].
  destruct (Ascii.eqb d e) eqn:Ed, (Ascii.eqb c e) eqn:Ec;
    cbn [Py.remove_char]; rewrite ?Ed, ?Ec, ?IH; reflexivity.
Qed.

(** A text of whitespace only stays one when a character is taken out. *)
Lemma lstrip_empty_remove_char c s :
  Py.lstrip s = "" -> Py.lstrip (Py.remove_char c s) = "".
Proof.
  induction s as [| d r IH]; [reflexivity |]. cbn [Py.lstrip Py.remove_char].
  destruct (Py.isspace d) eqn:Hd; [| discriminate]. intros H.
  destruct (Ascii.eqb c d); [auto |]. cbn [Py.lstrip]. rewrite Hd. auto.
Qed.

Lemma lstrip_empty_strip s : Py.lstrip s = "" -> Py.strip s = "".
Proof. unfold Py.strip. intros ->. reflexivity. Qed.

Lemma lstrip_empty_no_char c s :
  Py.isspace c = false -> Py.lstrip s = "" -> Py.remove_char c s = s.
Proof.
  intros Hc. induction s as [| d r IH]; [reflexivity |]. cbn [Py.lstrip Py.remove_char].
  destruct (Py.isspace d) eqn:Hd; [| discriminate]. intros H.
  destruct (Ascii.eqb_spec c d) as [-> | _]; [congruence |]. rewrite IH by assumption.
  reflexivity.
Qed.

(** X3. [parse_int] ignores commas wherever they stand: the result for a
    text is the result for the text with every comma taken out. *)
Theorem parse_int_ignores_commas (s : string) :
  parse_int (CStr s) = parse_int (CStr (Py.remove_char "," s)).
Proof.
  unfold parse_int. cbn [isna str orb]. rewrite remove_char_idem.
  destruct (String.eqb_spec (Py.strip s) "") as [Hs | Hs].
  - apply strip_empty_lstrip in Hs.
    rewrite (lstrip_empty_no_char "," s) by (reflexivity || assumption).
    rewrite (lstrip_empty_strip s Hs). reflexivity.
  - destruct (String.eqb_spec (Py.strip (Py.remove_char "," s)) "") as [-> | _];
      reflexivity.
Qed.

Lemma decimal_noise_idem s : decimal_noise (decimal_noise s) = decimal_noise s.
Proof.
  unfold decimal_noise.
  rewrite (remove_char_comm "$" " "), (remove_char_comm "$" ",").
  rewrite remove_char_idem.
  rewrite (remove_char_comm "," " "), remove_char_idem, remove_char_idem.
  reflexivity.
Qed.

(** X4. [parse_decimal] ignores dollar signs, commas and spaces wherever
    they stand, whatever [float] does with the rest. *)
Theorem parse_decimal_ignores_noise {float} (py_float : string -> outcome float)
    (s : string) :
  parse_decimal py_float (CStr s) = parse_decimal py_float (CStr (decimal_noise s)).
Proof.
  unfold parse_decimal. cbn [isna str orb].
  fold (decimal_noise s). fold (decimal_noise (decimal_noise s)).
  rewrite decimal_noise_idem.
  destruct (String.eqb_spec (Py.strip s) "") as [Hs | Hs].
  - apply strip_empty_lstrip in Hs.
    assert (H : Py.strip (decimal_noise s) = "").
    { apply lstrip_empty_strip. unfold decimal_noise.
      do 3 apply lstrip_empty_remove_char. exact Hs. }
    rewrite H. reflexivity.
  - destruct (String.eqb_spec (Py.strip (decimal_noise s)) "") as [-> | _];
      reflexivity.
Qed.

(** ** Integers as text *)

Lemma int_digits_step c k acc b r :
  Py.isdigit c = true -> Py.digit_val c = k ->
  Py.int_digits acc b (String c r) = Py.int_digits (10 * acc + k) true r.
Proof. intros Hc <-. cbn [Py.int_digits]. rewrite Hc. reflexivity. Qed.

Ltac digit_step :=
  erewrite int_digits_step by (vm_compute; reflexivity).

Lemma int_digits_uint_acc d : forall p b,
  d <> Decimal.Nil \/ b = true ->
  Py.int_digits (Z.pos p) b (NilEmpty.string_of_uint d)
  = Some (Z.pos (Pos.of_uint_acc d p)).
Proof.
  induction d; intros p b Hb; cbn [NilEmpty.string_of_uint Pos.of_uint_acc];
    [destruct Hb as [Hb | ->]; [contradiction | reflexivity] | ..];
    digit_step;
    match goal with
    | |- Py.int_digits ?a _ _ = Some (Z.pos (Pos.of_uint_acc _ ?q)) =>
        replace a with (Z.pos q) by lia
    end;
    apply IHd; auto.
Qed.

Lemma int_digits_uint d : forall b,
  d <> Decimal.Nil \/ b = true ->
  Py.int_digits 0 b (NilEmpty.string_of_uint d) = Some (Z.of_N (Pos.of_uint d)).
Proof.
  induction d; intros b Hb; cbn [NilEmpty.string_of_uint Pos.of_uint];
    [destruct Hb as [Hb | ->]; [contradiction | reflexivity] | ..];
    digit_step.
  - replace (10 * 0 + 0) with 0 by lia. apply IHd. auto.
  - apply (int_digits_uint_acc d 1). auto.
  - apply (int_digits_uint_acc d 2). auto.
  - apply (int_digits_uint_acc d 3). auto.
  - apply (int_digits_uint_acc d 4). auto.
  - apply (int_digits_uint_acc d 5). auto.
  - apply (int_digits_uint_acc d 6). auto.
  - apply (int_digits_uint_acc d 7). auto.
  - apply (int_digits_uint_acc d 8). auto.
  - apply (int_digits_uint_acc d 9). auto.
Qed.

Lemma int_digits_zeros n s :
  (0 < n)%nat -> forall b, Py.int_digits 0 b (Py.zeros n ++ s)%string = Py.int_digits 0 true s.
Proof.
  induction n as [| n IH]; [lia |]. intros _ b. cbn [Py.zeros]. rewrite string_app_cons.
  digit_step. replace (10 * 0 + 0) with 0 by lia.
  destruct n; [reflexivity | apply IH; lia].
Qed.

(** The decimal text of a natural number: digits only. *)
Lemma uint_text_head d :
  d <> Decimal.Nil ->
  exists c r, NilEmpty.string_of_uint d = String c r
              /\ Py.isspace c = false
              /\ (Ascii.eqb c "+" || Ascii.eqb c "-") = false.
Proof. destruct d; [contradiction | intros _; eexists _, _; repeat split ..]. Qed.

Lemma uint_text_rstrip d :
  Py.rstrip (NilEmpty.string_of_uint d) = NilEmpty.string_of_uint d.
Proof.
  induction d; cbn [NilEmpty.string_of_uint Py.rstrip]; [reflexivity | ..];
    rewrite IHd; destruct (NilEmpty.string_of_uint d); reflexivity.
Qed.

Lemma uint_text_no_comma d :
  Py.remove_char "," (NilEmpty.string_of_uint d) = NilEmpty.string_of_uint d.
Proof.
  induction d; cbn [NilEmpty.string_of_uint Py.remove_char]; [reflexivity | ..];
    rewrite IHd; reflexivity.
Qed.

(** What [str] prints for an integer: an optional [-] and the digits of a
    non-empty decimal numeral whose value is the integer. *)
Lemma str_of_int_shape z :
  exists d, d <> Decimal.Nil /\ Z.of_N (Pos.of_uint d) = Z.abs z
            /\ Py.str_of_int z
               = ((if (z <? 0)%Z then "-" else "") ++ NilEmpty.string_of_uint d)%string.
Proof.
  unfold Py.str_of_int. destruct z as [| p | p]; cbn [Z.to_int NilZero.string_of_int].
  - exists (Decimal.D0 Decimal.Nil). repeat split. discriminate.
  - exists (Pos.to_uint p). pose proof (DecimalPos.Unsigned.to_uint_nonnil p).
    split; [assumption |]. split; [rewrite DecimalPos.Unsigned.of_to; reflexivity |].
    unfold NilZero.string_of_uint. destruct (Pos.to_uint p); [contradiction | reflexivity ..].
  - exists (Pos.to_uint p). pose proof (DecimalPos.Unsigned.to_uint_nonnil p).
    split; [assumption |]. split; [rewrite DecimalPos.Unsigned.of_to; reflexivity |].
    unfold NilZero.string_of_uint. destruct (Pos.to_uint p); [contradiction | reflexivity ..].
Qed.

Lemma str_of_int_trimmed z :
  Py.lstrip (Py.str_of_int z) = Py.str_of_int z
  /\ Py.rstrip (Py.str_of_int z) = Py.str_of_int z
  /\ Py.str_of_int z <> ""
  /\ Py.remove_char "," (Py.str_of_int z) = Py.str_of_int z.
Proof.
  destruct (str_of_int_shape z) as (d & Hd & _ & ->).
  destruct (uint_text_head d Hd) as (c & r & E & Hc & _).
  pose proof (uint_text_rstrip d) as Hr. pose proof (uint_text_no_comma d) as Hn.
  destruct (z <? 0)%Z; rewrite ?string_app_cons, string_app_nil.
  - split; [reflexivity |]. split; [| split; [discriminate |]].
    + apply rstrip_cons; [exact Hr | rewrite E; discriminate].
    + cbn [Py.remove_char]. change (Ascii.eqb "," "-") with false. cbv iota.
      rewrite Hn. reflexivity.
  - split; [rewrite E; apply lstrip_nonspace, Hc |].
    split; [exact Hr |]. split; [rewrite E; discriminate | exact Hn].
Qed.

(** [int] trims less than [strip] does, so on a trimmed text it trims
    nothing. *)
Lemma int_space_isspace c : Py.int_space c = true -> Py.isspace c = true.
Proof.
  destruct c as [[] [] [] [] [] [] [] []]; vm_compute; intros H;
    first [reflexivity | discriminate H].
Qed.

Lemma int_space_false c : Py.isspace c = false -> Py.int_space c = false.
Proof.
  intros H. destruct (Py.int_space c) eqn:E; [| reflexivity].
  apply int_space_isspace in E. congruence.
Qed.

Lemma int_lstrip_stripped s : Py.lstrip s = s -> Py.int_lstrip s = s.
Proof.
  destruct s as [| c r]; [reflexivity |]. intros H.
  destruct (lstrip_head (String c r)) as [E | (c' & r' & E & Hc)]; rewrite H in E;
    [discriminate |].
  injection E as -> ->. cbn [Py.int_lstrip]. rewrite (int_space_false _ Hc). reflexivity.
Qed.

Lemma int_rstrip_stripped s : Py.rstrip s = s -> Py.int_rstrip s = s.
Proof.
  induction s as [| c r IH]; [reflexivity |]. intros H.
  destruct (string_dec r "") as [-> | Hne].
  - cbn [Py.rstrip] in H. cbn [Py.int_rstrip].
    destruct (Py.isspace c) eqn:Hc; [discriminate |].
    rewrite (int_space_false _ Hc). reflexivity.
  - cbn [Py.int_rstrip]. rewrite IH by (apply (rstrip_tail c); assumption).
    destruct r; [contradiction | reflexivity].
Qed.

Lemma int_strip_stripped s :
  Py.lstrip s = s -> Py.rstrip s = s -> Py.int_rstrip (Py.int_lstrip s) = s.
Proof. intros Hl Hr. rewrite (int_lstrip_stripped s Hl). apply int_rstrip_stripped, Hr. Qed.

(** The digits of a text. *)
Lemma digit_count_app a b :
  Py.digit_count (a ++ b)%string = Py.digit_count a + Py.digit_count b.
Proof.
  induction a as [| c a IH]; [reflexivity |].
  rewrite string_app_cons. cbn [Py.digit_count]. rewrite IH. lia.
Qed.

Lemma digit_count_zeros n : Py.digit_count (Py.zeros n) = Z.of_nat n.
Proof.
  induction n as [| n IH]; [reflexivity |]. cbn [Py.zeros Py.digit_count]. rewrite IH.
  change (Py.isdigit "0") with true. lia.
Qed.

Lemma digit_count_length s : 0 <= Py.digit_count s <= Z.of_nat (String.length s).
Proof.
  induction s as [| c r IH]; [cbn; lia |]. cbn [Py.digit_count String.length].
  destruct (Py.isdigit c); lia.
Qed.

Lemma digit_count_uint d :
  Py.digit_count (NilEmpty.string_of_uint d)
  = Z.of_nat (String.length (NilEmpty.string_of_uint d)).
Proof.
  induction d; cbn [NilEmpty.string_of_uint Py.digit_count String.length];
    [reflexivity | ..]; rewrite IHd;
    match goal with |- context [Py.isdigit ?c] => change (Py.isdigit c) with true end; lia.
Qed.

(** Zeros put in front by [zfill] do not change the number [int] reads,
    as long as the digits stay within the limit. *)
Lemma int_zfill_str_of_int z width :
  decimal_digits z <= Py.max_str_digits ->
  Z.of_nat width <= Py.max_str_digits ->
  Py.int (Py.zfill (Py.str_of_int z) width) = Returns z.
Proof.
  intros Hlim Hw.
  destruct (str_of_int_trimmed z) as (Hl & Hr & Hne & _).
  pose proof (strip_zfill _ width Hl Hr Hne) as Hst.
  destruct (strip_fixed (Py.zfill (Py.str_of_int z) width)) as [Hl' Hr'].
  rewrite Hst in Hl', Hr'.
  unfold Py.int. rewrite (int_strip_stripped _ Hl' Hr').
  unfold decimal_digits in Hlim. revert Hlim.
  destruct (str_of_int_shape z) as (d & Hd & Hv & E). rewrite E.
  destruct (uint_text_head d Hd) as (c & r & Ed & Hc & Hs).
  pose proof (digit_count_uint d) as Hcount.
  set (s := NilEmpty.string_of_uint d) in *.
  assert (Hdig : forall b, Py.int_digits 0 b s = Some (Z.abs z)).
  { intros b. subst s. rewrite int_digits_uint by auto. rewrite Hv. reflexivity. }
  assert (Hlit : forall t, Py.digit_count t <= Py.max_str_digits ->
                           Py.int_literal t = Py.int_digits 0 false t).
  { intros t Ht. unfold Py.int_literal.
    destruct (Z.leb_spec (Py.digit_count t) Py.max_str_digits); [reflexivity | lia]. }
  destruct (Z.ltb_spec z 0) as [Hneg | Hpos]; rewrite ?string_app_cons, string_app_nil.
  - assert (Hz : - Z.abs z = z) by lia.
    cbn [Py.digit_count]. change (Py.isdigit "-") with false. cbv iota. intros Hlim.
    unfold Py.zfill. destruct (Nat.leb_spec width (String.length (String "-" s))).
    + change (Ascii.eqb "-" "-") with true. cbv iota.
      rewrite Hlit by lia. rewrite Hdig. cbn [option_map]. rewrite Hz. reflexivity.
    + change (Ascii.eqb "-" "+" || Ascii.eqb "-" "-") with true. cbv iota.
      change (Ascii.eqb "-" "-") with true. cbv iota.
      rewrite Hlit by (rewrite digit_count_app, digit_count_zeros, Hcount;
                       cbn [String.length] in *; lia).
      destruct (width - String.length (String "-" s))%nat as [| n] eqn:En.
      * cbn [Py.zeros]. rewrite string_app_nil, Hdig. cbn [option_map]. rewrite Hz. reflexivity.
      * rewrite int_digits_zeros by lia. rewrite Hdig. cbn [option_map]. rewrite Hz. reflexivity.
  - assert (Hz : Z.abs z = z) by lia.
    assert (Hc' : Ascii.eqb c "-" = false /\ Ascii.eqb c "+" = false).
    { apply orb_false_elim in Hs as [? ?]. auto. }
    destruct Hc' as [Hm Hp]. intros Hlim.
    unfold Py.zfill. destruct (Nat.leb_spec width (String.length s)).
    + rewrite Ed, Hm, Hp, <- Ed, Hlit, Hdig, Hz by assumption. reflexivity.
    + rewrite Ed, Hs, <- Ed.
      destruct (width - String.length s)%nat as [| n] eqn:En; [lia |].
      cbn [Py.zeros]. rewrite string_app_cons.
      change (Ascii.eqb "0" "-") with false. change (Ascii.eqb "0" "+") with false.
      cbv iota. change (String "0" (Py.zeros n ++ s)) with (Py.zeros (S n) ++ s)%string.
      rewrite Hlit by (rewrite digit_count_app, digit_count_zeros, Hcount; lia).
      rewrite int_digits_zeros by lia. rewrite Hdig, Hz. reflexivity.
Qed.

(** Beyond the limit [int] refuses the text [str] prints. *)
Lemma int_str_of_int_long z :
  Py.max_str_digits < decimal_digits z -> Py.int (Py.str_of_int z) = Raises ValueError.
Proof.
  intros Hlim. destruct (str_of_int_trimmed z) as (Hl & Hr & Hne & _).
  unfold Py.int. rewrite (int_strip_stripped _ Hl Hr).
  unfold decimal_digits in Hlim. revert Hlim.
  destruct (str_of_int_shape z) as (d & Hd & Hv & E). rewrite E.
  destruct (uint_text_head d Hd) as (c & r & Ed & Hc & Hs).
  set (s := NilEmpty.string_of_uint d) in *.
  assert (Hlit : forall t, Py.max_str_digits < Py.digit_count t -> Py.int_literal t = None).
  { intros t Ht. unfold Py.int_literal.
    destruct (Z.leb_spec (Py.digit_count t) Py.max_str_digits); [lia | reflexivity]. }
  destruct (z <? 0)%Z; rewrite ?string_app_cons, string_app_nil.
  - cbn [Py.digit_count]. change (Py.isdigit "-") with false. cbv iota. intros Hlim.
    change (Ascii.eqb "-" "-") with true. cbv iota. rewrite Hlit by lia. reflexivity.
  - intros Hlim. apply orb_false_elim in Hs as [Hp Hm].
    rewrite Ed, Hm, Hp, <- Ed, Hlit by assumption. reflexivity.
Qed.

(** X5. Printing an integer and parsing it back is the identity as long as
    the integer has at most 4300 digits, the limit of [int] and [str]:
    [parse_int] of such an integer cell, or of the text [str] prints for
    it, is that integer. A text of more digits is refused by [int], so
    [parse_int] gives null for it. *)
Theorem parse_int_of_str (z : Z) :
  (decimal_digits z <= Py.max_str_digits ->
   parse_int (CInt z) = Returns (Some z)
   /\ parse_int (CStr (Py.str_of_int z)) = Returns (Some z))
  /\ (Py.max_str_digits < decimal_digits z ->
      parse_int (CStr (Py.str_of_int z)) = Returns None).
Proof.
  assert (H : forall v, str v = Py.str_of_int z -> isna v = false ->
                        parse_int v
                        = try_except (obind (Py.int (Py.str_of_int z))
                                        (fun n => Returns (Some n))) None).
  { intros v Hv Hna. unfold parse_int. rewrite Hna, Hv. cbn [orb].
    destruct (str_of_int_trimmed z) as (Hl & Hr & Hne & Hcomma).
    rewrite Hcomma, (strip_of_fixed _ Hl Hr).
    destruct (String.eqb_spec (Py.str_of_int z) ""); [contradiction |].
    cbv zeta. destruct (Py.str_of_int z) eqn:E; [contradiction | reflexivity]. }
  split.
  - intros Hlim.
    pose proof (int_zfill_str_of_int z 0 Hlim ltac:(unfold Py.max_str_digits; lia)) as Hi.
    rewrite zfill_long in Hi by lia.
    split; rewrite H by reflexivity; rewrite Hi; reflexivity.
  - intros Hlim. rewrite H by reflexivity.
    rewrite (int_str_of_int_long z Hlim). reflexivity.
Qed.

(** 1203 is printed and read back; so is -7. *)
Lemma parse_int_of_str_witness :
  parse_int (CInt 1203) = Returns (Some 1203)
  /\ parse_int (CStr "1203") = Returns (Some 1203).
Proof.
  apply (proj1 (parse_int_of_str 1203)). vm_compute. discriminate.
Defined.

(** X6. An integer code of at most 4300 digits keeps its value under
    [zero_pad] for a width of at most 4300: [int] reads the normalized
    code back as the integer, so two such codes get the same key exactly
    when they are equal. *)
Theorem zero_pad_int_code (a b : Z) (width : nat) :
  decimal_digits a <= Py.max_str_digits ->
  decimal_digits b <= Py.max_str_digits ->
  Z.of_nat width <= Py.max_str_digits ->
  (exists k, zero_pad (CInt a) width = Some k /\ Py.int k = Returns a)
  /\ (zero_pad (CInt a) width = zero_pad (CInt b) width <-> a = b).
Proof.
  intros Ha Hb Hw.
  assert (H : forall z, zero_pad (CInt z) width = Some (Py.zfill (Py.str_of_int z) width)).
  { intros z. destruct (str_of_int_trimmed z) as (Hl & Hr & Hne & _).
    rewrite zero_pad_Some; cbn [str]; rewrite ?(strip_of_fixed _ Hl Hr);
      [reflexivity | discriminate | assumption]. }
  split.
  - eexists. split; [apply H | apply int_zfill_str_of_int; assumption].
  - split; [| intros ->; reflexivity].
    rewrite !H. intros [= E].
    pose proof (int_zfill_str_of_int a width Ha Hw) as Ea.
    rewrite E, int_zfill_str_of_int in Ea by assumption. congruence.
Qed.

(** The labeler codes 45 and 46 at the width 5. *)
Lemma zero_pad_int_code_witness :
  (exists k, zero_pad (CInt 45) 5 = Some k /\ Py.int k = Returns 45)
  /\ (zero_pad (CInt 45) 5 = zero_pad (CInt 46) 5 <-> 45 = 46).
Proof.
  apply (zero_pad_int_code 45 46 5); vm_compute; discriminate.
Defined.

(** ** The mapping and the join *)

Lemma ndc_step_size lookup r : (size (ndc_step lookup r) <= S (size lookup))%nat.
Proof.
  unfold ndc_step.
  destruct (zero_pad _ 5) as [l |]; [| lia].
  destruct (zero_pad _ 4) as [p |]; [| lia].
  cbv zeta. destruct (_ && _); [| lia].
  destruct (lookup !! (l, p)) as [v |] eqn:E.
  - destruct (negb (truthy v)); [| lia].
    rewrite map_size_insert_Some by eauto. lia.
  - rewrite map_size_insert_None by assumption. lia.
Qed.

Lemma ndc_fold_size df : forall lookup,
  (size (foldl ndc_step lookup df) <= size lookup + length df)%nat.
Proof.
  induction df as [| r df IH]; intros lookup; cbn [foldl length]; [lia |].
  specialize (IH (ndc_step lookup r)). pose proof (ndc_step_size lookup r). lia.
Qed.

Lemma head_in {A} (l : list A) a : head l = Some a -> In a l.
Proof. destruct l; [discriminate | intros [= ->]; left; reflexivity]. Qed.

Lemma in_candidates l p df a :
  In a (candidates l p df) <->
  exists r, In r df /\ a = application_number r
            /\ zero_pad (labeler_cell r) 5 = Some l
            /\ zero_pad (product_cell r) 4 = Some p
            /\ application_number r <> "".
Proof.
  unfold candidates. rewrite in_map_iff. split.
  - intros (r & <- & Hr). apply filter_In in Hr as (Hr & Hb).
    apply bool_decide_eq_true in Hb as (? & ? & ?). exists r. auto.
  - intros (r & Hr & -> & ? & ? & ?). exists r. split; [reflexivity |].
    apply filter_In. split; [assumption |]. apply bool_decide_eq_true. auto.
Qed.

(** The text [strip] returns has no whitespace at either end. *)
Lemma rstrip_last s : forall a c,
  Py.rstrip s = (a ++ String c "")%string -> Py.isspace c = false.
Proof.
  induction s as [| d r IH]; intros a c H.
  - destruct a; discriminate H.
  - cbn [Py.rstrip] in H. destruct (Py.rstrip r) as [| e r'] eqn:E.
    + destruct (Py.isspace d) eqn:Hd; [destruct a; discriminate H |].
      destruct a as [| x a]; [injection H as <-; exact Hd |].
      rewrite string_app_cons in H. injection H as _ H. destruct a; discriminate H.
    + destruct a as [| x a]; [discriminate H |].
      rewrite string_app_cons in H. injection H as _ H. apply (IH a c). exact H.
Qed.

Lemma strip_trimmed s : trimmed (Py.strip s).
Proof.
  intros a c b E [-> | ->].
  - rewrite string_app_nil in E. unfold Py.strip in E.
    destruct (lstrip_head s) as [H | (c' & r & H & Hc)]; rewrite H in E; [discriminate |].
    destruct (rstrip_keeps_head c' r Hc) as [r' Hr]. rewrite Hr in E.
    injection E as -> _. exact Hc.
  - apply (rstrip_last (Py.lstrip s) a c). exact E.
Qed.

(** X7. Every entry of the cross-reference mapping comes from a row of
    the identifier extract: its key is that row's pair of normalized codes
    and its value the text of that row's Application Number cell, trimmed
    (no whitespace at either end) and not empty. For the NaN of an empty
    field that text is ["nan"]. The mapping has at most as many entries as
    the extract has rows, and none for an empty extract. *)
Theorem ndc_lookup_entries (df : list row) :
  (forall l p a,
      ndc_lookup_of df !! (l, p) = Some a ->
      a <> "" /\ trimmed a /\ Py.strip a = a
      /\ exists r, In r df
                   /\ a = Py.strip (str (row_get r "Application Number" (CStr "")))
                   /\ (row_get r "Application Number" (CStr "") = CNaN -> a = "nan")
                   /\ zero_pad (labeler_cell r) 5 = Some l
                   /\ zero_pad (product_cell r) 4 = Some p)
  /\ (size (ndc_lookup_of df) <= length df)%nat
  /\ ndc_lookup_of [] = ∅.
Proof.
  split; [| split; [| reflexivity]].
  - intros l p a H. rewrite ndc_lookup_of_spec in H. apply head_in in H.
    apply in_candidates in H as (r & Hr & -> & Hl & Hp & Hne).
    split; [assumption |]. split; [apply strip_trimmed |]. split; [apply strip_idem |].
    exists r. split; [assumption |]. split; [reflexivity |].
    split; [| auto]. intros E. unfold application_number. rewrite E. reflexivity.
  - unfold ndc_lookup_of. pose proof (ndc_fold_size df ∅) as H.
    rewrite map_size_empty in H. exact H.
Qed.

(** X8. The cross-reference builder and the sales loader compose into a
    join on the normalized codes: with the mapping built from an
    identifier extract, the row made from a sales row carries its two
    normalized codes, and its application number is the first one proposed
    for that pair of codes in the identifier extract. It is null exactly
    when a code of the sales row normalizes to null, which is the case of
    a [None] cell and of a blank text, or no identifier row with a
    non-empty application number normalizes to the same pair of codes.
    The NaN of an empty field is no such blank: as a code it normalizes
    to ["00nan"] and ["0nan"] and joins like any other code. *)
Theorem sales_join_on_normalized_codes {float} (py_float : string -> outcome float)
    (df : list row) (r : row) (t : SalesRow float) :
  sales_tuple py_float (ndc_lookup_of df) r = Returns t ->
  s_labeler_code t = zero_pad (labeler_cell r) 5
  /\ s_product_code t = zero_pad (product_cell r) 4
  /\ s_appl_no t
     = match s_labeler_code t, s_product_code t with
       | Some l, Some p => head (candidates l p df)
       | _, _ => None
       end
  /\ (is_Some (s_appl_no t) <->
      exists r0, In r0 df /\ application_number r0 <> ""
                 /\ is_Some (zero_pad (labeler_cell r) 5)
                 /\ is_Some (zero_pad (product_cell r) 4)
                 /\ zero_pad (labeler_cell r0) 5 = zero_pad (labeler_cell r) 5
                 /\ zero_pad (product_cell r0) 4 = zero_pad (product_cell r) 4)
  /\ (forall v width, zero_pad v width = None <-> blank_code v)
  /\ zero_pad CNaN 5 = Some "00nan" /\ zero_pad CNaN 4 = Some "0nan".
Proof.
  intros Ht.
  destruct (sales_tuple_returns py_float (ndc_lookup_of df) r) as (t' & Ht' & Ha & Hl & Hp).
  rewrite Ht in Ht'. injection Ht' as <-.
  split; [exact Hl |]. split; [exact Hp |].
  assert (Hjoin : s_appl_no t
                  = match zero_pad (labeler_cell r) 5, zero_pad (product_cell r) 4 with
                    | Some l, Some p => head (candidates l p df)
                    | _, _ => None
                    end).
  { rewrite Ha. unfold lookup_appl_no.
    destruct (zero_pad (labeler_cell r) 5) as [l |] eqn:El; [| reflexivity].
    destruct (zero_pad (product_cell r) 4) as [p |] eqn:Ep; [| reflexivity].
    rewrite (zero_pad_truthy _ _ _ El), (zero_pad_truthy _ _ _ Ep). cbn [andb].
    apply ndc_lookup_of_spec. }
  split; [rewrite Hl, Hp; exact Hjoin |].
  split; [| split; [| split; reflexivity]].
  - rewrite Hjoin.
    destruct (zero_pad (labeler_cell r) 5) as [l |] eqn:El;
      [destruct (zero_pad (product_cell r) 4) as [p |] eqn:Ep |].
    + split.
      * intros [a Hh]. apply head_in, in_candidates in Hh as (r0 & ? & _ & ? & ? & ?).
        exists r0. repeat split; eauto.
      * intros (r0 & Hin & Hne & _ & _ & Hl0 & Hp0).
        assert (Hc : In (application_number r0) (candidates l p df)).
        { apply in_candidates. exists r0. auto. }
        destruct (candidates l p df); [destruct Hc | eauto].
    + split; [intros [? [=]] | intros (_ & _ & _ & _ & [? [=]] & _)].
    + split; [intros [? [=]] | intros (_ & _ & _ & [? [=]] & _)].
  - intros v width. split.
    + intros H. destruct (Py.strip (str v)) eqn:E; [right; exact E |].
      left. destruct v; [reflexivity | ..];
        rewrite zero_pad_Some in H by (rewrite ?E; discriminate); discriminate H.
    + intros [-> | H]; [reflexivity | apply zero_pad_blank, H].
Qed.

(** ** The aggregate passes *)

Section AggregatePass.

Context {R : Type} (ingredient dosage appl_no : R -> option string).
Context (set_count : R -> option Z -> R).

Local Abbreviation gkey := (group_key ingredient dosage).
Local Abbreviation gcount := (count_distinct_appl_no ingredient dosage appl_no).

(** The UPDATE as a map over the rows, once every row that can join finds
    its group among those of the subquery. *)
Lemma update_join_map (src t : list (Z * R)) :
  (forall x, In x t -> ingredient x.2 <> None -> dosage x.2 <> None ->
             In (gkey x) (map gkey src)) ->
  update_join ingredient dosage set_count
    (select_group_counts ingredient dosage appl_no src) t
  = map (fun x =>
           match ingredient x.2, dosage x.2 with
           | Some _, Some _ => (x.1, set_count x.2 (Some (gcount src (gkey x))))
           | _, _ => x
           end) t.
Proof.
  intros Hsrc. unfold update_join, select_group_counts.
  apply map_ext_in. intros x Hx.
  destruct (ingredient x.2) as [i |] eqn:Hi; [destruct (dosage x.2) as [d |] eqn:Hd |].
  - rewrite (find_group ingredient dosage x (gcount src)).
    + reflexivity.
    + apply list_elem_of_In, elem_of_remove_dups, list_elem_of_In.
      apply Hsrc; [assumption | congruence | congruence].
    + congruence.
    + congruence.
  - rewrite find_no_group by auto. reflexivity.
  - rewrite find_no_group by auto. reflexivity.
Qed.

(** The count of a group only reads the ingredient, the dosage and the
    application number of the rows. *)
Lemma gcount_ext (t t' : list (Z * R)) g :
  map (fun x => (gkey x, appl_no x.2)) t = map (fun x => (gkey x, appl_no x.2)) t' ->
  gcount t g = gcount t' g.
Proof.
  intros H. unfold count_distinct_appl_no. do 3 f_equal.
  assert (E : forall l : list (Z * R),
             omap (fun x => appl_no x.2) (List.filter (fun x => bool_decide (gkey x = g)) l)
             = omap (fun p : (option string * option string) * option string =>
                       if bool_decide (p.1 = g) then p.2 else None)
                 (map (fun x => (gkey x, appl_no x.2)) l)).
  { induction l as [| x l IH]; [reflexivity |]. cbn [List.filter map omap list_omap fst snd].
    destruct (bool_decide (gkey x = g)); cbn [omap list_omap]; rewrite IH; reflexivity. }
  rewrite !E, H. reflexivity.
Qed.

Hypothesis ingredient_set : forall r n, ingredient (set_count r n) = ingredient r.
Hypothesis dosage_set : forall r n, dosage (set_count r n) = dosage r.
Hypothesis appl_no_set : forall r n, appl_no (set_count r n) = appl_no r.
Hypothesis set_set : forall r n m, set_count (set_count r n) m = set_count r m.

(** A pass that writes counts does not change what the counts are
    computed from. *)
Lemma counted_same_groups (f : Z * R -> Z) (t : list (Z * R)) :
  map (fun x => (gkey x, appl_no x.2))
    (map (fun x =>
            match ingredient x.2, dosage x.2 with
            | Some _, Some _ => (x.1, set_count x.2 (Some (f x)))
            | _, _ => x
            end) t)
  = map (fun x => (gkey x, appl_no x.2)) t.
Proof.
  rewrite map_map. apply map_ext. intros x. unfold group_key.
  destruct (ingredient x.2) eqn:Hi; [destruct (dosage x.2) eqn:Hd |];
    cbn [fst snd]; rewrite ?ingredient_set, ?dosage_set, ?appl_no_set, ?Hi, ?Hd;
    reflexivity.
Qed.

(** Writing the counts twice is writing them once. *)
Lemma update_join_select_idem (t : list (Z * R)) :
  let pass := fun t =>
    update_join ingredient dosage set_count
      (select_group_counts ingredient dosage appl_no t) t in
  pass (pass t) = pass t.
Proof.
  cbv beta zeta.
  assert (Hmap : forall t,
             update_join ingredient dosage set_count
               (select_group_counts ingredient dosage appl_no t) t
             = map (fun x =>
                      match ingredient x.2, dosage x.2 with
                      | Some _, Some _ => (x.1, set_count x.2 (Some (gcount t (gkey x))))
                      | _, _ => x
                      end) t).
  { intros t0. apply update_join_map. intros x Hx _ _. apply in_map. exact Hx. }
  rewrite (Hmap t). set (t' := map _ t). rewrite (Hmap t'). subst t'.
  rewrite map_map. apply map_ext. intros x.
  assert (Hc : forall g,
             gcount (map (fun x =>
                            match ingredient x.2, dosage x.2 with
                            | Some _, Some _ =>
                                (x.1, set_count x.2 (Some (gcount t (gkey x))))
                            | _, _ => x
                            end) t) g
             = gcount t g).
  { intros g. apply gcount_ext.
    apply (counted_same_groups (fun x => gcount t (gkey x))). }
  destruct (ingredient x.2) as [i |] eqn:Hi; [destruct (dosage x.2) as [d |] eqn:Hd |];
    cbn [fst snd]; rewrite ?ingredient_set, ?dosage_set, ?Hi, ?Hd; try reflexivity.
  rewrite set_set, Hc. unfold group_key. cbn [fst snd].
  rewrite ingredient_set, dosage_set. reflexivity.
Qed.

(** The WHERE clause of the seller subquery changes no count that is
    used: a group with a NULL is joined by no row. *)
Lemma gcount_where (t : list (Z * R)) g :
  g.1 <> None -> g.2 <> None ->
  gcount (List.filter
            (fun x => Sql.holds (Sql.is_not_null (ingredient x.2)
                                 &&& Sql.is_not_null (dosage x.2))) t) g
  = gcount t g.
Proof.
  intros H1 H2. unfold count_distinct_appl_no. do 4 f_equal.
  induction t as [| x t IH]; [reflexivity |]. cbn [List.filter].
  destruct (bool_decide (gkey x = g)) eqn:E.
  - apply bool_decide_eq_true in E. subst g. unfold group_key in H1, H2.
    cbn [fst snd] in H1, H2.
    destruct (ingredient x.2); [| contradiction]. destruct (dosage x.2); [| contradiction].
    cbn [Sql.is_not_null Sql.and3 Sql.holds List.filter].
    rewrite bool_decide_eq_true_2 by reflexivity. rewrite IH. reflexivity.
  - destruct (Sql.holds _); cbn [List.filter]; rewrite ?E; exact IH.
Qed.

End AggregatePass.

Lemma update_number_of_approvals_map (t : list (Z * ProductRow)) :
  update_number_of_approvals t
  = map (fun x =>
           match p_ingredient x.2, p_dosage x.2 with
           | Some _, Some _ =>
               (x.1, set_number_of_approvals x.2 (Some (approvals_in_group t x.2)))
           | _, _ => x
           end) t.
Proof.
  unfold update_number_of_approvals. rewrite update_join_map.
  - apply map_ext. intros x. rewrite count_distinct_is_approvals_in_group. reflexivity.
  - intros x Hx _ _. apply in_map. exact Hx.
Qed.

Lemma count_distinct_is_sellers_in_group {float} (t : list (Z * SalesRow float)) x :
  count_distinct_appl_no s_ingredient s_dosage s_appl_no t
    (group_key s_ingredient s_dosage x)
  = sellers_in_group t x.2.
Proof.
  unfold count_distinct_appl_no, sellers_in_group.
  rewrite size_list_to_set_remove_dups. do 4 f_equal.
  apply List.filter_ext. intros y. unfold group_key.
  apply bool_decide_ext. split; [intros [= -> ->]; auto | intros [-> ->]; reflexivity].
Qed.

(** The seller pass with and without the WHERE clause of its subquery. *)
Lemma update_number_of_sellers_unfiltered {float} (t : list (Z * SalesRow float)) :
  update_number_of_sellers t
  = update_join s_ingredient s_dosage set_number_of_sellers
      (select_group_counts s_ingredient s_dosage s_appl_no t) t.
Proof.
  unfold update_number_of_sellers. rewrite !update_join_map.
  - apply map_ext. intros x.
    destruct (s_ingredient x.2) eqn:Hi; [destruct (s_dosage x.2) eqn:Hd |]; try reflexivity.
    rewrite gcount_where; [reflexivity | |]; unfold group_key; cbn [fst snd]; congruence.
  - intros x Hx _ _. apply in_map. exact Hx.
  - intros x Hx Hi Hd. apply in_map. apply filter_In. split; [exact Hx |].
    destruct (s_ingredient x.2); [| contradiction]. destruct (s_dosage x.2); [| contradiction].
    reflexivity.
Qed.

(** X9. The seller-count pass sets the derived count of every sales row
    whose ingredient and dosage are both not NULL to the number of
    distinct application numbers (NULL not counted, so 0 when no row of
    the group is linked) among the sales rows with the same ingredient and
    dosage, and leaves every other row as it was. *)
Theorem seller_counts_per_group {float} (t : list (Z * SalesRow float)) :
  update_number_of_sellers t
  = map (fun x =>
           match s_ingredient x.2, s_dosage x.2 with
           | Some _, Some _ =>
               (x.1, set_number_of_sellers x.2 (Some (sellers_in_group t x.2)))
           | _, _ => x
           end) t.
Proof.
  rewrite update_number_of_sellers_unfiltered, update_join_map.
  - apply map_ext. intros x. rewrite count_distinct_is_sellers_in_group. reflexivity.
  - intros x Hx _ _. apply in_map. exact Hx.
Qed.

(** X10. Both aggregate passes are idempotent: a second run writes the
    counts the first run wrote. The counts are computed from the
    ingredient, dosage and application number columns only, which the
    passes do not change. *)
Theorem aggregate_passes_idempotent {float} (tp : list (Z * ProductRow))
    (ts : list (Z * SalesRow float)) :
  update_number_of_approvals (update_number_of_approvals tp)
  = update_number_of_approvals tp
  /\ update_number_of_sellers (update_number_of_sellers ts)
     = update_number_of_sellers ts.
Proof.
  split.
  - apply (update_join_select_idem p_ingredient p_dosage p_appl_no set_number_of_approvals);
      reflexivity.
  - rewrite !update_number_of_sellers_unfiltered.
    apply (update_join_select_idem s_ingredient s_dosage s_appl_no set_number_of_sellers);
      reflexivity.
Qed.

(** ** The deduplicator, again *)

Lemma delete_join_incl {R} (cond : Z * R -> Z * R -> option bool) t x :
  In x (delete_join cond t) -> In x t.
Proof. unfold delete_join. intros H. apply filter_In in H as [H _]. exact H. Qed.

Lemma filter_all {A} (f : A -> bool) l :
  (forall x, In x l -> f x = true) -> List.filter f l = l.
Proof.
  induction l as [| a l IH]; intros H; [reflexivity |]. cbn [List.filter].
  rewrite (H a) by (left; reflexivity). f_equal. apply IH. intros x Hx. apply H. right. exact Hx.
Qed.

Lemma delete_join_idem {R} (cond : Z * R -> Z * R -> option bool) t :
  delete_join cond (delete_join cond t) = delete_join cond t.
Proof.
  unfold delete_join at 1. apply filter_all. intros x Hx.
  unfold delete_join in Hx. apply filter_In in Hx as [_ Hx].
  apply negb_true_iff. apply negb_true_iff in Hx.
  apply not_true_is_false. intros E. apply existsb_exists in E as (y & Hy & Hc).
  apply delete_join_incl in Hy.
  assert (existsb (fun t2 => Sql.holds (cond x t2)) t = true); [| congruence].
  apply existsb_exists. eauto.
Qed.

Lemma delete_join_sublist {R} (cond : Z * R -> Z * R -> option bool) t :
  sublist (delete_join cond t) t.
Proof.
  unfold delete_join. generalize (fun t1 => negb (existsb (fun t2 => Sql.holds (cond t1 t2)) t)).
  intros f. induction t as [| x t IH]; [constructor |]. cbn [List.filter].
  destruct (f x); [apply sublist_skip | apply sublist_cons]; exact IH.
Qed.

Lemma remove_duplicates_working {float} (c : connection float) :
  working (remove_duplicates c).2
  = let w := working c in
    put_patent (with_rows (patent w) (delete_patent (rows (patent w))))
      (put_exclusivity
         (with_rows (exclusivity w) (delete_exclusivity (rows (exclusivity w))))
         (put_products (with_rows (products w) (delete_products (rows (products w)))) w)).
Proof. reflexivity. Qed.

(** X11. [remove_duplicates] never raises, commits what it did, leaves
    the sales table untouched and only takes rows out of the other three:
    what is left of each table is a sublist of what was there, every
    surviving row with its id and its columns as before. A second run
    deletes nothing more. *)
Theorem remove_duplicates_only_deletes {float} (c : connection float) :
  let c1 := (remove_duplicates c).2 in
  let c2 := (remove_duplicates c1).2 in
  (remove_duplicates c).1 = Returns tt
  /\ committed c1 = working c1
  /\ sales (working c1) = sales (working c)
  /\ sublist (rows (products (working c1))) (rows (products (working c)))
  /\ sublist (rows (exclusivity (working c1))) (rows (exclusivity (working c)))
  /\ sublist (rows (patent (working c1))) (rows (patent (working c)))
  /\ working c2 = working c1.
Proof.
  cbv zeta. split; [reflexivity |]. split; [reflexivity |]. split; [reflexivity |].
  split; [apply delete_join_sublist |]. split; [apply delete_join_sublist |].
  split; [apply delete_join_sublist |].
  rewrite !remove_duplicates_working.
  unfold put_patent, put_exclusivity, put_products, with_rows.
  cbn [products exclusivity patent sales rows auto_increment].
  unfold delete_products, delete_exclusivity, delete_patent.
  rewrite !delete_join_idem. reflexivity.
Qed.

Lemma approvals_in_group_same_rows (t t' : list (Z * ProductRow)) r :
  (forall x, In x t -> exists x', In x' t'
                                 /\ p_ingredient x'.2 = p_ingredient x.2
                                 /\ p_dosage x'.2 = p_dosage x.2
                                 /\ p_appl_no x'.2 = p_appl_no x.2) ->
  (forall x, In x t' -> exists x', In x' t
                                  /\ p_ingredient x'.2 = p_ingredient x.2
                                  /\ p_dosage x'.2 = p_dosage x.2
                                  /\ p_appl_no x'.2 = p_appl_no x.2) ->
  approvals_in_group t r = approvals_in_group t' r.
Proof.
  intros H1 H2. unfold approvals_in_group. do 2 f_equal. apply set_eq. intros a.
  rewrite !elem_of_list_to_set, !list_elem_of_omap.
  assert (Hdir : forall u u' : list (Z * ProductRow),
             (forall x, In x u -> exists x', In x' u'
                                            /\ p_ingredient x'.2 = p_ingredient x.2
                                            /\ p_dosage x'.2 = p_dosage x.2
                                            /\ p_appl_no x'.2 = p_appl_no x.2) ->
             (exists x, x ∈ List.filter
                          (fun x => bool_decide (p_ingredient x.2 = p_ingredient r
                                                 /\ p_dosage x.2 = p_dosage r)) u
                        /\ p_appl_no x.2 = Some a) ->
             exists x, x ∈ List.filter
                         (fun x => bool_decide (p_ingredient x.2 = p_ingredient r
                                                /\ p_dosage x.2 = p_dosage r)) u'
                       /\ p_appl_no x.2 = Some a).
  { intros u u' Hu (x & Hx & Ha). apply list_elem_of_In, filter_In in Hx as (Hx & Hg).
    apply bool_decide_eq_true in Hg as (Hi & Hd).
    destruct (Hu x Hx) as (x' & Hx' & Ei & Ed & Ea). exists x'. split; [| congruence].
    apply list_elem_of_In, filter_In. split; [exact Hx' |].
    apply bool_decide_eq_true. split; congruence. }
  split; apply Hdir; assumption.
Qed.

Lemma approvals_in_group_dedup (t : list (Z * ProductRow)) r :
  approvals_in_group (delete_products t) r = approvals_in_group t r.
Proof.
  apply approvals_in_group_same_rows.
  - intros x Hx. exists x. split; [eapply delete_join_incl; exact Hx | auto].
  - intros [id x] Hx.
    destruct (delete_join_keeps_lowest _ products_key delete_products_where_spec t id x Hx)
      as (id0 & _ & Hin & _).
    exists (id0, x). auto.
Qed.

Lemma approvals_in_group_update (t : list (Z * ProductRow)) r :
  approvals_in_group (update_number_of_approvals t) r = approvals_in_group t r.
Proof.
  rewrite update_number_of_approvals_map.
  apply approvals_in_group_same_rows.
  - intros x Hx. apply in_map_iff in Hx as (y & <- & Hy). exists y. split; [exact Hy |].
    destruct (p_ingredient y.2) eqn:Ei, (p_dosage y.2) eqn:Ed; cbn; auto.
  - intros y Hy. eexists. split; [apply in_map; exact Hy |].
    destruct (p_ingredient y.2) eqn:Ei, (p_dosage y.2) eqn:Ed; cbn; auto.
Qed.

Lemma approvals_in_group_of_group (t : list (Z * ProductRow)) r r' :
  p_ingredient r = p_ingredient r' -> p_dosage r = p_dosage r' ->
  approvals_in_group t r = approvals_in_group t r'.
Proof. intros Hi Hd. unfold approvals_in_group. rewrite Hi, Hd. reflexivity. Qed.

(** X12. Deduplication does not make the approval counts stale: the rows
    it deletes are copies, with the application number of a row that
    stays, so the number of distinct application numbers of every group is
    the same before and after. After the approval-count pass and the
    deduplication, every surviving products row with a non-NULL ingredient
    and dosage still carries the number of distinct application numbers of
    its group in the table as it now is. *)
Theorem approval_counts_survive_dedup (t : list (Z * ProductRow)) :
  (forall r, approvals_in_group (delete_products t) r = approvals_in_group t r)
  /\ (forall id r,
        In (id, r) (delete_products (update_number_of_approvals t)) ->
        p_ingredient r <> None -> p_dosage r <> None ->
        p_number_of_approvals r
        = Some (approvals_in_group (delete_products (update_number_of_approvals t)) r)).
Proof.
  split; [apply approvals_in_group_dedup |].
  intros id r Hin Hi Hd.
  rewrite approvals_in_group_dedup, approvals_in_group_update.
  apply delete_join_incl in Hin. rewrite update_number_of_approvals_map in Hin.
  apply in_map_iff in Hin as (x & Hx & _).
  destruct (p_ingredient x.2) eqn:Ei; [destruct (p_dosage x.2) eqn:Ed |].
  - injection Hx as _ <-. cbn [set_number_of_approvals p_number_of_approvals].
    reflexivity.
  - subst x. cbn [snd] in Ed. congruence.
  - subst x. cbn [snd] in Ei. congruence.
Qed.

Lemma same_loaded_columns (r1 r2 : ProductRow) n :
  set_number_of_approvals r1 None = set_number_of_approvals r2 None ->
  set_number_of_approvals r1 n = set_number_of_approvals r2 n.
Proof.
  destruct r1, r2. unfold set_number_of_approvals. simpl.
  intros [= -> -> -> -> -> -> -> -> -> -> -> -> -> -> ->]. reflexivity.
Qed.

(** X13. The order of the stages matters for deduplication: two products
    rows that agree in every loaded column, with [appl_no], [ingredient]
    and [dosage] not NULL, are duplicates after the approval-count pass
    whatever counts they carried before, so the later one is deleted. *)
Theorem stale_counts_do_not_block_dedup (t : list (Z * ProductRow))
    (id1 id2 : Z) (r1 r2 : ProductRow) :
  In (id1, r1) t -> In (id2, r2) t -> id1 < id2 ->
  set_number_of_approvals r1 None = set_number_of_approvals r2 None ->
  p_appl_no r2 <> None -> p_ingredient r2 <> None -> p_dosage r2 <> None ->
  let r2' := set_number_of_approvals r2 (Some (approvals_in_group t r2)) in
  In (id2, r2') (update_number_of_approvals t)
  /\ ~ In (id2, r2') (delete_products (update_number_of_approvals t)).
Proof.
  intros H1 H2 Hlt Heq Ha Hi Hd r2'.
  assert (Ecols : p_appl_no r1 = p_appl_no r2 /\ p_ingredient r1 = p_ingredient r2
                  /\ p_dosage r1 = p_dosage r2).
  { apply (f_equal p_appl_no) in Heq as E1. apply (f_equal p_ingredient) in Heq as E2.
    apply (f_equal p_dosage) in Heq as E3. cbn in E1, E2, E3. auto. }
  destruct Ecols as (Ea & Ei & Ed).
  assert (Hup : forall id r, In (id, r) t -> p_ingredient r <> None -> p_dosage r <> None ->
                  In (id, set_number_of_approvals r (Some (approvals_in_group t r)))
                    (update_number_of_approvals t)).
  { intros id r Hin Hi' Hd'. rewrite update_number_of_approvals_map. apply in_map_iff.
    exists (id, r). split; [| exact Hin]. cbn [fst snd].
    destruct (p_ingredient r); [| contradiction]. destruct (p_dosage r); [| contradiction].
    reflexivity. }
  split; [apply Hup; assumption |].
  intros Hin.
  apply (delete_join_spec _ products_key delete_products_where_spec) in Hin as [_ Hno].
  apply Hno. split; [split; assumption |].
  exists id1. split; [| exact Hlt].
  assert (E : r2' = set_number_of_approvals r1 (Some (approvals_in_group t r1))).
  { subst r2'. rewrite (approvals_in_group_of_group t r1 r2) by assumption.
    symmetry. apply same_loaded_columns, Heq. }
  rewrite E. apply Hup; [exact H1 | congruence | congruence].
Qed.

(** ** What the loaders and the whole run leave in the store *)

Section LoadedRows.

Context {float R : Type}.
Context (T : table_name) (get : database float -> table R).
Context (put : table R -> database float -> database float).
Hypothesis get_put : forall t w, get (put t w) = t.
Hypothesis put_put : forall t t' w, put t (put t' w) = put t w.
Hypothesis put_get : forall w, put (get w) w = w.

Lemma flushed_all (c : connection float) (tuples : list R) :
  committed c = working c ->
  let c' := foldl (flushed T get put) c (all_batches tuples) in
  working c' = put (insert_rows (get (working c)) tuples) (working c)
  /\ committed c' = working c'.
Proof.
  intros Hc c'. subst c'. split.
  - rewrite flushed_working by assumption. rewrite all_batches_concat. reflexivity.
  - apply flushed_committed. exact Hc.
Qed.

End LoadedRows.

(** X14. The loaders of products, exclusivity and patents lose and reorder
    nothing: with a readable extract each returns, and leaves the other
    tables as they were and its own table with the rows it held followed
    by one row per source row, in source order, all committed. A new
    products row has a NULL [number_of_approvals]. *)
Theorem loaders_append_in_source_order {float} (fs : files) (c : connection float)
    (dp de dpt : list row) :
  fs ProductsCsv = Some dp -> fs ExclusivityCsv = Some de -> fs PatentCsv = Some dpt ->
  committed c = working c ->
  (exists tuples c',
      load_products fs c = (Returns (length dp), c')
      /\ Forall2 (fun r t => products_tuple r = Returns t) dp tuples
      /\ Forall (fun t => p_number_of_approvals t = None) tuples
      /\ working c' = put_products (insert_rows (products (working c)) tuples) (working c)
      /\ committed c' = working c'
      /\ map snd (rows (products (working c')))
         = map snd (rows (products (working c))) ++ tuples)
  /\ (exists tuples c',
      load_exclusivity fs c = (Returns (length de), c')
      /\ Forall2 (fun r t => exclusivity_tuple r = Returns t) de tuples
      /\ working c'
         = put_exclusivity (insert_rows (exclusivity (working c)) tuples) (working c)
      /\ committed c' = working c'
      /\ map snd (rows (exclusivity (working c')))
         = map snd (rows (exclusivity (working c))) ++ tuples)
  /\ (exists tuples c',
      load_patents fs c = (Returns (length dpt), c')
      /\ Forall2 (fun r t => patent_tuple r = Returns t) dpt tuples
      /\ working c' = put_patent (insert_rows (patent (working c)) tuples) (working c)
      /\ committed c' = working c'
      /\ map snd (rows (patent (working c')))
         = map snd (rows (patent (working c))) ++ tuples).
Proof.
  intros Hp He Hpt Hc.
  destruct (@put_products_laws float) as (P1 & P2 & P3).
  destruct (@put_patent_laws float) as (T1 & T2 & T3).
  split; [| split].
  - destruct (load_products_run fs dp c Hp) as (ts & Hts & Hrun).
    destruct (flushed_all Products products put_products P1 P2 P3 c ts Hc) as [Hw Hcm].
    exists ts. eexists. split; [exact Hrun |]. split; [exact Hts |].
    split; [| split; [exact Hw | split; [exact Hcm |]]].
    + clear -Hts. induction Hts as [| r t dp ts Hr _ IH]; constructor; [| exact IH].
      unfold products_tuple in Hr.
      destruct (parse_date (row_get r "Approval_Date" CNone)); [| discriminate].
      injection Hr as <-. reflexivity.
    + rewrite Hw, P1. apply insert_rows_values.
  - destruct (load_exclusivity_run fs de c He) as (ts & Hts & Hrun).
    exists ts. eexists. split; [exact Hrun |]. split; [exact Hts |].
    split; [reflexivity |]. split; [reflexivity |]. apply insert_rows_values.
  - destruct (load_patents_run fs dpt c Hpt) as (ts & Hts & Hrun).
    destruct (flushed_all Patent patent put_patent T1 T2 T3 c ts Hc) as [Hw Hcm].
    exists ts. eexists. split; [exact Hrun |]. split; [exact Hts |].
    split; [exact Hw |]. split; [exact Hcm |].
    rewrite Hw, T1. apply insert_rows_values.
Qed.

Lemma update_number_of_sellers_length {float} (t : list (Z * SalesRow float)) :
  length (update_number_of_sellers t) = length t.
Proof.
  rewrite update_number_of_sellers_unfiltered, update_join_map.
  - apply length_map.
  - intros x Hx _ _. apply in_map. exact Hx.
Qed.

(** The three closing stages of a run, on the database they find. *)
Lemma closing_stages_working {float} (c : connection float) :
  (populate_number_of_product_approvals;;
   populate_number_of_sellers;;
   remove_duplicates) c
  = (Returns tt,
     let w := working c in
     let w' :=
       {| products :=
            with_rows (products w)
              (delete_products (update_number_of_approvals (rows (products w))));
          exclusivity :=
            with_rows (exclusivity w) (delete_exclusivity (rows (exclusivity w)));
          patent := with_rows (patent w) (delete_patent (rows (patent w)));
          sales := with_rows (sales w) (update_number_of_sellers (rows (sales w))) |} in
     {| committed := w'; working := w';
        log := log c ++ [Commit] ++ [Commit] ++ [Commit] ++ [Commit] ++ [Commit] |}).
Proof.
  unfold populate_number_of_product_approvals, populate_number_of_sellers,
    remove_duplicates, execute, commit, mbind, M_bind.
  cbn [working committed log products exclusivity patent sales put_products
       put_exclusivity put_patent put_sales with_rows rows auto_increment].
  rewrite <- !app_assoc. reflexivity.
Qed.

(** X15. With the five extracts readable [main] returns, everything it
    did is committed, and the store holds: in products, the rows it held
    and the loaded ones, counted and then deduplicated; in exclusivity and
    patent, the rows held and loaded, deduplicated; in sales, the rows held
    and every loaded row, counted and never deleted. The sales rows are
    linked through the mapping built from the identifier extract. *)
Theorem main_loads_counts_deduplicates {float} (py_float : string -> outcome float)
    (fs : files) (db : database float) (ndc dp de dpt ds : list row) :
  fs NdcCsv = Some ndc -> fs ProductsCsv = Some dp -> fs ExclusivityCsv = Some de ->
  fs PatentCsv = Some dpt -> fs SalesCsv = Some ds ->
  exists tp te tpt ts,
    Forall2 (fun r t => products_tuple r = Returns t) dp tp
    /\ Forall2 (fun r t => exclusivity_tuple r = Returns t) de te
    /\ Forall2 (fun r t => patent_tuple r = Returns t) dpt tpt
    /\ Forall2 (fun r t => sales_tuple py_float (ndc_lookup_of ndc) r = Returns t) ds ts
    /\ (main py_float fs db).1 = Returns tt
    /\ committed (main py_float fs db).2 = working (main py_float fs db).2
    /\ rows (products (committed (main py_float fs db).2))
       = delete_products
           (update_number_of_approvals (rows (insert_rows (products db) tp)))
    /\ rows (exclusivity (committed (main py_float fs db).2))
       = delete_exclusivity (rows (insert_rows (exclusivity db) te))
    /\ rows (patent (committed (main py_float fs db).2))
       = delete_patent (rows (insert_rows (patent db) tpt))
    /\ rows (sales (committed (main py_float fs db).2))
       = update_number_of_sellers (rows (insert_rows (sales db) ts))
    /\ length (rows (sales (committed (main py_float fs db).2)))
       = (length (rows (sales db)) + length ds)%nat.
Proof.
  intros Hn Hp He Hpt Hs.
  destruct (@put_products_laws float) as (P1 & P2 & P3).
  destruct (@put_patent_laws float) as (T1 & T2 & T3).
  destruct (@put_sales_laws float) as (S1 & S2 & S3).
  destruct (load_products_run fs dp (connect db) Hp) as (tp & Htp & R1).
  destruct (flushed_all Products products put_products P1 P2 P3 (connect db) tp eq_refl)
    as [W1 C1].
  set (c1 := foldl (flushed Products products put_products) (connect db) (all_batches tp)) in *.
  destruct (load_exclusivity_run fs de c1 He) as (te & Hte & R2).
  set (c2 := flushed Exclusivity exclusivity put_exclusivity c1 te) in *.
  destruct (load_patents_run fs dpt c2 Hpt) as (tpt & Htpt & R3).
  destruct (flushed_all Patent patent put_patent T1 T2 T3 c2 tpt eq_refl) as [W3 C3].
  set (c3 := foldl (flushed Patent patent put_patent) c2 (all_batches tpt)) in *.
  destruct (load_sales_run py_float fs (ndc_lookup_of ndc) ds c3 Hs) as (ts & Hts & R4).
  destruct (flushed_all Sales sales put_sales S1 S2 S3 c3 ts C3) as [W4 C4].
  set (c4 := foldl (flushed Sales sales put_sales) c3 (all_batches ts)) in *.
  exists tp, te, tpt, ts. do 4 (split; [assumption |]).
  assert (Hmain : main py_float fs db
                  = (Returns tt,
                     close ((populate_number_of_product_approvals;;
                             populate_number_of_sellers;;
                             remove_duplicates) c4).2)).
  { unfold main, main_try.
    erewrite M_bind_returns by (apply build_ndc_lookup_run; eassumption).
    erewrite M_bind_returns by exact R1.
    erewrite M_bind_returns by exact R2.
    erewrite M_bind_returns by exact R3.
    erewrite M_bind_returns by exact R4.
    rewrite closing_stages_working. reflexivity. }
  rewrite Hmain, closing_stages_working.
  cbn [fst snd close committed working products exclusivity patent sales with_rows rows].
  assert (Hw : working c4
               = put_sales (insert_rows (sales db) ts)
                   (put_patent (insert_rows (patent db) tpt)
                      (put_exclusivity (insert_rows (exclusivity db) te)
                         (put_products (insert_rows (products db) tp) db)))).
  { rewrite W4, W3. subst c2. cbn [flushed working]. rewrite W1. reflexivity. }
  rewrite Hw.
  cbn [put_sales put_patent put_exclusivity put_products products exclusivity patent sales].
  repeat split.
  rewrite update_number_of_sellers_length.
  rewrite <- (length_map snd), insert_rows_values, length_app, length_map.
  rewrite (Forall2_length _ _ _ Hts). reflexivity.
Qed.

(** ** Witnesses on the sample extracts *)

(** The first sample sales row carries the codes 00123 and 0045. *)
Lemma sales_join_on_normalized_codes_witness :
  exists t,
    sales_tuple Py.int (ndc_lookup_of sample_ndc)
      (sales_row (CInt 123) (CInt 45) "ASPIRIN" (CStr "$1,000")) = Returns t
    /\ s_labeler_code t = Some "00123" /\ s_product_code t = Some "0045".
Proof.
  destruct (sales_tuple_returns Py.int (ndc_lookup_of sample_ndc)
              (sales_row (CInt 123) (CInt 45) "ASPIRIN" (CStr "$1,000")))
    as (t & Ht & _).
  exists t. split; [exact Ht |].
  destruct (sales_join_on_normalized_codes Py.int sample_ndc _ t Ht) as (Hl & Hp & _).
  split; [exact Hl | exact Hp].
Defined.

(** Two copies of a row, the first with a count left by an earlier run. *)
Lemma stale_counts_do_not_block_dedup_witness :
  let t := [(1, aspirin "N000001" (Some "81MG") None (Some 7));
            (2, aspirin "N000001" (Some "81MG") None None)] in
  let r2' := set_number_of_approvals (aspirin "N000001" (Some "81MG") None None)
               (Some (approvals_in_group t (aspirin "N000001" (Some "81MG") None None))) in
  In (2, r2') (update_number_of_approvals t)
  /\ ~ In (2, r2') (delete_products (update_number_of_approvals t)).
Proof.
  intros t.
  apply (stale_counts_do_not_block_dedup t 1 2
           (aspirin "N000001" (Some "81MG") None (Some 7))
           (aspirin "N000001" (Some "81MG") None None)).
  - left. reflexivity.
  - right. left. reflexivity.
  - lia.
  - reflexivity.
  - discriminate.
  - discriminate.
  - discriminate.
Defined.

(** The three sample products rows are appended to an empty table. *)
Lemma loaders_append_in_source_order_witness :
  exists tuples c',
    load_products (float := Z) sample_files (connect empty_database) = (Returns 3%nat, c')
    /\ map snd (rows (products (working c'))) = tuples.
Proof.
  destruct (loaders_append_in_source_order (float := Z) sample_files (connect empty_database)
              sample_products [] [] eq_refl eq_refl eq_refl eq_refl)
    as ((tuples & c' & H1 & _ & _ & _ & _ & H2) & _).
  exists tuples, c'. split; [exact H1 | exact H2].
Defined.

(** The run on the sample extracts keeps the three sales rows. *)
Lemma main_loads_counts_deduplicates_witness :
  (main Py.int sample_files empty_database).1 = Returns tt
  /\ length (rows (sales (committed (main Py.int sample_files empty_database).2))) = 3%nat.
Proof.
  destruct (main_loads_counts_deduplicates Py.int sample_files empty_database
              sample_ndc sample_products [] [] sample_sales
              eq_refl eq_refl eq_refl eq_refl eq_refl)
    as (tp & te & tpt & ts & _ & _ & _ & _ & H1 & _ & _ & _ & _ & _ & H2).
  split; [exact H1 | exact H2].
Defined.

(** ** The pages of a search *)

(** X16. With a positive page size and [total] matching rows,
    [search_dataset] reports the least number of pages that holds them
    all: the pages that start before the end of the result are exactly the
    pages 1 to [totalPages], and there is no page when nothing matches. A
    page size of zero makes the division fail. *)
Theorem total_pages_cover_rows (total limit : Z) :
  0 <= total -> 0 < limit ->
  exists n,
    totalPages total limit = Some n
    /\ (n - 1) * limit < total <= n * limit
    /\ (n = 0 <-> total = 0)
    /\ (forall page, 1 <= page -> (offset page limit < total <-> page <= n))
    /\ totalPages total 0 = None.
Proof.
  intros Ht Hl. exists ((total + limit - 1) / limit).
  unfold totalPages, floor_div, offset.
  destruct (Z.eqb_spec limit 0) as [-> | _]; [lia |].
  pose proof (Z.div_mod (total + limit - 1) limit ltac:(lia)) as Hdm.
  pose proof (Z.mod_pos_bound (total + limit - 1) limit Hl) as Hb.
  set (n := (total + limit - 1) / limit) in *.
  set (m := (total + limit - 1) mod limit) in *.
  split; [reflexivity |]. split; [nia |]. split; [nia |].
  split; [| reflexivity].
  intros page Hp. split; intros H; nia.
Qed.

(** 101 rows in pages of 50: three pages. *)
Lemma total_pages_cover_rows_witness :
  totalPages 101 50 = Some 3 /\ offset 3 50 < 101 /\ ~ offset 4 50 < 101.
Proof.
  destruct (total_pages_cover_rows 101 50 ltac:(lia) ltac:(lia))
    as (n & Hn & _ & _ & Hpages & _).
  vm_compute in Hn. injection Hn as <-.
  split; [reflexivity |].
  split; [apply (proj2 (Hpages 3 ltac:(lia))); lia |].
  intros H. apply (proj1 (Hpages 4 ltac:(lia))) in H. lia.
Defined.
